(** * pensum-chart: the table pipeline of [.streamlit/streamlit_app.py]

    A shallow embedding of [coerce_numbers], [tidy_df], [filter_period] and
    [normalize_from_first], over a model of the pandas objects they work on:
    a frame is an index of row labels and a list of labelled columns, each
    with its dtype.  The functions are given twice: on frames as values, and,
    in [Obj], on references to frames in a heap, where assignment to a column
    changes the frame referred to.

    The pandas calls are modelled by their documented behaviour.  Three
    things pandas computes from text or delegates to numpy are parameters of
    the development: the reading of one number ([pd.to_numeric]), the
    reading of the dates of a column ([pd.to_datetime]) and the sorting
    permutation of [sort_values], whose default [kind="quicksort"] is
    documented as not stable.  [Numpy] holds the sort numpy runs for that
    kind on an array of Timestamps, to run [tidy_df] as pandas does.

    What the model leaves out: a Timestamp is an unbounded count of
    nanoseconds, without the range of int64 and without time zones; a column
    of numbers is always [float64], where pandas keeps [int64] for a column
    of whole numbers; strings are sequences of bytes, and [strip] knows the
    ASCII white space. *)

From Stdlib Require Import String Ascii ZArith Bool Lia PeanoNat List.
From Stdlib Require Import Floats Permutation Sorted.
Import ListNotations.

(* A decimal float literal stands for the nearest binary64 value, as in
   Python. *)
Set Warnings "-inexact-float".

(* ================================================================== *)
(** ** Exceptions *)

(** What the functions raise.  [DuplicateLabel c] stands for the two errors
    of pandas on a label that several columns carry: [df[c]] is then a frame,
    which [pd.to_datetime] refuses (ValueError) and which has no [.str]
    (AttributeError). *)
Inductive error : Type :=
| SchemaError                    (* line 66: ValueError("Fant ikke kolonnen 'Date' i CSV.") *)
| KeyError (c : string)          (* df[c]: no column carries the label c *)
| TypeError                      (* an operation the dtype of a column does not support *)
| DuplicateLabel (c : string).   (* a Series call on df[c], which is a frame *)

Inductive result (A : Type) : Type :=
| Ok (a : A)
| Err (e : error).

Arguments Ok {A} a.
Arguments Err {A} e.

Definition bind {A B : Type} (r : result A) (k : A -> result B) : result B :=
  match r with
  | Ok a => k a
  | Err e => Err e
  end.

Notation "x <- e ;; k" := (bind e (fun x => k))
  (at level 61, e at next level, right associativity).

(* ================================================================== *)
(** ** Python strings *)

Module Str.

(** [str.isspace] on the ASCII range: TAB..CR, FS..US and the space. *)
Definition isspace (c : ascii) : bool :=
  let n := nat_of_ascii c in
  ((9 <=? n) && (n <=? 13)) || ((28 <=? n) && (n <=? 32)).

Fixpoint lstrip (s : string) : string :=
  match s with
  | EmptyString => EmptyString
  | String c s' => if isspace c then lstrip s' else s
  end.

Fixpoint rstrip (s : string) : string :=
  match s with
  | EmptyString => EmptyString
  | String c s' =>
      match rstrip s' with
      | EmptyString => if isspace c then EmptyString else String c EmptyString
      | t => String c t
      end
  end.

(** [s.strip()] *)
Definition strip (s : string) : string := rstrip (lstrip s).

(** [s.replace(old, new)] for a pattern [old] of one character, as the two
    calls of [coerce_numbers] have it. *)
Fixpoint replace (old : ascii) (new : string) (s : string) : string :=
  match s with
  | EmptyString => EmptyString
  | String c s' =>
      if Ascii.eqb c old then (new ++ replace old new s')%string
      else String c (replace old new s')
  end.

End Str.

(* ================================================================== *)
(** ** Series and frames *)

(** A cell of a column of dtype [object]: text of the CSV, the float NaN that
    [read_csv] leaves for an empty field, or [pd.NA]. *)
Inductive pyobj : Type :=
| PyStr (s : string)
| PyNaN
| PyNA.

(** A column with its dtype.  A Timestamp is its count of nanoseconds since
    1970-01-01, as pandas stores it; [None] is NaT.  The null of [float64] is
    NaN. *)
Inductive Series : Type :=
| Object (v : list pyobj)
| Float64 (v : list float)
| Datetime64 (v : list (option Z)).

(** One cell of any column. *)
Inductive scalar : Type :=
| SObj (o : pyobj)
| SFloat (x : float)
| STime (t : option Z).

Record DataFrame : Type := mkDataFrame {
  index : list nat;                   (* the row labels *)
  columns : list (string * Series)    (* the columns, in order, with their labels *)
}.

Definition values (s : Series) : list scalar :=
  match s with
  | Object v => map SObj v
  | Float64 v => map SFloat v
  | Datetime64 v => map STime v
  end.

Definition size (s : Series) : nat := length (values s).

Definition labels (df : DataFrame) : list string := map fst (columns df).

Definition len (df : DataFrame) : nat := length (index df).

(** [df.empty]: one of the two axes has length 0. *)
Definition empty (df : DataFrame) : bool :=
  (len df =? 0) || (length (columns df) =? 0).

(** Every column has one cell per row label. *)
Definition wf (df : DataFrame) : Prop :=
  Forall (fun c => size (snd c) = len df) (columns df).

(** *** Selecting cells by position and by mask *)

Definition take_list {A : Type} (d : A) (idx : list nat) (l : list A) : list A :=
  map (fun i => nth i l d) idx.

Fixpoint select {A : Type} (mask : list bool) (l : list A) : list A :=
  match mask, l with
  | b :: mask', x :: l' => if b then x :: select mask' l' else select mask' l'
  | _, _ => []
  end.

Definition take_series (idx : list nat) (s : Series) : Series :=
  match s with
  | Object v => Object (take_list PyNaN idx v)
  | Float64 v => Float64 (take_list nan idx v)
  | Datetime64 v => Datetime64 (take_list None idx v)
  end.

Definition select_series (mask : list bool) (s : Series) : Series :=
  match s with
  | Object v => Object (select mask v)
  | Float64 v => Float64 (select mask v)
  | Datetime64 v => Datetime64 (select mask v)
  end.

(** [df.take(idx)]: the rows at the positions [idx], in that order. *)
Definition take (idx : list nat) (df : DataFrame) : DataFrame :=
  mkDataFrame (take_list 0 idx (index df))
              (map (fun c => (fst c, take_series idx (snd c))) (columns df)).

(** [df.loc[mask]]: the rows where the boolean mask holds. *)
Definition loc (mask : list bool) (df : DataFrame) : DataFrame :=
  mkDataFrame (select mask (index df))
              (map (fun c => (fst c, select_series mask (snd c))) (columns df)).

(** *** Rows *)

(** The row at a position: its label and its cells, column by column. *)
Definition row : Type := (nat * list (string * scalar))%type.

Definition row_at (df : DataFrame) (i : nat) : row :=
  (nth i (index df) 0,
   map (fun c => (fst c, nth i (values (snd c)) (SObj PyNaN))) (columns df)).

Definition rows (df : DataFrame) : list row :=
  map (row_at df) (seq 0 (len df)).

(** *** Columns by label *)

(** [df[c]] where a Series is expected.  [tidy_df] raises on a label that
    several columns carry, so that the frames it returns, the only ones the
    later steps are given, have none. *)
Definition getitem (df : DataFrame) (c : string) : result Series :=
  match filter (fun p => String.eqb (fst p) c) (columns df) with
  | [] => Err (KeyError c)
  | [p] => Ok (snd p)
  | _ :: _ :: _ => Err (DuplicateLabel c)
  end.

(** [df[c] = s]: the columns labelled [c] are replaced where they stand; a new
    label is appended. *)
Definition setitem (df : DataFrame) (c : string) (s : Series) : DataFrame :=
  if existsb (String.eqb c) (labels df)
  then mkDataFrame (index df)
         (map (fun p => if String.eqb (fst p) c then (fst p, s) else p) (columns df))
  else mkDataFrame (index df) (columns df ++ [(c, s)]).

(** [df.columns = names], for as many names as there are columns *)
Definition set_columns (df : DataFrame) (names : list string) : DataFrame :=
  mkDataFrame (index df) (combine names (map snd (columns df))).

(** *** Nulls *)

Definition isna_obj (o : pyobj) : bool :=
  match o with
  | PyStr _ => false
  | PyNaN | PyNA => true
  end.

Definition isna_time (t : option Z) : bool :=
  match t with
  | Some _ => false
  | None => true
  end.

Definition isna_scalar (x : scalar) : bool :=
  match x with
  | SObj o => isna_obj o
  | SFloat x => PrimFloat.is_nan x
  | STime t => isna_time t
  end.

(** [s.isna()] *)
Definition isna (s : Series) : list bool := map isna_scalar (values s).

(** [s.notna()] *)
Definition notna (s : Series) : list bool := map negb (isna s).

(** [s.dropna()] *)
Definition dropna_series (s : Series) : Series := select_series (notna s) s.

(** [df.dropna(subset=[c])] *)
Definition dropna (df : DataFrame) (c : string) : result DataFrame :=
  s <- getitem df c ;;
  Ok (loc (notna s) df).

(** The values of a column of dtype [datetime64]. *)
Definition datetimes (s : Series) : result (list (option Z)) :=
  match s with
  | Datetime64 v => Ok v
  | _ => Err TypeError
  end.

(** The Timestamps of a column, NaT left out. *)
Fixpoint stamps (v : list (option Z)) : list Z :=
  match v with
  | [] => []
  | Some t :: v' => t :: stamps v'
  | None :: v' => stamps v'
  end.

(* ================================================================== *)
(** ** Timestamps and calendar offsets *)

Module Calendar.

Local Open Scope Z_scope.

Definition ns_per_day : Z := 86400000000000.

(** Days since 1970-01-01 of a date of the proleptic Gregorian calendar. *)
Definition days_from_civil (y m d : Z) : Z :=
  let y' := if m <=? 2 then y - 1 else y in
  let era := y' / 400 in
  let yoe := y' - era * 400 in
  let mp := if 2 <? m then m - 3 else m + 9 in
  let doy := (153 * mp + 2) / 5 + d - 1 in
  let doe := yoe * 365 + yoe / 4 - yoe / 100 + doy in
  era * 146097 + doe - 719468.

(** Year, month and day of a count of days since 1970-01-01. *)
Definition civil_from_days (z : Z) : Z * Z * Z :=
  let z' := z + 719468 in
  let era := z' / 146097 in
  let doe := z' - era * 146097 in
  let yoe := (doe - doe / 1460 + doe / 36524 - doe / 146096) / 365 in
  let doy := doe - (365 * yoe + yoe / 4 - yoe / 100) in
  let mp := (5 * doy + 2) / 153 in
  let d := doy - (153 * mp + 2) / 5 + 1 in
  let m := if mp <? 10 then mp + 3 else mp - 9 in
  let y := yoe + era * 400 in
  ((if m <=? 2 then y + 1 else y), m, d).

Definition is_leap (y : Z) : bool :=
  (y mod 4 =? 0) && (negb (y mod 100 =? 0) || (y mod 400 =? 0)).

Definition days_in_month (y m : Z) : Z :=
  if m =? 2 then (if is_leap y then 29 else 28)
  else if (m =? 4) || (m =? 6) || (m =? 9) || (m =? 11) then 30
  else 31.

(** [pd.Timestamp(y, m, d)], midnight *)
Definition Timestamp (y m d : Z) : Z := days_from_civil y m d * ns_per_day.

Definition date_of (t : Z) : Z * Z * Z := civil_from_days (t / ns_per_day).

(** [t.year] *)
Definition year (t : Z) : Z := fst (fst (date_of t)).

(** [t - pd.DateOffset(months=n)]: the month moves back, the day is cut down
    to the length of the month reached, the time of day stays. *)
Definition sub_months (t n : Z) : Z :=
  let '(y, m, d) := date_of t in
  let k := y * 12 + (m - 1) - n in
  let y' := k / 12 in
  let m' := k mod 12 + 1 in
  days_from_civil y' m' (Z.min d (days_in_month y' m')) * ns_per_day
  + t mod ns_per_day.

(** [t - pd.DateOffset(years=n)] *)
Definition sub_years (t n : Z) : Z :=
  let '(y, m, d) := date_of t in
  let y' := y - n in
  days_from_civil y' m (Z.min d (days_in_month y' m)) * ns_per_day
  + t mod ns_per_day.

(** The two conversions undo each other on the days from [z] on, [n] of
    them, and give months and days of the calendar. *)
Definition round_trips (z : Z) (n : N) : bool :=
  snd (N.iter n
         (fun st : Z * bool =>
            let '(y, m, d) := civil_from_days (fst st) in
            (fst st + 1,
             snd st && (days_from_civil y m d =? fst st)
             && (1 <=? m) && (m <=? 12) && (1 <=? d) && (d <=? days_in_month y m)))
         (z, true)).

End Calendar.

(** [s.max()] and [s.min()] of a datetime column skip NaT; NaT when nothing is
    left. *)
Definition maximum (v : list Z) : option Z :=
  match v with
  | [] => None
  | t :: v' => Some (fold_left Z.max v' t)
  end.

Definition minimum (v : list Z) : option Z :=
  match v with
  | [] => None
  | t :: v' => Some (fold_left Z.min v' t)
  end.

(** [s.between(lo, hi)], both ends included; a comparison with NaT is False. *)
Definition between (lo hi : option Z) (v : list (option Z)) : list bool :=
  map (fun t =>
         match t, lo, hi with
         | Some t, Some lo, Some hi => (lo <=? t)%Z && (t <=? hi)%Z
         | _, _, _ => false
         end) v.

(** The positions where a mask holds. *)
Definition positions (mask : list bool) : list nat :=
  select mask (seq 0 (length mask)).

(* ================================================================== *)
(** ** The functions of the application *)

Section Pandas.

(** [pd.to_numeric] on one string: the float it reads, [None] where it
    would raise. *)
Variable parse_float : string -> option float.

(** [pd.to_datetime(s, dayfirst=True)] at one position of the column [s]:
    the Timestamp read there, [None] where the cell is not a date.  It takes
    the column, as pandas settles one format for all its cells. *)
Variable parse_datetime : Series -> nat -> option Z.

(** [str(x)] of a float and of a Timestamp, for [astype(str)]. *)
Variable str_float : float -> string.
Variable str_time : option Z -> string.

(** numpy's [argsort(kind="quicksort")]: positions of the keys in the order
    that sorts them. *)
Variable argsort : list Z -> list nat.

(** What numpy promises of it: every position once, keys ascending.  The
    order of equal keys is left open. *)
Definition sorts (f : list Z -> list nat) : Prop :=
  forall v, Permutation (f v) (seq 0 (length v)) /\
            Sorted Z.le (take_list 0%Z (f v) v).

(** [s.astype(str)] *)
Definition astype_str (s : Series) : list string :=
  match s with
  | Object v =>
      map (fun o => match o with
                    | PyStr t => t
                    | PyNaN => "nan"%string
                    | PyNA => "<NA>"%string
                    end) v
  | Float64 v => map str_float v
  | Datetime64 v => map str_time v
  end.

(** [pd.to_numeric(..., errors="coerce")] on one string *)
Definition to_numeric (t : string) : float :=
  match parse_float t with
  | Some x => x
  | None => nan
  end.

(** [pd.to_datetime(s, dayfirst=True, errors="coerce")] *)
Definition to_datetime (s : Series) : list (option Z) :=
  map (parse_datetime s) (seq 0 (size s)).

(** lines 52-57 *)
Definition coerce_numbers (s : Series) : Series :=
  Float64
    (map to_numeric
       (map (Str.replace "," ".") (map (Str.replace " " "") (astype_str s)))).

(** [nargsort]: the non-null positions in sorted order, the null ones last. *)
Definition nargsort (v : list (option Z)) : list nat :=
  take_list 0 (argsort (stamps v)) (positions (map negb (map isna_time v)))
  ++ positions (map isna_time v).

(** [df.sort_values(c)], on a datetime column *)
Definition sort_values (df : DataFrame) (c : string) : result DataFrame :=
  s <- getitem df c ;;
  v <- datetimes s ;;
  Ok (take (nargsort v) df).

(** lines 69-71 *)
Fixpoint coerce_columns (cs : list string) (df : DataFrame) : result DataFrame :=
  match cs with
  | [] => Ok df
  | c :: cs' =>
      if String.eqb c "Date" then coerce_columns cs' df
      else
        s <- getitem df c ;;
        coerce_columns cs' (setitem df c (coerce_numbers s))
  end.

(** lines 62-71: the headers stripped, the cells read *)
Definition tidy_cells (df : DataFrame) : result DataFrame :=
  let df := set_columns df (map Str.strip (labels df)) in
  if negb (existsb (String.eqb "Date") (labels df)) then Err SchemaError
  else
    d <- getitem df "Date" ;;
    let df := setitem df "Date" (Datetime64 (to_datetime d)) in
    coerce_columns (labels df) df.

(** lines 59-74 *)
Definition tidy_df (df : DataFrame) : result DataFrame :=
  df <- tidy_cells df ;;
  df <- dropna df "Date" ;;
  sort_values df "Date".

(** lines 79-88: the start of the window; [e] is [df["Date"].max()] *)
Definition period_start (period_key : string) (e : option Z) (v : list (option Z))
  : result (option Z) :=
  if String.eqb period_key "1M" then
    Ok (option_map (fun t => Calendar.sub_months t 1) e)
  else if String.eqb period_key "3M" then
    Ok (option_map (fun t => Calendar.sub_months t 3) e)
  else if String.eqb period_key "YTD" then
    match e with
    | Some t => Ok (Some (Calendar.Timestamp (Calendar.year t) 1 1))
    | None => Err TypeError
    end
  else if String.eqb period_key "1Y" then
    Ok (option_map (fun t => Calendar.sub_years t 1) e)
  else
    Ok (minimum (stamps v)).

(** lines 76-89 *)
Definition filter_period (df : DataFrame) (period_key : string) : result DataFrame :=
  if empty df then Ok df
  else
    d <- getitem df "Date" ;;
    v <- datetimes d ;;
    let e := maximum (stamps v) in
    start <- period_start period_key e v ;;
    Ok (loc (between start e v) df).

(** [(s / base - 1.0) * 100.0]: defined for a float column and a float. *)
Definition pct_from (s : Series) (base : scalar) : result Series :=
  match s, base with
  | Float64 v, SFloat b => Ok (Float64 (map (fun x => (x / b - 1.0) * 100.0)%float v))
  | _, _ => Err TypeError
  end.

(** lines 94-100 *)
Fixpoint normalize_columns (df : DataFrame) (cols : list string) (out : DataFrame)
  : result DataFrame :=
  match cols with
  | [] => Ok out
  | c :: cols' =>
      col <- getitem df c ;;
      match values (dropna_series col) with
      | [] => normalize_columns df cols' (setitem out c (Object (repeat PyNA (len out))))
      | base :: _ =>
          r <- pct_from col base ;;
          normalize_columns df cols' (setitem out c r)
      end
  end.

(** lines 91-101 *)
Definition normalize_from_first (df : DataFrame) (cols : list string)
  : result DataFrame :=
  d <- getitem df "Date" ;;
  normalize_columns df cols (mkDataFrame (index df) [("Date"%string, d)]).

End Pandas.

(* ================================================================== *)
(** ** Readers and sorts to run the functions with *)

Module Readers.

Local Open Scope Z_scope.

Definition digit (c : ascii) : option Z :=
  let n := Z.of_nat (nat_of_ascii c) in
  if (48 <=? n) && (n <=? 57) then Some (n - 48) else None.

(** Digits with at most one point: the digits as an integer, and how many of
    them follow the point. *)
Fixpoint read_digits (s : string) (m k : Z) (point : bool) : option (Z * Z) :=
  match s with
  | EmptyString => Some (m, k)
  | String c s' =>
      if Ascii.eqb c "." then
        if point then None else read_digits s' m k true
      else
        match digit c with
        | Some d => read_digits s' (10 * m + d) (if point then k + 1 else k) point
        | None => None
        end
  end.

Definition has_digit (s : string) : bool :=
  existsb (fun c => match digit c with Some _ => true | None => false end)
          (list_ascii_of_string s).

Definition float_of_Z (n : Z) : float := PrimFloat.of_uint63 (Uint63.of_Z n).

(** A plain decimal literal, [123], [1234.56], [.5], with an optional sign.
    The digits and the power of ten are both exact in binary64, so that
    their quotient is the float nearest to the literal; longer literals are
    not read. *)
Definition parse_unsigned (s : string) : option float :=
  if has_digit s then
    match read_digits s 0 0 false with
    | Some (m, k) =>
        if (m <? 2 ^ 53) && (k <=? 22)
        then Some (float_of_Z m / float_of_Z (10 ^ k))%float
        else None
    | None => None
    end
  else None.

Definition parse_decimal (s : string) : option float :=
  match s with
  | String "-" s' => option_map PrimFloat.opp (parse_unsigned s')
  | String "+" s' => parse_unsigned s'
  | _ => parse_unsigned s
  end.

Definition two_digits (a b : ascii) : option Z :=
  match digit a, digit b with
  | Some x, Some y => Some (10 * x + y)
  | _, _ => None
  end.

(** A date written [DD/MM/YYYY], at midnight. *)
Definition parse_dmy (s : string) : option Z :=
  match list_ascii_of_string s with
  | [d1; d2; "/"%char; m1; m2; "/"%char; y1; y2; y3; y4] =>
      match two_digits d1 d2, two_digits m1 m2, two_digits y1 y2, two_digits y3 y4 with
      | Some d, Some m, Some yh, Some yl =>
          let y := 100 * yh + yl in
          if (1 <=? m) && (m <=? 12) && (1 <=? d) && (d <=? Calendar.days_in_month y m)
          then Some (Calendar.Timestamp y m d)
          else None
      | _, _, _, _ => None
      end
  | _ => None
  end.

(** The dates of a text column, cell by cell. *)
Definition dates_dmy (s : Series) (i : nat) : option Z :=
  match s with
  | Object v =>
      match nth i v PyNaN with
      | PyStr t => parse_dmy t
      | _ => None
      end
  | Float64 _ => None
  | Datetime64 v => nth i v None
  end.

(** Insertion of a position into sorted positions; [before x y] tells whether
    the key [x] goes in front of the key [y]. *)
Fixpoint insert_pos (before : Z -> Z -> bool) (v : list Z) (i : nat) (l : list nat)
  : list nat :=
  match l with
  | [] => [i]
  | j :: l' =>
      if before (nth i v 0) (nth j v 0) then i :: l
      else j :: insert_pos before v i l'
  end.

(** The positions are inserted from the last to the first. *)
Definition insertion_argsort (before : Z -> Z -> bool) (v : list Z) : list nat :=
  fold_right (insert_pos before v) [] (seq 0 (length v)).

(** Equal keys keep their order. *)
Definition stable_argsort : list Z -> list nat := insertion_argsort Z.leb.

End Readers.

(** *** The sort of numpy

    [sort_values("Date")] ends in [argsort(kind="quicksort")] on the array of
    the Timestamps that are not null, which numpy sorts by
    [aquicksort_<npy::datetime_tag>] of [npysort/quicksort.cpp]: parts of
    more than 17 positions are cut round a median of three and the larger
    part is put on a stack, shorter parts are sorted by insertion, and a part
    cut more often than twice the binary logarithm of the length is sorted as
    a heap ([aheapsort_] of [npysort/heapsort.cpp]). *)

Module Numpy.

Definition SMALL_QUICKSORT : nat := 16.

(** [datetime_tag::less] on Timestamps; NaT never gets here, as [nargsort]
    sorts the keys that are not null. *)
Definition less (a b : Z) : bool := (a <? b)%Z.

(** [npy_get_msb]: how often the number can be halved before it is 0. *)
Definition npy_get_msb (unum : nat) : Z := Z.log2 (Z.of_nat unum).

(** [a[p] = x] *)
Fixpoint put (a : list nat) (p x : nat) : list nat :=
  match a, p with
  | [], _ => []
  | _ :: a', 0 => x :: a'
  | y :: a', S p' => y :: put a' p' x
  end.

(** [INTP_SWAP(a[p], a[q])] *)
Definition INTP_SWAP (a : list nat) (p q : nat) : list nat :=
  put (put a p (nth q a 0)) q (nth p a 0).

Section Sort.

(** The keys, [v]; [tosort] holds positions of [v].  A pointer into [tosort]
    is its offset.  A loop that does not end within its bound gives [None]. *)
Variable v : list Z.

(** [v[*p]] *)
Definition at_ (tosort : list nat) (p : nat) : Z := nth (nth p tosort 0) v 0%Z.

(** [do { ++pi; } while (less(v[*pi], vp));] *)
Fixpoint up (fuel : nat) (tosort : list nat) (vp : Z) (pi : nat) : option nat :=
  match fuel with
  | 0 => None
  | S fuel' =>
      let pi := S pi in
      if less (at_ tosort pi) vp then up fuel' tosort vp pi else Some pi
  end.

(** [do { --pj; } while (less(vp, v[*pj]));] *)
Fixpoint down (tosort : list nat) (vp : Z) (pj : nat) : option nat :=
  match pj with
  | 0 => None
  | S pj' => if less vp (at_ tosort pj') then down tosort vp pj' else Some pj'
  end.

(** The [for (;;)] of the partition: the positions and [pi] when it breaks. *)
Fixpoint cross (fuel : nat) (tosort : list nat) (vp : Z) (pi pj : nat)
  : option (list nat * nat) :=
  match fuel with
  | 0 => None
  | S fuel' =>
      match up (length tosort) tosort vp pi with
      | None => None
      | Some pi =>
          match down tosort vp pj with
          | None => None
          | Some pj =>
              if pj <=? pi then Some (tosort, pi)
              else cross fuel' (INTP_SWAP tosort pi pj) vp pi pj
          end
      end
  end.

(** One turn of [while ((pr - pl) > SMALL_QUICKSORT)], up to the pushes: the
    median of three, the pivot parked at [pr - 1], the crossing, the pivot
    put at [pi]. *)
Definition partition (tosort : list nat) (pl pr : nat) : option (list nat * nat) :=
  let pm := pl + Nat.div2 (pr - pl) in
  let tosort := if less (at_ tosort pm) (at_ tosort pl) then INTP_SWAP tosort pm pl
                else tosort in
  let tosort := if less (at_ tosort pr) (at_ tosort pm) then INTP_SWAP tosort pr pm
                else tosort in
  let tosort := if less (at_ tosort pm) (at_ tosort pl) then INTP_SWAP tosort pm pl
                else tosort in
  let vp := at_ tosort pm in
  let pi := pl in
  let pj := pr - 1 in
  let tosort := INTP_SWAP tosort pm pj in
  match cross (length tosort) tosort vp pi pj with
  | None => None
  | Some (tosort, pi) =>
      let pk := pr - 1 in
      Some (INTP_SWAP tosort pi pk, pi)
  end.

(** [while ((pr - pl) > SMALL_QUICKSORT)]: the larger part is pushed with
    the depth left, the smaller one is cut again. *)
Fixpoint partitions (fuel : nat) (tosort : list nat) (pl pr : nat) (cdepth : Z)
         (stack : list (nat * nat * Z))
  : option (list nat * nat * nat * list (nat * nat * Z)) :=
  match fuel with
  | 0 => None
  | S fuel' =>
      if SMALL_QUICKSORT <? pr - pl then
        match partition tosort pl pr with
        | None => None
        | Some (tosort, pi) =>
            let cdepth := (cdepth - 1)%Z in
            if pi - pl <? pr - pi
            then partitions fuel' tosort pl (pi - 1) cdepth ((pi + 1, pr, cdepth) :: stack)
            else partitions fuel' tosort (pi + 1) pr cdepth ((pl, pi - 1, cdepth) :: stack)
        end
      else Some (tosort, pl, pr, stack)
  end.

(** [while (pj > pl && less(vp, v[*pk])) { *pj-- = *pk--; }], where [pk] is
    [pj - 1] all along. *)
Fixpoint shift (tosort : list nat) (pl : nat) (vp : Z) (pj : nat) : list nat * nat :=
  match pj with
  | 0 => (tosort, pj)
  | S pk =>
      if (pl <? pj) && less vp (at_ tosort pk)
      then shift (put tosort pj (nth pk tosort 0)) pl vp pk
      else (tosort, pj)
  end.

(** [for (pi = pl + 1; pi <= pr; ++pi)], for the [n] turns it takes *)
Fixpoint insertion (n : nat) (tosort : list nat) (pl pi : nat) : list nat :=
  match n with
  | 0 => tosort
  | S n' =>
      let vi := nth pi tosort 0 in
      let vp := nth vi v 0%Z in
      let '(tosort, pj) := shift tosort pl vp pi in
      insertion n' (put tosort pj vi) pl (S pi)
  end.

(** In [aheapsort_], [a] is [tosort] counted from 1: [a[k]] of the part that
    starts at [pl] is the position at [pl + k - 1]. *)
Definition a_ (tosort : list nat) (pl k : nat) : nat := nth (pl + k - 1) tosort 0.

(** [for (i = ..., j = ...; j <= n;)]: the hole moves down; [i] at the
    end. *)
Fixpoint sift (fuel : nat) (tosort : list nat) (pl n tmp i j : nat)
  : option (list nat * nat) :=
  match fuel with
  | 0 => None
  | S fuel' =>
      if j <=? n then
        let j := if (j <? n)
                    && less (nth (a_ tosort pl j) v 0%Z) (nth (a_ tosort pl (j + 1)) v 0%Z)
                 then j + 1 else j in
        if less (nth tmp v 0%Z) (nth (a_ tosort pl j) v 0%Z)
        then sift fuel' (put tosort (pl + i - 1) (a_ tosort pl j)) pl n tmp j (j + j)
        else Some (tosort, i)
      else Some (tosort, i)
  end.

(** [for (l = n >> 1; l > 0; --l)] *)
Fixpoint heapify (l : nat) (tosort : list nat) (pl n : nat) : option (list nat) :=
  match l with
  | 0 => Some tosort
  | S l' =>
      let tmp := a_ tosort pl l in
      match sift n tosort pl n tmp l (2 * l) with
      | None => None
      | Some (tosort, i) => heapify l' (put tosort (pl + i - 1) tmp) pl n
      end
  end.

(** [for (; n > 1;)] *)
Fixpoint unheap (n : nat) (tosort : list nat) (pl : nat) : option (list nat) :=
  match n with
  | 0 => Some tosort
  | S n' =>
      if 1 <? n then
        let tmp := a_ tosort pl n in
        let tosort := put tosort (pl + n - 1) (a_ tosort pl 1) in
        match sift n tosort pl n' tmp 1 2 with
        | None => None
        | Some (tosort, i) => unheap n' (put tosort (pl + i - 1) tmp) pl
        end
      else Some tosort
  end.

(** [aheapsort_(v, pl, n)] *)
Definition aheapsort_ (tosort : list nat) (pl n : nat) : option (list nat) :=
  match heapify (Nat.div2 n) tosort pl n with
  | None => None
  | Some tosort => unheap n tosort pl
  end.

(** [while (1)]: a part with no depth left is sorted as a heap; any other is
    cut down to [SMALL_QUICKSORT] and sorted by insertion; then the next part
    is taken from the stack. *)
Fixpoint parts (fuel : nat) (tosort : list nat) (pl pr : nat) (cdepth : Z)
         (stack : list (nat * nat * Z)) : option (list nat) :=
  match fuel with
  | 0 => None
  | S fuel' =>
      match
        (if (cdepth <? 0)%Z
         then option_map (fun t => (t, stack)) (aheapsort_ tosort pl (pr - pl + 1))
         else
           match partitions (S (length tosort)) tosort pl pr cdepth stack with
           | None => None
           | Some (tosort, pl, pr, stack) =>
               Some (insertion (pr - pl) tosort pl (pl + 1), stack)
           end)
      with
      | None => None
      | Some (tosort, []) => Some tosort
      | Some (tosort, (pl, pr, cdepth) :: stack) => parts fuel' tosort pl pr cdepth stack
      end
  end.

(** [aquicksort_<npy::datetime_tag>(v, tosort, num)] *)
Definition aquicksort_ (tosort : list nat) (num : nat) : option (list nat) :=
  parts (S num) tosort 0 (num - 1) (npy_get_msb num * 2) [].

End Sort.

(** [v.argsort(kind="quicksort")] of an array of Timestamps: [tosort] starts
    as the positions in their order. *)
Definition argsort (v : list Z) : list nat :=
  match aquicksort_ v (seq 0 (length v)) (length v) with
  | Some tosort => tosort
  | None => seq 0 (length v)
  end.

End Numpy.

(* ================================================================== *)
(** ** The same functions on frames as objects

    A Python name holds a reference to a frame, and [df[c] = s] and
    [df.columns = names] change the frame referred to.  Here the frames live
    in a heap and the functions take and return references, statement by
    statement as in the source.  Columns and scalars are never changed where
    they stand by this code; they stay values. *)

Module Obj.

(** The operations on frames as values, under the names this module gives
    to their counterparts on references. *)
Local Abbreviation frame_getitem := getitem.
Local Abbreviation frame_setitem := setitem.
Local Abbreviation frame_set_columns := set_columns.
Local Abbreviation frame_dropna := dropna.
Local Abbreviation frame_sort_values := sort_values.

Definition ref : Type := nat.
Definition heap : Type := list DataFrame.

(** A computation reads and changes the heap, and returns or raises. *)
Definition M (A : Type) : Type := heap -> result A * heap.

Definition ret {A : Type} (a : A) : M A := fun h => (Ok a, h).

Definition raise {A : Type} (e : error) : M A := fun h => (Err e, h).

Definition bind {A B : Type} (m : M A) (k : A -> M B) : M B :=
  fun h =>
    match m h with
    | (Ok a, h') => k a h'
    | (Err e, h') => (Err e, h')
    end.

Definition lift {A : Type} (r : result A) : M A := fun h => (r, h).

Notation "'let*' x ':=' e 'in' k" := (bind e (fun x => k))
  (at level 10, x name, e at level 100, k at level 200).

Notation "e ';;;' k" := (bind e (fun _ => k))
  (at level 62, right associativity).

Definition no_frame : DataFrame := mkDataFrame [] [].

(** The frame a reference names. *)
Definition deref (h : heap) (r : ref) : DataFrame := nth r h no_frame.

Fixpoint update (r : ref) (f : DataFrame) (h : heap) : heap :=
  match h, r with
  | [], _ => []
  | _ :: h', 0 => f :: h'
  | g :: h', S r' => g :: update r' f h'
  end.

Definition read (r : ref) : M DataFrame := fun h => (Ok (deref h r), h).

Definition write (r : ref) (f : DataFrame) : M unit := fun h => (Ok tt, update r f h).

(** A new object. *)
Definition new (f : DataFrame) : M ref := fun h => (Ok (length h), h ++ [f]).

(** [df.copy()] *)
Definition copy (df : ref) : M ref :=
  let* f := read df in new f.

(** [df[c]] *)
Definition getitem (df : ref) (c : string) : M Series :=
  let* f := read df in lift (frame_getitem f c).

(** [df[c] = s], in place *)
Definition setitem (df : ref) (c : string) (s : Series) : M unit :=
  let* f := read df in write df (frame_setitem f c s).

(** [df.columns] *)
Definition get_columns (df : ref) : M (list string) :=
  let* f := read df in ret (labels f).

(** [df.columns = names], in place *)
Definition set_columns (df : ref) (names : list string) : M unit :=
  let* f := read df in write df (frame_set_columns f names).

(** [df.dropna(subset=[c])], a new frame *)
Definition dropna (df : ref) (c : string) : M ref :=
  let* f := read df in
  let* f' := lift (frame_dropna f c) in
  new f'.

(** [df[["Date"]]], a new frame *)
Definition date_frame (df : ref) : M ref :=
  let* f := read df in
  let* d := lift (frame_getitem f "Date") in
  new (mkDataFrame (index f) [("Date"%string, d)]).

(** [for c in cs: body(c)] *)
Fixpoint for_each {A : Type} (cs : list A) (body : A -> M unit) : M unit :=
  match cs with
  | [] => ret tt
  | c :: cs' => body c ;;; for_each cs' body
  end.

Section Pandas.

Variable parse_float : string -> option float.
Variable parse_datetime : Series -> nat -> option Z.
Variable str_float : float -> string.
Variable str_time : option Z -> string.
Variable argsort : list Z -> list nat.

(** [df.sort_values(c)], a new frame *)
Definition sort_values (df : ref) (c : string) : M ref :=
  let* f := read df in
  let* f' := lift (frame_sort_values argsort f c) in
  new f'.

(** lines 59-74 *)
Definition tidy_df (df : ref) : M ref :=
  let* df := copy df in
  let* cs := get_columns df in
  set_columns df (map Str.strip cs) ;;;
  let* cs := get_columns df in
  if negb (existsb (String.eqb "Date") cs) then raise SchemaError
  else
    let* d := getitem df "Date" in
    setitem df "Date" (Datetime64 (to_datetime parse_datetime d)) ;;;
    let* cs := get_columns df in
    for_each cs (fun c =>
      if String.eqb c "Date" then ret tt
      else
        let* s := getitem df c in
        setitem df c (coerce_numbers parse_float str_float str_time s)) ;;;
    let* df := dropna df "Date" in
    sort_values df "Date".

End Pandas.

(** lines 76-89 *)
Definition filter_period (df : ref) (period_key : string) : M ref :=
  let* f := read df in
  if empty f then ret df
  else
    let* d := getitem df "Date" in
    let* v := lift (datetimes d) in
    let e := maximum (stamps v) in
    let* start := lift (period_start period_key e v) in
    let* f := read df in
    new (loc (between start e v) f).

(** lines 91-101 *)
Definition normalize_from_first (df : ref) (cols : list string) : M ref :=
  let* out := date_frame df in
  let* out := copy out in
  for_each cols (fun c =>
    let* col := getitem df c in
    match values (dropna_series col) with
    | [] =>
        let* o := read out in
        setitem out c (Object (repeat PyNA (len o)))
    | base :: _ =>
        let* r := lift (pct_from col base) in
        setitem out c r
    end) ;;;
  ret out.

(** The application's lines 171 and 175, one after the other. *)
Definition filter_then_normalize (df : ref) (period_key : string) (cols : list string)
  : M ref :=
  let* dff := filter_period df period_key in
  normalize_from_first dff cols.

(** What a run gives: the frame behind the reference returned, or the
    exception. *)
Definition outcome (m : M ref) (h : heap) : result DataFrame :=
  match m h with
  | (Ok r, h') => Ok (deref h' r)
  | (Err e, _) => Err e
  end.

End Obj.

(* ================================================================== *)
(** ** Tables to run the functions on *)

Module Sample.

(** [astype(str)] of a float or a Timestamp; the sheets below hold text
    only, so that nothing is asked of it. *)
Definition blank {A : Type} (_ : A) : string := ""%string.

Definition tidy (argsort : list Z -> list nat) (df : DataFrame) : result DataFrame :=
  tidy_df Readers.parse_decimal Readers.dates_dmy blank blank argsort df.

Definition jan (d : Z) : Z := Calendar.Timestamp 2024 1 d.

(** A sheet as [read_csv] gives it: blanks around a header, a cell that is
    no date, numbers with a space and a comma, a cell that is no number, an
    empty field. *)
Definition sheet : DataFrame :=
  mkDataFrame [0; 1; 2; 3]
    [(" Date "%string,
      Object [PyStr "02/01/2024"; PyStr "n/a"; PyStr "01/01/2024"; PyStr "02/01/2024"]);
     ("Fond A"%string,
      Object [PyStr "1 234,56"; PyStr "7"; PyStr "x"; PyNaN])].

(** The sheet tidied, when the sort keeps rows of one date in order. *)
Definition sheet_tidy : DataFrame :=
  mkDataFrame [2; 0; 3]
    [("Date"%string, Datetime64 [Some (jan 1); Some (jan 2); Some (jan 2)]);
     ("Fond A"%string, Float64 [nan; 1234.56; nan]%float)].

(** A sheet without a [Date] header. *)
Definition sheet_undated : DataFrame :=
  mkDataFrame [0] [("Dato"%string, Object [PyStr "02/01/2024"]);
                   ("Fond A"%string, Object [PyStr "1"])].

(** Two rows of one date. *)
Definition ties : DataFrame :=
  mkDataFrame [0; 1]
    [("Date"%string, Object [PyStr "01/01/2024"; PyStr "01/01/2024"]);
     ("A"%string, Object [PyStr "1"; PyStr "2"])].

(** [ties] tidied. *)
Definition ties_tidy : DataFrame :=
  mkDataFrame [0; 1]
    [("Date"%string, Datetime64 [Some (jan 1); Some (jan 1)]);
     ("A"%string, Float64 [1; 2]%float)].

(** Eighteen rows of one date; each holds the number of its place. *)
Definition one_date : DataFrame :=
  mkDataFrame [0; 1; 2; 3; 4; 5; 6; 7; 8; 9; 10; 11; 12; 13; 14; 15; 16; 17]
    [("Date"%string, Object (repeat (PyStr "01/01/2024") 18));
     ("A"%string,
      Object [PyStr "0"; PyStr "1"; PyStr "2"; PyStr "3"; PyStr "4"; PyStr "5";
              PyStr "6"; PyStr "7"; PyStr "8"; PyStr "9"; PyStr "10"; PyStr "11";
              PyStr "12"; PyStr "13"; PyStr "14"; PyStr "15"; PyStr "16"; PyStr "17"])].

(** [one_date] tidied, by the sort of numpy. *)
Definition one_date_tidy : DataFrame :=
  mkDataFrame [0; 15; 14; 13; 12; 11; 10; 9; 8; 7; 6; 5; 4; 3; 2; 1; 16; 17]
    [("Date"%string, Datetime64 (repeat (Some (jan 1)) 18));
     ("A"%string,
      Float64 [0; 15; 14; 13; 12; 11; 10; 9; 8; 7; 6; 5; 4; 3; 2; 1; 16; 17]%float)].

(** A tidy table: a series, a series of nulls, a series that starts at zero. *)
Definition prices : DataFrame :=
  mkDataFrame [0; 1; 2]
    [("Date"%string, Datetime64 [Some (jan 1); Some (jan 2); Some (jan 3)]);
     ("A"%string, Float64 [100; 110; 90]%float);
     ("B"%string, Float64 [nan; nan; nan]%float);
     ("Z"%string, Float64 [nan; 0; 5]%float)].

(** A tidy table over two years; its rows are labelled by their place. *)
Definition history : DataFrame :=
  mkDataFrame [0; 1; 2; 3; 4; 5]
    [("Date"%string,
      Datetime64 [Some (Calendar.Timestamp 2023 6 15); Some (Calendar.Timestamp 2023 12 31);
                  Some (Calendar.Timestamp 2024 1 1); Some (Calendar.Timestamp 2024 3 15);
                  Some (Calendar.Timestamp 2024 5 15); Some (Calendar.Timestamp 2024 6 15)]);
     ("A"%string, Float64 [1; 2; 3; 4; 5; 6]%float)].

(** A tidy table without rows. *)
Definition no_rows : DataFrame :=
  mkDataFrame [] [("Date"%string, Datetime64 [])].

End Sample.

(* ================================================================== *)
(** ** The rest of the script: lines 44-50, 103-104 and 150-184

    What the page does with the tables: the text [fetch_csv] hands to the
    CSV reader, the series offered and picked by default, the long table of
    the chart, the dates of the table view, and the statements that tie the
    steps together.  The widgets, the chart and the CSV reader are not
    modelled; what they return is a parameter. *)

Module Page.

(** *** Text as Python has it: a sequence of code points *)

Definition text : Type := list N.

(** U+00A0, which line 48 writes both as [\u00A0] and as [\xa0] *)
Definition nbsp : N := 160.

(** [t.replace(c, "")] for a pattern of one code point *)
Definition remove (c : N) (t : text) : text :=
  filter (fun x => negb (N.eqb x c)) t.

(** What [requests.get] gives back, as far as [fetch_csv] looks at it. *)
Record response : Type := mkResponse {
  status_code : Z;
  body : text               (* r.text *)
}.

(** What [fetch_csv] raises. *)
Inductive failure : Type :=
| RequestException (msg : string)    (* requests.get: no answer within 60 s, no route, ... *)
| HTTPError (status : Z)             (* r.raise_for_status() *)
| ParserError (msg : string).        (* pd.read_csv *)

(** [r.raise_for_status()]: a client or a server error raises. *)
Definition raise_for_status (r : response) : failure + unit :=
  if (400 <=? status_code r)%Z && (status_code r <? 600)%Z
  then inl (HTTPError (status_code r))
  else inr tt.

Section Fetch.

(** [requests.get(url, timeout=60)] and [pd.read_csv(io.StringIO(text))] *)
Variable get : string -> failure + response.
Variable read_csv : text -> failure + DataFrame.

(** lines 44-50, without the cache of line 43 *)
Definition fetch_csv (url : string) : failure + DataFrame :=
  match get url with
  | inl e => inl e
  | inr r =>
      match raise_for_status r with
      | inl e => inl e
      | inr _ => read_csv (remove nbsp (remove nbsp (body r)))
      end
  end.

End Fetch.

(** *** The series offered *)

(** [sub in s] *)
Fixpoint contains (sub s : string) : bool :=
  String.prefix sub s
  || match s with
     | EmptyString => false
     | String _ s' => contains sub s'
     end.

(** line 162 *)
Definition all_series (df : DataFrame) : list string :=
  filter (fun c => negb (String.eqb c "Date")) (labels df).

(** line 163: [x or y] is [y] when the list [x] is empty *)
Definition default_pick (all_series : list string) : list string :=
  match firstn 3 (filter (contains "Pensum") all_series) with
  | [] => firstn 3 all_series
  | picks => picks
  end.

(** *** What the page can raise outside of a handler *)

Inductive exception : Type :=
| Pandas (e : error)          (* raised by one of the functions of the application *)
| NameError                   (* line 162: [df] was never assigned *)
| DefaultNotInOptions         (* [st.multiselect]: a default that is no option *)
| ValueNameTaken              (* [melt]: [value_name] is a header of the frame *)
| NoDtAccessor.               (* [.dt] on a column that holds no dates *)

Definition attempt (A : Type) : Type := (exception + A)%type.

Definition pandas {A : Type} (r : result A) : attempt A :=
  match r with
  | Ok a => inr a
  | Err e => inl (Pandas e)
  end.

(** *** The long table of the chart *)

(** A row of the long table: the date, the name of the series, the value. *)
Definition point : Type := (scalar * string * scalar)%type.

Fixpoint melt_columns (df : DataFrame) (dates : Series) (value_vars : list string)
  : result (list point) :=
  match value_vars with
  | [] => Ok []
  | c :: value_vars' =>
      s <- getitem df c ;;
      rest <- melt_columns df dates value_vars' ;;
      Ok (map (fun dx => (fst dx, c, snd dx)) (combine (values dates) (values s)) ++ rest)
  end.

(** [df.melt(id_var, value_vars=..., value_name=...)]: one block of rows per
    series, in the order of [value_vars]; pandas refuses a [value_name] that
    is a header of the frame. *)
Definition melt (df : DataFrame) (id_var : string) (value_vars : list string)
           (value_name : string) : attempt (list point) :=
  if existsb (String.eqb value_name) (labels df) then inl ValueNameTaken
  else pandas (dates <- getitem df id_var ;; melt_columns df dates value_vars).

(** line 104, the data of [alt.Chart] *)
Definition pensum_chart (df_pct : DataFrame) (cols : list string) : attempt (list point) :=
  melt df_pct "Date" cols "Endring (%)".

(** *** The dates of the table view *)

Definition digit_char (n : Z) : ascii := ascii_of_nat (48 + Z.to_nat n).

Definition pad2 (n : Z) : string :=
  String (digit_char (n / 10)) (String (digit_char (n mod 10)) EmptyString).

(** [t.strftime("%d.%m.%Y")], for a year of four digits *)
Definition strftime (t : Z) : string :=
  let '(y, m, d) := Calendar.date_of t in
  (pad2 d ++ "." ++ pad2 m ++ "." ++ pad2 (y / 100) ++ pad2 (y mod 100))%string.

(** [s.dt.strftime("%d.%m.%Y")]; NaT becomes NaN *)
Definition dt_strftime (s : Series) : attempt Series :=
  match s with
  | Datetime64 v =>
      inr (Object (map (fun t => match t with
                                 | Some t => PyStr (strftime t)
                                 | None => PyNaN
                                 end) v))
  | _ => inl NoDtAccessor
  end.

(** lines 182-183 *)
Definition table_view (dfn : DataFrame) : attempt DataFrame :=
  match pandas (getitem dfn "Date") with
  | inl x => inl x
  | inr d =>
      match dt_strftime d with
      | inl x => inl x
      | inr shown => inr (setitem dfn "Date" shown)
      end
  end.

(** *** The page *)

(** What the page ends up showing. *)
Inductive shown : Type :=
| ErrorBox (message : string)                            (* st.error *)
| InfoBox                                                (* st.info *)
| Chart (points : list point) (table : option DataFrame).

Section Script.

Variable parse_float : string -> option float.
Variable parse_datetime : Series -> nat -> option Z.
Variable str_float : float -> string.
Variable str_time : option Z -> string.
Variable argsort : list Z -> list nat.

(** [str(e)] of an exception of pandas *)
Variable pandas_message : error -> string.

(** What [st.multiselect(label, options, default)] returns: the choice of the
    user. *)
Variable multiselect : list string -> list string -> list string.

(** The box of line 180. *)
Variable show_tbl : bool.

(** [str(e)] *)
Definition str_exception (e : error) : string :=
  match e with
  | SchemaError => "Fant ikke kolonnen 'Date' i CSV."
  | _ => pandas_message e
  end.

(** lines 151-156: [error] and [df] after the handler; [fetched] is what
    [fetch_csv(csv_url)] gave, a frame or the message of its exception. *)
Definition load (fetched : string + DataFrame) : option string * option DataFrame :=
  match fetched with
  | inl msg => (Some msg, None)
  | inr df_raw =>
      match tidy_df parse_float parse_datetime str_float str_time argsort df_raw with
      | Ok df => (None, Some df)
      | Err e => (Some (str_exception e), None)
      end
  end.

(** lines 162-184 *)
Definition render (df : DataFrame) (period : string) : attempt shown :=
  let all_series := all_series df in
  let default_pick := default_pick all_series in
  if negb (forallb (fun d => existsb (String.eqb d) all_series) default_pick)
  then inl DefaultNotInOptions
  else
    let picked := multiselect all_series default_pick in
    match pandas (filter_period df period) with
    | inl x => inl x
    | inr dff =>
        if empty dff || (length picked =? 0) then inr InfoBox
        else
          match pandas (normalize_from_first dff picked) with
          | inl x => inl x
          | inr dfn =>
              match pensum_chart dfn picked with
              | inl x => inl x
              | inr points =>
                  if show_tbl then
                    match table_view dfn with
                    | inl x => inl x
                    | inr df_show => inr (Chart points (Some df_show))
                    end
                  else inr (Chart points None)
              end
          end
    end.

(** lines 151-184: [if error:] holds for a message that is not empty *)
Definition page (fetched : string + DataFrame) (period : string) : attempt shown :=
  match load fetched with
  | (Some (String c msg), _) =>
      inr (ErrorBox ("Kunne ikke laste data: " ++ String c msg))
  | (_, None) => inl NameError
  | (_, Some df) => render df period
  end.

End Script.

End Page.

(** *** Days and windows *)

(** The day of a Timestamp, counted from 1970-01-01. *)
Definition day_of (t : Z) : Z := (t / Calendar.ns_per_day)%Z.

(** The day [n] months before a day, as [DateOffset(months=n)] moves it. *)
Definition months_back (z n : Z) : Z :=
  let '(y, m, d) := Calendar.civil_from_days z in
  let k := (y * 12 + (m - 1) - n)%Z in
  Calendar.days_from_civil (k / 12) (k mod 12 + 1)
    (Z.min d (Calendar.days_in_month (k / 12) (k mod 12 + 1))).

(** The day [n] years before a day, as [DateOffset(years=n)] moves it. *)
Definition years_back (z n : Z) : Z :=
  let '(y, m, d) := Calendar.civil_from_days z in
  Calendar.days_from_civil (y - n) m (Z.min d (Calendar.days_in_month (y - n) m)).

(** The first day of the year of a day. *)
Definition new_year (z : Z) : Z :=
  Calendar.days_from_civil (fst (fst (Calendar.civil_from_days z))) 1 1.

(** The first day of a month, and the number of its days; the months are
    counted from year 0, twelve to the year. *)
Definition month_start (k : Z) : Z :=
  Calendar.days_from_civil (k / 12) (k mod 12 + 1) 1.

Definition month_length (k : Z) : Z :=
  Calendar.days_in_month (k / 12) (k mod 12 + 1).

(** The month of a day. *)
Definition month_of (z : Z) : Z :=
  let '(y, m, _) := Calendar.civil_from_days z in (y * 12 + (m - 1))%Z.

(** *** The page run on the sample sheets *)

(** A user who leaves the selection as it is offered. *)
Definition keep_default (options default : list string) : list string := default.

(** The page with the readers and the sort of [Sample.tidy]; the user keeps
    the default selection and ticks the box of the table; every exception of
    pandas has some message. *)
Definition sample_page (fetched : string + DataFrame) (period : string)
  : Page.attempt Page.shown :=
  Page.page Readers.parse_decimal Readers.dates_dmy Sample.blank Sample.blank
            Readers.stable_argsort (fun _ => "error"%string) keep_default true
            fetched period.

(** A sheet with a series that carries the name [pensum_chart] gives to the
    values of the long table. *)
Definition sheet_endring : DataFrame :=
  mkDataFrame [0; 1]
    [("Date"%string, Object [PyStr "01/01/2024"; PyStr "02/01/2024"]);
     ("Endring (%)"%string, Object [PyStr "1"; PyStr "2"])].

(** [sheet_endring] tidied. *)
Definition sheet_endring_tidy : DataFrame :=
  mkDataFrame [0; 1]
    [("Date"%string, Datetime64 [Some (Sample.jan 1); Some (Sample.jan 2)]);
     ("Endring (%)"%string, Float64 [1; 2]%float)].

(* ================================================================== *)
(** ** What the properties speak of *)

(** The cell of a row under a label, and the Timestamp under [Date]. *)
Definition cell (r : row) (c : string) : option scalar :=
  option_map snd (find (fun p => String.eqb (fst p) c) (snd r)).

Definition date (r : row) : option Z :=
  match cell r "Date" with
  | Some (STime t) => t
  | _ => None
  end.

(** A row has its date in the window. *)
Definition in_window (lo hi : Z) (r : row) : bool :=
  match date r with
  | Some t => (lo <=? t)%Z && (t <=? hi)%Z
  | None => false
  end.

Definition has_date (r : row) : bool :=
  match date r with
  | Some _ => true
  | None => false
  end.

(** Rows in ascending order of date. *)
Definition date_le (r r' : row) : Prop :=
  match date r, date r' with
  | Some t, Some t' => (t <= t')%Z
  | _, _ => False
  end.

Definition is_max (m : Z) (v : list Z) : Prop :=
  In m v /\ Forall (fun t => (t <= m)%Z) v.

Definition is_min (m : Z) (v : list Z) : Prop :=
  In m v /\ Forall (fun t => (m <= t)%Z) v.

(** [x] stands somewhere in front of [y] in the list. *)
Definition precedes {A : Type} (x y : A) (l : list A) : Prop :=
  exists l1 l2 l3, l = l1 ++ x :: l2 ++ y :: l3.

(** Of two rows of [out] with one date, the first has a label that comes
    first in [input]. *)
Definition stable_by_date (input out : DataFrame) : Prop :=
  forall r1 r2,
    precedes r1 r2 (rows out) -> date r1 = date r2 ->
    precedes (fst r1) (fst r2) (index input).

(** The frames [tidy_df] returns: one cell per label and row, labels all
    different, a [Date] column of Timestamps in ascending order, every other
    column of floats. *)
Record TidyTable (df : DataFrame) : Prop := {
  tidy_wf : wf df;
  tidy_labels : NoDup (labels df);
  tidy_dates :
    exists v, getitem df "Date" = Ok (Datetime64 (map Some v)) /\ Sorted Z.le v;
  tidy_series :
    forall c s, In (c, s) (columns df) -> c <> "Date"%string -> exists v, s = Float64 v
}.

(** The base of a float column: its first cell that is not NaN. *)
Definition first_valid (v : list float) : option float :=
  hd_error (filter (fun x => negb (PrimFloat.is_nan x)) v).

(** The column [normalize_from_first] makes of a float column. *)
Definition rebased (v : list float) : Series :=
  match first_valid v with
  | Some b => Float64 (map (fun x => (x / b - 1.0) * 100.0)%float v)
  | None => Object (repeat PyNA (length v))
  end.

(** A selection the application can make: headers of the table other than
    [Date]. *)
Definition selectable (df : DataFrame) (cols : list string) : Prop :=
  Forall (fun c => c <> "Date"%string /\ In c (labels df)) cols.

Section Reading.

Variable parse_float : string -> option float.
Variable parse_datetime : Series -> nat -> option Z.
Variable str_float : float -> string.
Variable str_time : option Z -> string.

(** What lines 69-71 do to one column. *)
Definition read_number (p : string * Series) : string * Series :=
  if String.eqb (fst p) "Date" then p
  else (fst p, coerce_numbers parse_float str_float str_time (snd p)).

(** What lines 63-71 do to one column. *)
Definition read_column (p : string * Series) : string * Series :=
  let c := Str.strip (fst p) in
  if String.eqb c "Date"
  then (c, Datetime64 (to_datetime parse_datetime (snd p)))
  else (c, coerce_numbers parse_float str_float str_time (snd p)).

End Reading.

(** The characters of a cell once cleaned: the spaces gone, then every comma
    turned into a point. *)
Definition cleaned (t : string) : string :=
  string_of_list_ascii
    (map (fun ch => if Ascii.eqb ch "," then "."%char else ch)
       (filter (fun ch => negb (Ascii.eqb ch " ")) (list_ascii_of_string t))).

(** A float that is an infinity or NaN. *)
Definition inf_or_nan (x : float) : bool :=
  PrimFloat.is_nan x || PrimFloat.is_infinity x.

(** What a run leaves of the heap it started from, and what it returns:
    [run_of m h r p] says that [m] run in [h] changes no object of [h], and
    returns a reference to an object holding [out] when [p] is [Ok out],
    raises [e] when [p] is [Err e]. *)
Definition run_of (m : Obj.M Obj.ref) (h : Obj.heap) (p : result DataFrame) : Prop :=
  exists res extra,
    m h = (res, h ++ extra)
    /\ match res, p with
       | Ok r', Ok out => r' < length (h ++ extra) /\ Obj.deref (h ++ extra) r' = out
       | Err e, Err e' => e = e'
       | _, _ => False
       end.

(** The reference returned names an object made during the run. *)
Definition fresh (m : Obj.M Obj.ref) (h : Obj.heap) : Prop :=
  forall r', fst (m h) = Ok r' -> length h <= r'.

(* ================================================================== *)
(** * Properties *)

(** ** Lists: positions and masks *)

Lemma select_map {A B : Type} (f : A -> B) (mask : list bool) (l : list A) :
  select mask (map f l) = map f (select mask l).
Proof.
  revert l; induction mask as [|b mask IH]; intros [|x l]; simpl; auto.
  destruct b; simpl; now rewrite IH.
Qed.

Lemma select_In {A : Type} (mask : list bool) (l : list A) (x : A) :
  In x (select mask l) -> In x l.
Proof.
  revert l; induction mask as [|b mask IH]; intros [|y l]; simpl; try tauto.
  destruct b; simpl; intuition.
Qed.

Lemma select_true {A : Type} (l : list A) (mask : list bool) :
  length mask = length l -> Forall (fun b => b = true) mask -> select mask l = l.
Proof.
  revert l; induction mask as [|b mask IH]; intros [|x l]; simpl; try discriminate; auto.
  intros Hlen Hall. inversion Hall; subst. f_equal. apply IH; auto.
Qed.

Lemma select_false {A : Type} (l : list A) (mask : list bool) :
  Forall (fun b => b = false) mask -> select mask l = [].
Proof.
  revert l; induction mask as [|b mask IH]; intros [|x l]; simpl; auto.
  intros Hall. inversion Hall; subst. apply IH; auto.
Qed.

Lemma select_seq_shift (mask : list bool) (a n : nat) :
  select mask (seq (S a) n) = map S (select mask (seq a n)).
Proof.
  rewrite <- seq_shift. apply select_map.
Qed.

Lemma positions_cons (b : bool) (mask : list bool) :
  positions (b :: mask) =
  if b then 0 :: map S (positions mask) else map S (positions mask).
Proof.
  unfold positions. simpl. rewrite select_seq_shift. reflexivity.
Qed.

Lemma positions_lt (mask : list bool) :
  Forall (fun i => i < length mask) (positions mask).
Proof.
  induction mask as [|b mask IH].
  - constructor.
  - rewrite positions_cons. simpl.
    assert (H : Forall (fun i => i < S (length mask)) (map S (positions mask))).
    { rewrite Forall_map. eapply Forall_impl; [|exact IH]. simpl; intros; lia. }
    destruct b; auto. constructor; auto. lia.
Qed.

Lemma take_list_map_S {A : Type} (d x : A) (idx : list nat) (l : list A) :
  take_list d (map S idx) (x :: l) = take_list d idx l.
Proof.
  unfold take_list. rewrite map_map. reflexivity.
Qed.

(** A mask of the length of the list picks the cells at its positions. *)
Lemma select_take {A : Type} (d : A) (mask : list bool) (l : list A) :
  length mask = length l -> select mask l = take_list d (positions mask) l.
Proof.
  revert l; induction mask as [|b mask IH]; intros [|x l]; simpl; try discriminate; auto.
  intros Hlen. rewrite positions_cons.
  destruct b; simpl; rewrite ?take_list_map_S; rewrite <- IH by lia; reflexivity.
Qed.

Lemma take_list_length {A : Type} (d : A) (idx : list nat) (l : list A) :
  length (take_list d idx l) = length idx.
Proof. unfold take_list. apply length_map. Qed.

Lemma take_list_indep {A : Type} (d d' : A) (idx : list nat) (l : list A) :
  Forall (fun i => i < length l) idx -> take_list d idx l = take_list d' idx l.
Proof.
  intros H. unfold take_list. apply map_ext_in. intros i Hi.
  rewrite Forall_forall in H. apply nth_indep. auto.
Qed.

Lemma take_list_map {A B : Type} (f : A -> B) (d : A) (idx : list nat) (l : list A) :
  take_list (f d) idx (map f l) = map f (take_list d idx l).
Proof.
  unfold take_list. rewrite map_map. apply map_ext. intros i. apply map_nth.
Qed.

Lemma take_list_seq (idx : list nat) (n : nat) :
  Forall (fun i => i < n) idx -> take_list 0 idx (seq 0 n) = idx.
Proof.
  intros H. unfold take_list. rewrite <- (map_id idx) at 2.
  apply map_ext_in. intros i Hi. rewrite Forall_forall in H.
  rewrite seq_nth; auto.
Qed.

Lemma take_list_self {A : Type} (d : A) (l : list A) :
  take_list d (seq 0 (length l)) l = l.
Proof.
  unfold take_list. induction l as [|x l IH]; simpl; auto.
  f_equal. rewrite <- seq_shift, map_map. exact IH.
Qed.

Lemma take_list_take {A : Type} (d : A) (idx idx' : list nat) (l : list A) :
  Forall (fun i => i < length idx) idx' ->
  take_list d idx' (take_list d idx l) = take_list d (take_list 0 idx' idx) l.
Proof.
  intros H. unfold take_list. rewrite map_map. apply map_ext_in. intros i Hi.
  rewrite Forall_forall in H.
  rewrite (nth_indep _ d (nth 0 l d)) by (rewrite length_map; auto).
  rewrite (map_nth (fun j => nth j l d)). 
  f_equal.
Qed.

(** A permutation of the positions permutes the cells. *)
Lemma take_list_Permutation {A : Type} (d : A) (idx : list nat) (l : list A) :
  Permutation idx (seq 0 (length l)) -> Permutation (take_list d idx l) l.
Proof.
  intros H. rewrite <- (take_list_self d l) at 2.
  unfold take_list. apply Permutation_map. exact H.
Qed.

Lemma Permutation_positions_lt (idx : list nat) (n : nat) :
  Permutation idx (seq 0 n) -> Forall (fun i => i < n) idx.
Proof.
  intros H. rewrite Forall_forall. intros i Hi.
  apply (Permutation_in _ H) in Hi. apply in_seq in Hi. lia.
Qed.

(** ** Columns and rows of a frame *)

Lemma values_select_series (mask : list bool) (s : Series) :
  values (select_series mask s) = select mask (values s).
Proof. destruct s; simpl; now rewrite select_map. Qed.

Lemma values_take_series (idx : list nat) (s : Series) :
  Forall (fun i => i < size s) idx ->
  values (take_series idx s) = take_list (SObj PyNaN) idx (values s).
Proof.
  intros H. unfold size in H.
  destruct s; simpl in *; rewrite <- take_list_map; apply take_list_indep; exact H.
Qed.

Lemma size_take_series (idx : list nat) (s : Series) :
  size (take_series idx s) = length idx.
Proof.
  unfold size. destruct s; simpl; rewrite length_map; apply take_list_length.
Qed.

Lemma select_length_eq {A B : Type} (mask : list bool) (l : list A) (l' : list B) :
  length l = length l' -> length (select mask l) = length (select mask l').
Proof.
  revert l l'; induction mask as [|b mask IH]; intros [|x l] [|y l']; simpl;
    try discriminate; auto.
  intros Hlen. destruct b; simpl; auto.
Qed.

Lemma select_series_take (mask : list bool) (s : Series) :
  length mask = size s -> select_series mask s = take_series (positions mask) s.
Proof.
  unfold size. destruct s; simpl; rewrite length_map; intros H; f_equal;
    now apply select_take.
Qed.

Lemma wf_loc (mask : list bool) (df : DataFrame) : wf df -> wf (loc mask df).
Proof.
  unfold wf, loc, len; simpl. intros H. rewrite Forall_map. simpl.
  eapply Forall_impl; [|exact H]. simpl. intros [c s] Hs; simpl in *.
  unfold size in *. rewrite values_select_series. now apply select_length_eq.
Qed.

Lemma wf_take (idx : list nat) (df : DataFrame) : wf (take idx df).
Proof.
  unfold wf, take, len; simpl. rewrite Forall_map. simpl.
  apply Forall_forall. intros [c s] _; simpl.
  now rewrite size_take_series, take_list_length.
Qed.

Lemma loc_take (mask : list bool) (df : DataFrame) :
  wf df -> length mask = len df -> loc mask df = take (positions mask) df.
Proof.
  intros Hwf Hlen. unfold loc, take. f_equal.
  - now apply select_take.
  - apply map_ext_in. intros [c s] Hin. simpl. f_equal.
    apply select_series_take. unfold wf in Hwf. rewrite Forall_forall in Hwf.
    rewrite Hlen. symmetry. exact (Hwf _ Hin).
Qed.

Lemma labels_take (idx : list nat) (df : DataFrame) : labels (take idx df) = labels df.
Proof. unfold labels, take. cbn [columns]. rewrite map_map. reflexivity. Qed.

Lemma labels_loc (mask : list bool) (df : DataFrame) : labels (loc mask df) = labels df.
Proof. unfold labels, loc. cbn [columns]. rewrite map_map. reflexivity. Qed.

Lemma map_nth_seq {A : Type} (d : A) (l : list A) :
  map (fun k => nth k l d) (seq 0 (length l)) = l.
Proof. exact (take_list_self d l). Qed.

(** The rows of [df.take(idx)] are the rows of [df] at the positions [idx]. *)
Lemma rows_take (idx : list nat) (df : DataFrame) :
  wf df -> Forall (fun i => i < len df) idx ->
  rows (take idx df) = map (row_at df) idx.
Proof.
  intros Hwf Hidx. unfold rows, len. simpl. rewrite take_list_length.
  transitivity (map (row_at df) (map (fun k => nth k idx 0) (seq 0 (length idx))));
    [|now rewrite map_nth_seq].
  rewrite map_map.
  apply map_ext_in. intros k Hk. apply in_seq in Hk.
  unfold row_at; simpl. f_equal.
  - unfold take_list. rewrite (nth_indep _ 0 (nth 0 (index df) 0)) by (rewrite length_map; lia).
    now rewrite (map_nth (fun j => nth j (index df) 0)).
  - rewrite map_map. apply map_ext_in. intros [c s] Hin; simpl. f_equal.
    unfold wf in Hwf. rewrite Forall_forall in Hwf. specialize (Hwf _ Hin); simpl in Hwf.
    rewrite values_take_series by (rewrite Hwf; exact Hidx).
    unfold take_list.
    rewrite (nth_indep _ _ (nth 0 (values s) (SObj PyNaN))) by (rewrite length_map; lia).
    now rewrite (map_nth (fun j => nth j (values s) (SObj PyNaN))).
Qed.

(** The rows of [df.loc[mask]] are the rows of [df] the mask keeps. *)
Lemma rows_loc (mask : list bool) (df : DataFrame) :
  wf df -> length mask = len df ->
  rows (loc mask df) = select mask (rows df).
Proof.
  intros Hwf Hlen. rewrite loc_take by assumption.
  rewrite rows_take; auto.
  - unfold rows. rewrite select_map. f_equal. unfold positions. now rewrite Hlen.
  - rewrite <- Hlen. apply positions_lt.
Qed.

Lemma rows_length (df : DataFrame) : length (rows df) = len df.
Proof. unfold rows. now rewrite length_map, length_seq. Qed.

Lemma index_rows (df : DataFrame) : map fst (rows df) = index df.
Proof.
  unfold rows. rewrite map_map. simpl. apply (map_nth_seq 0 (index df)).
Qed.

(** ** Looking a column up *)

Lemma filter_singleton {A : Type} (p : A -> bool) (l : list A) (x : A) :
  filter p l = [x] ->
  exists pre post, l = pre ++ x :: post /\ filter p pre = [] /\ filter p post = [].
Proof.
  induction l as [|y l IH]; simpl; [discriminate|].
  destruct (p y) eqn:Hy; intros H.
  - injection H as -> Hl. exists [], l. simpl. auto.
  - destruct (IH H) as (pre & post & -> & Hpre & Hpost).
    exists (y :: pre), post. simpl. rewrite Hy. auto.
Qed.

Lemma filter_label_nil (c : string) (l : list (string * Series)) :
  filter (fun p => String.eqb (fst p) c) l = [] <-> ~ In c (map fst l).
Proof.
  induction l as [|[c' s] l IH]; simpl.
  - tauto.
  - destruct (String.eqb_spec c' c) as [->|Hne].
    + split; [discriminate|]. intros H; exfalso; apply H; auto.
    + rewrite IH. split; [|tauto]. intros H [He|Hin]; auto.
Qed.

(** [df[c]] is a Series exactly when one column carries the label. *)
Lemma getitem_Ok (df : DataFrame) (c : string) (s : Series) :
  getitem df c = Ok s <->
  exists pre post, columns df = pre ++ (c, s) :: post
                   /\ ~ In c (map fst pre) /\ ~ In c (map fst post).
Proof.
  unfold getitem. split.
  - destruct (filter _ (columns df)) as [|[c' s'] [|q l]] eqn:Hf; try discriminate.
    intros H; injection H as <-.
    assert (Hc : c' = c).
    { assert (Hin : In (c', s') (filter (fun p => String.eqb (fst p) c) (columns df)))
        by (rewrite Hf; simpl; auto).
      apply filter_In in Hin. simpl in Hin. now apply String.eqb_eq. }
    subst c'. destruct (filter_singleton _ _ _ Hf) as (pre & post & Hcols & Hpre & Hpost).
    exists pre, post. rewrite <- !filter_label_nil. auto.
  - intros (pre & post & -> & Hpre & Hpost).
    rewrite filter_app. simpl. rewrite String.eqb_refl.
    apply filter_label_nil in Hpre, Hpost. now rewrite Hpre, Hpost.
Qed.

Lemma getitem_In (df : DataFrame) (c : string) (s : Series) :
  getitem df c = Ok s -> In (c, s) (columns df).
Proof.
  intros H. apply getitem_Ok in H. destruct H as (pre & post & -> & _).
  apply in_or_app. right. simpl. auto.
Qed.

Lemma NoDup_app_inv {A : Type} (l1 l2 : list A) (x : A) :
  NoDup (l1 ++ x :: l2) -> ~ In x l1 /\ ~ In x l2.
Proof.
  intros H. apply NoDup_remove_2 in H. split; intros Hin; apply H, in_or_app; auto.
Qed.

Lemma getitem_NoDup (df : DataFrame) (c : string) (s : Series) :
  NoDup (labels df) -> In (c, s) (columns df) -> getitem df c = Ok s.
Proof.
  unfold labels. intros Hnd Hin. apply getitem_Ok.
  apply in_split in Hin. destruct Hin as (pre & post & Hcols).
  exists pre, post. split; [exact Hcols|].
  rewrite Hcols, map_app in Hnd. simpl in Hnd. now apply NoDup_app_inv.
Qed.

(** The only other answers of [df[c]]. *)
Lemma getitem_Err (df : DataFrame) (c : string) (e : error) :
  getitem df c = Err e ->
  (e = KeyError c /\ ~ In c (labels df)) \/ (e = DuplicateLabel c /\ In c (labels df)).
Proof.
  unfold getitem, labels.
  destruct (filter _ (columns df)) as [|[c' s'] [|q l]] eqn:Hf; try discriminate;
    intros H; injection H as <-.
  - left. split; auto. now apply filter_label_nil.
  - right. split; auto.
    destruct (in_dec string_dec c (map fst (columns df))) as [Hin|Hout]; auto.
    apply filter_label_nil in Hout. rewrite Hout in Hf. discriminate.
Qed.

(** ** Setting columns *)

Lemma map_fst_combine {A B : Type} (l : list A) (l' : list B) :
  length l = length l' -> map fst (combine l l') = l.
Proof.
  revert l'; induction l as [|x l IH]; intros [|y l']; simpl; try discriminate; auto.
  intros H. f_equal. apply IH. lia.
Qed.

Lemma columns_set_columns (f : string -> string) (df : DataFrame) :
  columns (set_columns df (map f (labels df))) =
  map (fun p => (f (fst p), snd p)) (columns df).
Proof.
  unfold set_columns, labels. cbn [columns].
  induction (columns df) as [|[c s] l IH]; simpl; auto. now rewrite IH.
Qed.

Lemma labels_set_columns (f : string -> string) (df : DataFrame) :
  labels (set_columns df (map f (labels df))) = map f (labels df).
Proof.
  unfold labels at 1. rewrite columns_set_columns. unfold labels.
  rewrite !map_map. reflexivity.
Qed.

Lemma existsb_label (c : string) (l : list string) :
  existsb (String.eqb c) l = true <-> In c l.
Proof.
  rewrite existsb_exists. split.
  - intros (x & Hin & Heq). apply String.eqb_eq in Heq. now subst.
  - intros Hin. exists c. split; auto. apply String.eqb_refl.
Qed.

Lemma replace_label_notin (c : string) (s : Series) (l : list (string * Series)) :
  ~ In c (map fst l) ->
  map (fun p => if String.eqb (fst p) c then (fst p, s) else p) l = l.
Proof.
  induction l as [|[c' s'] l IH]; simpl; auto.
  intros H. destruct (String.eqb_spec c' c) as [->|Hne].
  - exfalso; apply H; auto.
  - f_equal. apply IH. tauto.
Qed.

(** [df[c] = s] on the one column that carries [c]. *)
Lemma setitem_replace (idx : list nat) (pre post : list (string * Series))
      (c : string) (s0 s : Series) :
  ~ In c (map fst pre) -> ~ In c (map fst post) ->
  setitem (mkDataFrame idx (pre ++ (c, s0) :: post)) c s =
  mkDataFrame idx (pre ++ (c, s) :: post).
Proof.
  intros Hpre Hpost. unfold setitem.
  assert (Hin : existsb (String.eqb c) (labels (mkDataFrame idx (pre ++ (c, s0) :: post))) = true).
  { apply existsb_label. unfold labels; simpl. rewrite map_app. apply in_or_app.
    right; simpl; auto. }
  rewrite Hin. cbn [index columns]. f_equal.
  rewrite map_app. simpl. rewrite String.eqb_refl.
  now rewrite !replace_label_notin.
Qed.

Lemma labels_setitem (df : DataFrame) (c : string) (s : Series) :
  In c (labels df) -> labels (setitem df c s) = labels df.
Proof.
  intros Hin. unfold setitem. apply existsb_label in Hin. rewrite Hin.
  unfold labels. cbn [columns]. rewrite map_map. apply map_ext.
  intros [c' s']; simpl. now destruct (String.eqb c' c).
Qed.

Lemma index_setitem (df : DataFrame) (c : string) (s : Series) :
  index (setitem df c s) = index df.
Proof. unfold setitem. now destruct (existsb _ _). Qed.

(** [df[c] = s] for a label not yet there. *)
Lemma setitem_append (df : DataFrame) (c : string) (s : Series) :
  ~ In c (labels df) ->
  setitem df c s = mkDataFrame (index df) (columns df ++ [(c, s)]).
Proof.
  intros Hout. unfold setitem.
  destruct (existsb (String.eqb c) (labels df)) eqn:He; auto.
  apply existsb_label in He. contradiction.
Qed.

Lemma getitem_labels (df : DataFrame) (c : string) (s : Series) :
  getitem df c = Ok s -> In c (labels df).
Proof.
  intros H. apply getitem_In in H. unfold labels.
  change c with (fst (c, s)). now apply in_map.
Qed.

Lemma getitem_count (df : DataFrame) (c : string) (s : Series) :
  getitem df c = Ok s -> count_occ string_dec (labels df) c = 1.
Proof.
  intros H. apply getitem_Ok in H. destruct H as (pre & post & Hc & Hpre & Hpost).
  unfold labels. rewrite Hc, map_app, count_occ_app. simpl.
  destruct (string_dec c c) as [_|Hne]; [|contradiction].
  apply (count_occ_not_In string_dec) in Hpre, Hpost. lia.
Qed.

(** ** Rows and dates *)

Lemma getitem_map (f : Series -> Series) (df : DataFrame) (idx : list nat)
      (c : string) (s : Series) :
  getitem df c = Ok s ->
  getitem (mkDataFrame idx (map (fun p => (fst p, f (snd p))) (columns df))) c = Ok (f s).
Proof.
  intros H. apply getitem_Ok in H. destruct H as (pre & post & Hc & Hpre & Hpost).
  apply getitem_Ok. cbn [columns].
  exists (map (fun p => (fst p, f (snd p))) pre), (map (fun p => (fst p, f (snd p))) post).
  rewrite Hc, map_app, !map_map. simpl. auto.
Qed.

Lemma getitem_loc (mask : list bool) (df : DataFrame) (c : string) (s : Series) :
  getitem df c = Ok s -> getitem (loc mask df) c = Ok (select_series mask s).
Proof. apply (getitem_map (select_series mask)). Qed.

Lemma getitem_take (idx : list nat) (df : DataFrame) (c : string) (s : Series) :
  getitem df c = Ok s -> getitem (take idx df) c = Ok (take_series idx s).
Proof. apply (getitem_map (take_series idx)). Qed.

(** The cell of a row under a label is the cell of the column at the
    position of the row. *)
Lemma cell_row_at (df : DataFrame) (c : string) (s : Series) (i : nat) :
  getitem df c = Ok s ->
  cell (row_at df i) c = Some (nth i (values s) (SObj PyNaN)).
Proof.
  intros H. apply getitem_Ok in H. destruct H as (pre & post & Hc & Hpre & _).
  unfold cell, row_at. cbn [snd]. rewrite Hc. clear Hc.
  induction pre as [|[c' s'] pre IH]; simpl.
  - now rewrite String.eqb_refl.
  - destruct (String.eqb_spec c' c) as [->|Hne].
    + exfalso. apply Hpre. simpl; auto.
    + apply IH. simpl in Hpre. tauto.
Qed.

Lemma date_row_at (df : DataFrame) (v : list (option Z)) (i : nat) :
  getitem df "Date" = Ok (Datetime64 v) -> i < length v ->
  date (row_at df i) = nth i v None.
Proof.
  intros H Hi. unfold date. rewrite (cell_row_at df "Date" (Datetime64 v) i H).
  simpl. rewrite (nth_indep _ _ (STime None)) by (rewrite length_map; exact Hi).
  now rewrite (map_nth STime).
Qed.

Lemma getitem_size (df : DataFrame) (c : string) (s : Series) :
  wf df -> getitem df c = Ok s -> size s = len df.
Proof.
  intros Hwf H. apply getitem_In in H. unfold wf in Hwf.
  rewrite Forall_forall in Hwf. exact (Hwf _ H).
Qed.

(** The dates of the rows are the [Date] column. *)
Lemma dates_of_rows (df : DataFrame) (v : list (option Z)) :
  wf df -> getitem df "Date" = Ok (Datetime64 v) -> map date (rows df) = v.
Proof.
  intros Hwf H. pose proof (getitem_size df _ _ Hwf H) as Hsize.
  unfold size in Hsize; simpl in Hsize. rewrite length_map in Hsize.
  unfold rows. rewrite map_map. rewrite <- Hsize.
  rewrite <- (map_nth_seq None v) at 2.
  apply map_ext_in. intros i Hi. apply in_seq in Hi.
  apply date_row_at; auto. lia.
Qed.

Lemma select_filter {A : Type} (f : A -> bool) (l : list A) :
  select (map f l) l = filter f l.
Proof.
  induction l as [|x l IH]; simpl; auto. destruct (f x); now rewrite IH.
Qed.

(** The rows [dropna] keeps are those with a date. *)
Lemma rows_dropna (df : DataFrame) (v : list (option Z)) :
  wf df -> getitem df "Date" = Ok (Datetime64 v) ->
  rows (loc (notna (Datetime64 v)) df) = filter has_date (rows df).
Proof.
  intros Hwf H. pose proof (getitem_size df _ _ Hwf H) as Hsize.
  unfold size in Hsize. 
  rewrite rows_loc; auto.
  - rewrite <- select_filter. f_equal.
    unfold notna, isna. simpl. rewrite !map_map.
    rewrite <- (dates_of_rows df v Hwf H) at 1. rewrite map_map.
    apply map_ext. intros r. unfold has_date. now destruct (date r).
  - unfold notna, isna. now rewrite !length_map.
Qed.

Lemma stamps_map_Some (v : list Z) : stamps (map Some v) = v.
Proof. induction v; simpl; congruence. Qed.

(** What [dropna] leaves of a datetime column: Timestamps only. *)
Lemma select_notna (v : list (option Z)) :
  select (map negb (map isna_time v)) v = map Some (stamps v).
Proof.
  induction v as [|[t|] v IH]; simpl; auto. now rewrite IH.
Qed.

Lemma notna_datetime (v : list (option Z)) :
  notna (Datetime64 v) = map negb (map isna_time v).
Proof. unfold notna, isna. cbn [values]. rewrite !map_map. reflexivity. Qed.

Lemma positions_all (n : nat) (mask : list bool) :
  length mask = n -> Forall (fun b => b = true) mask -> positions mask = seq 0 n.
Proof.
  intros Hlen Hall. unfold positions. rewrite Hlen.
  apply select_true; auto. now rewrite length_seq.
Qed.

Lemma positions_none (mask : list bool) :
  Forall (fun b => b = false) mask -> positions mask = [].
Proof. intros H. unfold positions. now apply select_false. Qed.

Lemma Sorted_dates (l : list row) (v : list Z) :
  map date l = map Some v -> Sorted Z.le v -> Sorted date_le l.
Proof.
  revert v; induction l as [|r l IH]; intros [|t v]; simpl; try discriminate.
  - constructor.
  - intros H Hs. injection H as Hr Hl. inversion Hs as [|? ? Hs' Hhd]; subst.
    constructor; [now apply (IH v)|].
    destruct l as [|r' l]; [constructor|].
    destruct v as [|t' v]; [discriminate|]. simpl in Hl. injection Hl as Hr' _.
    constructor. unfold date_le. rewrite Hr, Hr'. now inversion Hhd.
Qed.

Lemma nth_map_seq {A : Type} (f : nat -> A) (d : A) (n i : nat) :
  i < n -> nth i (map f (seq 0 n)) d = f i.
Proof.
  intros Hi. rewrite (nth_indep _ d (f 0)) by (now rewrite length_map, length_seq).
  rewrite (map_nth f). now rewrite seq_nth.
Qed.

Lemma In_row_at (df : DataFrame) (i : nat) : i < len df -> In (row_at df i) (rows df).
Proof. intros Hi. unfold rows. apply in_map. apply in_seq. lia. Qed.

(* ================================================================== *)
(** ** The Tidier *)

Section Tidier.

Variable parse_float : string -> option float.
Variable parse_datetime : Series -> nat -> option Z.
Variable str_float : float -> string.
Variable str_time : option Z -> string.
Variable argsort : list Z -> list nat.

Local Abbreviation coerce := (coerce_numbers parse_float str_float str_time).
Local Abbreviation loop := (coerce_columns parse_float str_float str_time).
Local Abbreviation cells_of := (tidy_cells parse_float parse_datetime str_float str_time).
Local Abbreviation tidy := (tidy_df parse_float parse_datetime str_float str_time argsort).
Local Abbreviation read_number := (read_number parse_float str_float str_time).
Local Abbreviation read_column :=
  (read_column parse_float parse_datetime str_float str_time).

Lemma loop_Ok (idx : list nat) (post pre : list (string * Series)) :
  NoDup (map fst (pre ++ post)) ->
  loop (map fst post) (mkDataFrame idx (pre ++ post)) =
  Ok (mkDataFrame idx (pre ++ map read_number post)).
Proof.
  revert pre; induction post as [|[c s] post IH]; intros pre Hnd; simpl.
  - reflexivity.
  - unfold read_number at 1; simpl.
    destruct (String.eqb c "Date") eqn:Hc.
    + specialize (IH (pre ++ [(c, s)])). rewrite <- !app_assoc in IH. simpl in IH.
      apply IH. exact Hnd.
    + rewrite map_app in Hnd. simpl in Hnd.
      destruct (NoDup_app_inv _ _ _ Hnd) as [Hpre Hpost].
      assert (Hget : getitem (mkDataFrame idx (pre ++ (c, s) :: post)) c = Ok s).
      { apply getitem_Ok. exists pre, post. auto. }
      rewrite Hget. simpl. rewrite setitem_replace by assumption.
      specialize (IH (pre ++ [(c, coerce s)])). rewrite <- !app_assoc in IH. simpl in IH.
      apply IH. rewrite map_app. simpl. exact Hnd.
Qed.

Lemma loop_labels (cs : list string) (df out : DataFrame) :
  loop cs df = Ok out ->
  Forall (fun c => c = "Date"%string \/ count_occ string_dec (labels df) c = 1) cs.
Proof.
  revert df; induction cs as [|c cs IH]; intros df; simpl.
  - constructor.
  - destruct (String.eqb_spec c "Date") as [->|Hne].
    + intros H. constructor; eauto.
    + destruct (getitem df c) as [s|e] eqn:Hget; simpl; [|discriminate].
      intros H. constructor.
      * right. eapply getitem_count; eauto.
      * apply IH in H. rewrite labels_setitem in H; auto.
        eapply getitem_labels; eauto.
Qed.

Lemma loop_Err (cs : list string) (df : DataFrame) (e : error) :
  incl cs (labels df) -> loop cs df = Err e -> exists c, e = DuplicateLabel c.
Proof.
  revert df; induction cs as [|c cs IH]; intros df Hincl; simpl.
  - discriminate.
  - assert (Hc : In c (labels df)) by (apply Hincl; simpl; auto).
    assert (Hcs : incl cs (labels df)) by (intros x Hx; apply Hincl; simpl; auto).
    destruct (String.eqb c "Date").
    + now apply IH.
    + destruct (getitem df c) as [s|e'] eqn:Hget; simpl.
      * apply IH. now rewrite labels_setitem.
      * intros H; injection H as <-.
        apply getitem_Err in Hget. destruct Hget as [[_ Hout]|[-> _]]; eauto.
        contradiction.
Qed.

Lemma NoDup_count_one (l : list string) :
  (forall c, In c l -> count_occ string_dec l c = 1) -> NoDup l.
Proof.
  intros H. apply (NoDup_count_occ string_dec). intros c.
  destruct (in_dec string_dec c l) as [Hin|Hout].
  - rewrite H; auto.
  - apply (count_occ_not_In string_dec) in Hout. lia.
Qed.

Lemma read_column_strip (df : DataFrame) :
  map fst (map read_column (columns df)) = map Str.strip (labels df).
Proof.
  unfold labels. rewrite !map_map. apply map_ext. intros [c s].
  unfold read_column; simpl. now destruct (String.eqb _ _).
Qed.

Lemma read_column_split (l pre post : list (string * Series)) (d : Series) :
  map (fun p => (Str.strip (fst p), snd p)) l = pre ++ ("Date"%string, d) :: post ->
  ~ In "Date"%string (map fst pre) -> ~ In "Date"%string (map fst post) ->
  map read_number (pre ++ ("Date"%string, Datetime64 (to_datetime parse_datetime d)) :: post)
  = map read_column l.
Proof.
  revert pre; induction l as [|[c s] l IH]; intros pre Hcols Hpre Hpost.
  - destruct pre; discriminate.
  - simpl in Hcols. destruct pre as [|[c' s'] pre]; simpl in *.
    + injection Hcols as Hc Hs Hpost'. subst d post.
      unfold read_column at 1, read_number at 1; simpl. rewrite Hc. simpl.
      f_equal.
      clear IH. induction l as [|[c2 s2] l IHl]; simpl in *; auto.
      unfold read_column at 1, read_number at 1; simpl.
      destruct (String.eqb_spec (Str.strip c2) "Date") as [He|Hne].
      * exfalso. apply Hpost. auto.
      * f_equal. apply IHl. tauto.
    + injection Hcols as Hc Hs Htl. subst c' s'.
      unfold read_column at 1, read_number at 1; simpl.
      destruct (String.eqb_spec (Str.strip c) "Date") as [He|Hne].
      * exfalso. apply Hpre. auto.
      * f_equal. apply (IH pre); auto.
Qed.

Lemma tidy_step (df df1 : DataFrame) (d : Series) :
  columns df1 = map (fun p => (Str.strip (fst p), snd p)) (columns df) ->
  index df1 = index df ->
  getitem df1 "Date" = Ok d -> NoDup (labels df1) ->
  loop (labels (setitem df1 "Date" (Datetime64 (to_datetime parse_datetime d))))
       (setitem df1 "Date" (Datetime64 (to_datetime parse_datetime d)))
  = Ok (mkDataFrame (index df) (map read_column (columns df))).
Proof.
  intros Hc1 Hi1 Hget Hnd.
  rewrite labels_setitem by (eapply getitem_labels; eauto).
  apply getitem_Ok in Hget. destruct Hget as (pre & post & Hcols & Hpre & Hpost).
  destruct df1 as [idx1 cols1]; cbn [index columns] in *. subst idx1.
  rewrite Hcols in Hc1. symmetry in Hc1. unfold labels in *; cbn [columns] in *.
  rewrite Hcols in *. clear Hcols.
  rewrite setitem_replace by assumption.
  pose proof (loop_Ok (index df)
                (pre ++ ("Date"%string, Datetime64 (to_datetime parse_datetime d)) :: post)
                [ ]) as HL.
  cbn [app] in HL.
  replace (map fst (pre ++ ("Date"%string, d) :: post))
    with (map fst (pre ++ ("Date"%string, Datetime64 (to_datetime parse_datetime d)) :: post))
    in * by (rewrite !map_app; reflexivity).
  rewrite HL by exact Hnd.
  f_equal. f_equal. now apply read_column_split.
Qed.

(** Lines 62-71 return when the stripped headers are all different and one of
    them is [Date], and then hold every column read. *)
Lemma tidy_cells_Ok (df out : DataFrame) :
  cells_of df = Ok out <->
  In "Date"%string (map Str.strip (labels df))
  /\ NoDup (map Str.strip (labels df))
  /\ out = mkDataFrame (index df) (map read_column (columns df)).
Proof.
  unfold tidy_cells.
  pose proof (labels_set_columns Str.strip df) as Hl1.
  pose proof (columns_set_columns Str.strip df) as Hc1.
  assert (Hi1 : index (set_columns df (map Str.strip (labels df))) = index df)
    by reflexivity.
  revert Hl1 Hc1 Hi1.
  generalize (set_columns df (map Str.strip (labels df))). intros df1 Hl1 Hc1 Hi1.
  destruct (existsb (String.eqb "Date") (labels df1)) eqn:Hex; simpl.
  2:{ split; [discriminate|]. intros (Hin & _). rewrite <- Hl1 in Hin.
      apply existsb_label in Hin. congruence. }
  apply existsb_label in Hex.
  split.
  - intros H.
    destruct (getitem df1 "Date") as [d|e] eqn:Hget; simpl in H; [|discriminate].
    assert (Hnd : NoDup (labels df1)).
    { apply NoDup_count_one. intros c Hc.
      apply loop_labels in H. rewrite labels_setitem in H by exact Hex.
      rewrite Forall_forall in H. destruct (H c Hc) as [->|Hone]; auto.
      eapply getitem_count; eauto. }
    rewrite (tidy_step df df1 d Hc1 Hi1 Hget Hnd) in H. injection H as <-.
    rewrite <- Hl1. auto.
  - intros (Hin & Hnd & ->). rewrite <- Hl1 in Hnd.
    assert (Hget : exists d, getitem df1 "Date" = Ok d).
    { unfold labels in Hex. apply in_map_iff in Hex. destruct Hex as ([c s] & Hc & Hin').
      simpl in Hc; subst c. exists s. now apply getitem_NoDup. }
    destruct Hget as (d & Hget). rewrite Hget. simpl. now apply (tidy_step df).
Qed.

(** Lines 62-71 raise [SchemaError] for want of a [Date] header, and nothing
    else but the error of a header that several columns share. *)
Lemma tidy_cells_Err (df : DataFrame) (e : error) :
  cells_of df = Err e ->
  (e = SchemaError /\ ~ In "Date"%string (map Str.strip (labels df)))
  \/ (exists c, e = DuplicateLabel c /\ In "Date"%string (map Str.strip (labels df))).
Proof.
  unfold tidy_cells.
  pose proof (labels_set_columns Str.strip df) as Hl1. revert Hl1.
  generalize (set_columns df (map Str.strip (labels df))). intros df1 Hl1.
  destruct (existsb (String.eqb "Date") (labels df1)) eqn:Hex; simpl.
  - apply existsb_label in Hex. intros H. right.
    destruct (getitem df1 "Date") as [d|e'] eqn:Hget; simpl in H.
    + apply loop_Err in H; [|apply incl_refl].
      destruct H as (c & ->). exists c. rewrite <- Hl1. auto.
    + injection H as <-. apply getitem_Err in Hget.
      destruct Hget as [[_ Hout]|[-> _]]; [contradiction|].
      exists "Date"%string. rewrite <- Hl1. auto.
  - intros H; injection H as <-. left. split; auto.
    rewrite <- Hl1. intros Hin. apply existsb_label in Hin. congruence.
Qed.

(** Without NaT among the keys, [nargsort] is numpy's [argsort]. *)
Lemma nargsort_stamps (v : list Z) :
  Forall (fun i => i < length v) (argsort v) ->
  nargsort argsort (map Some v) = argsort v.
Proof.
  intros Hlt. unfold nargsort. rewrite stamps_map_Some.
  rewrite (positions_all (length v)), positions_none.
  - rewrite app_nil_r. now apply take_list_seq.
  - rewrite !Forall_map. apply Forall_forall. reflexivity.
  - now rewrite !length_map.
  - rewrite !Forall_map. apply Forall_forall. reflexivity.
Qed.

(** After lines 62-71 the [Date] column is a datetime column. *)
Lemma tidy_cells_Date (df cells : DataFrame) :
  cells_of df = Ok cells -> exists v, getitem cells "Date" = Ok (Datetime64 v).
Proof.
  intros Hc. apply tidy_cells_Ok in Hc. destruct Hc as (Hin & Hnd & ->).
  rewrite <- read_column_strip in Hin, Hnd.
  apply in_map_iff in Hin. destruct Hin as ([c s] & Hc & Hin). simpl in Hc. subst c.
  pose proof Hin as Hin'.
  apply in_map_iff in Hin. destruct Hin as ([c0 s0] & Heq & Hin0).
  unfold read_column in Heq; simpl in Heq.
  destruct (String.eqb_spec (Str.strip c0) "Date") as [He|Hne].
  - injection Heq as _ <-. eexists. apply getitem_NoDup; eauto.
  - injection Heq as Hc _. congruence.
Qed.

(** The frame [tidy_df] returns, from the cells read: the rows with a date,
    in the order numpy's sort gives them. *)
Lemma tidy_df_Ok (df out : DataFrame) :
  tidy df = Ok out <->
  exists cells v,
    cells_of df = Ok cells
    /\ getitem cells "Date" = Ok (Datetime64 v)
    /\ out = take (nargsort argsort (map Some (stamps v))) (loc (notna (Datetime64 v)) cells).
Proof.
  unfold tidy_df. split.
  - destruct (cells_of df) as [cells|e] eqn:Hcells; simpl; [|discriminate].
    destruct (tidy_cells_Date df cells Hcells) as (v & Hd).
    unfold dropna. rewrite Hd. simpl.
    unfold sort_values. rewrite (getitem_loc _ _ _ _ Hd). simpl.
    rewrite notna_datetime, select_notna.
    intros H; injection H as <-. exists cells, v. rewrite notna_datetime. auto.
  - intros (cells & v & -> & Hd & ->). simpl.
    unfold dropna. rewrite Hd. simpl.
    unfold sort_values. rewrite (getitem_loc _ _ _ _ Hd). simpl.
    now rewrite notna_datetime, select_notna.
Qed.

(** [tidy_df] raises what lines 62-71 raise, and nothing more. *)
Lemma tidy_df_Err (df : DataFrame) (e : error) :
  tidy df = Err e <-> cells_of df = Err e.
Proof.
  split.
  - destruct (cells_of df) as [cells|e'] eqn:Hcells.
    + destruct (tidy_cells_Date df cells Hcells) as (v & Hd).
      assert (H : tidy df = Ok (take (nargsort argsort (map Some (stamps v)))
                                     (loc (notna (Datetime64 v)) cells)))
        by (apply tidy_df_Ok; eauto).
      rewrite H. discriminate.
    + unfold tidy_df. rewrite Hcells. simpl. auto.
  - intros H. unfold tidy_df. rewrite H. reflexivity.
Qed.

Lemma length_astype_str (s : Series) :
  length (astype_str str_float str_time s) = size s.
Proof. unfold size. destruct s; simpl; now rewrite !length_map. Qed.

Lemma size_coerce (s : Series) : size (coerce s) = size s.
Proof.
  unfold coerce_numbers, size. simpl. rewrite !length_map.
  apply length_astype_str.
Qed.

Lemma size_to_datetime (s : Series) :
  size (Datetime64 (to_datetime parse_datetime s)) = size s.
Proof. unfold to_datetime, size. simpl. now rewrite !length_map, length_seq. Qed.

Lemma wf_cells (df : DataFrame) :
  wf df -> wf (mkDataFrame (index df) (map read_column (columns df))).
Proof.
  unfold wf, len. cbn [index columns]. intros H. rewrite Forall_map.
  eapply Forall_impl; [|exact H]. intros [c s] Hs. simpl in *.
  unfold read_column; simpl. destruct (String.eqb _ _); simpl.
  - now rewrite size_to_datetime.
  - now rewrite size_coerce.
Qed.

Section Sorting.

Hypothesis argsort_sorts : sorts argsort.

(** The frame [tidy_df] returns, once numpy's sort is known to sort. *)
Lemma tidy_df_sorted (df out : DataFrame) :
  wf df -> tidy df = Ok out ->
  exists v idx,
    let cells := mkDataFrame (index df) (map read_column (columns df)) in
    getitem cells "Date" = Ok (Datetime64 v)
    /\ NoDup (labels cells)
    /\ Permutation idx (seq 0 (length (stamps v)))
    /\ Sorted Z.le (take_list 0%Z idx (stamps v))
    /\ out = take idx (loc (notna (Datetime64 v)) cells)
    /\ getitem out "Date" = Ok (Datetime64 (map Some (take_list 0%Z idx (stamps v))))
    /\ rows out = map (row_at (loc (notna (Datetime64 v)) cells)) idx
    /\ rows (loc (notna (Datetime64 v)) cells) = filter has_date (rows cells)
    /\ len (loc (notna (Datetime64 v)) cells) = length (stamps v).
Proof.
  intros Hwf H. apply tidy_df_Ok in H. destruct H as (cells & v & Hcells & Hd & ->).
  apply tidy_cells_Ok in Hcells. destruct Hcells as (Hin & Hnd & ->).
  pose proof (wf_cells df Hwf) as Hwfc.
  set (cells := mkDataFrame (index df) (map read_column (columns df))) in *.
  destruct (argsort_sorts (stamps v)) as [Hperm Hsorted].
  pose proof (Permutation_positions_lt _ _ Hperm) as Hlt.
  rewrite (nargsort_stamps (stamps v) Hlt).
  exists v, (argsort (stamps v)). cbn zeta.
  assert (Hlen : len (loc (notna (Datetime64 v)) cells) = length (stamps v)).
  { unfold len, loc; cbn [index]. rewrite notna_datetime.
    rewrite <- (length_map Some (stamps v)), <- select_notna.
    apply select_length_eq.
    pose proof (getitem_size cells _ _ Hwfc Hd) as Hs. unfold size in Hs; simpl in Hs.
    rewrite length_map in Hs. symmetry. exact Hs. }
  repeat split; auto.
  - unfold cells, labels; cbn [columns]. now rewrite read_column_strip.
  - rewrite (getitem_take _ _ _ _ (getitem_loc _ _ _ _ Hd)). simpl.
    rewrite notna_datetime, select_notna. do 2 f_equal.
    rewrite <- take_list_map. apply take_list_indep. now rewrite length_map.
  - apply rows_take; [now apply wf_loc|]. now rewrite Hlen.
  - now apply rows_dropna.
Qed.

(** The rows returned are the rows with a date, each once. *)
Lemma tidy_df_Permutation (df out : DataFrame) :
  wf df -> tidy df = Ok out ->
  Permutation (rows out)
    (filter has_date (rows (mkDataFrame (index df) (map read_column (columns df))))).
Proof.
  intros Hwf H. destruct (tidy_df_sorted df out Hwf H)
    as (v & idx & Hd & Hnd & Hperm & Hsorted & Hout & Hdate & Hrows & Hdrop & Hlen).
  rewrite Hrows, <- Hdrop. unfold rows.
  apply Permutation_map. rewrite Hlen. exact Hperm.
Qed.

(** [tidy_df] returns a tidy table. *)
Lemma tidy_df_TidyTable (df out : DataFrame) :
  wf df -> tidy df = Ok out -> TidyTable out.
Proof.
  intros Hwf H. destruct (tidy_df_sorted df out Hwf H)
    as (v & idx & Hd & Hnd & Hperm & Hsorted & Hout & Hdate & Hrows & Hdrop & Hlen).
  constructor.
  - rewrite Hout. apply wf_take.
  - rewrite Hout, labels_take, labels_loc. exact Hnd.
  - eauto.
  - intros c s Hin Hc. rewrite Hout in Hin. unfold take, loc in Hin; cbn [columns] in Hin.
    rewrite map_map in Hin. simpl in Hin. apply in_map_iff in Hin.
    destruct Hin as ([c1 s1] & Heq & Hin). simpl in Heq. injection Heq as -> <-.
    apply in_map_iff in Hin. destruct Hin as ([c0 s0] & Heq & _).
    unfold read_column in Heq; simpl in Heq.
    destruct (String.eqb_spec (Str.strip c0) "Date") as [He|Hne].
    + injection Heq as <- _. contradiction.
    + injection Heq as _ <-. simpl. eauto.
Qed.

(** C2, as the code has it: for every table [tidy_df] accepts, the rows of
    the result stand in ascending order of their parsed dates, and they are
    the rows whose date was read, each once and whole, so that rows of one
    date are all retained.  The order among rows of one date is the one
    numpy's sort leaves, about which nothing is promised. *)
Theorem tidy_df_ascending (df out : DataFrame) :
  wf df -> tidy df = Ok out ->
  Sorted date_le (rows out)
  /\ Permutation (rows out)
       (filter has_date (rows (mkDataFrame (index df) (map read_column (columns df))))).
Proof.
  intros Hwf H. split; [|now apply tidy_df_Permutation].
  destruct (tidy_df_sorted df out Hwf H)
    as (v & idx & Hd & Hnd & Hperm & Hsorted & Hout & Hdate & Hrows & Hdrop & Hlen).
  apply (Sorted_dates _ (take_list 0%Z idx (stamps v))); auto.
  apply dates_of_rows; auto. rewrite Hout. apply wf_take.
Qed.

(** C6: a row of the input whose [Date] cell is not read as a date is absent
    from the result; any other row is there, with the date read and, under
    every other header, the number read from the cell or, where none can be
    read, NaN.  Whatever the cells hold, [tidy_df] returns as soon as the
    stripped headers are distinct and include [Date], and raises nothing but
    the two errors the headers can cause. *)
Theorem tidy_df_rows (df : DataFrame) :
  wf df ->
  let cells := mkDataFrame (index df) (map read_column (columns df)) in
  (In "Date"%string (map Str.strip (labels df)) -> NoDup (map Str.strip (labels df)) ->
   exists out, tidy df = Ok out)
  /\ (forall e, tidy df = Err e -> e = SchemaError \/ exists c, e = DuplicateLabel c)
  /\ (forall out, tidy df = Ok out ->
      forall i, i < len df ->
        (forall c d, In (c, d) (columns df) -> Str.strip c = "Date"%string ->
           match parse_datetime d i with
           | None => ~ In (row_at cells i) (rows out)
           | Some t => In (row_at cells i) (rows out) /\ date (row_at cells i) = Some t
           end)
        /\ (forall c s, In (c, s) (columns df) -> Str.strip c <> "Date"%string ->
              cell (row_at cells i) (Str.strip c) =
              Some (SFloat
                      match parse_float
                              (Str.replace "," "."
                                 (Str.replace " " "" (nth i (astype_str str_float str_time s) ""%string)))
                      with
                      | Some x => x
                      | None => nan
                      end))).
Proof.
  intros Hwf cells. split; [|split].
  - intros Hin Hnd.
    assert (Hc : cells_of df = Ok cells) by (apply tidy_cells_Ok; auto).
    destruct (tidy_cells_Date df cells Hc) as (v & Hd).
    eexists. apply tidy_df_Ok. eauto.
  - intros e He. apply tidy_df_Err, tidy_cells_Err in He.
    destruct He as [[-> _]|(c & -> & _)]; eauto.
  - intros out Hout i Hi.
    pose proof (tidy_df_Permutation df out Hwf Hout) as Hperm. fold cells in Hperm.
    pose proof Hout as Hc. apply tidy_df_Ok in Hc.
    destruct Hc as (cells' & v & Hc & _ & _). apply tidy_cells_Ok in Hc.
    destruct Hc as (_ & Hnd & _). rewrite <- read_column_strip in Hnd.
    assert (Hrow : In (row_at cells i) (rows cells)) by (apply In_row_at; exact Hi).
    split.
    + intros c d Hin Hc.
      assert (Hd : getitem cells "Date" = Ok (Datetime64 (to_datetime parse_datetime d))).
      { apply getitem_NoDup; auto. unfold cells; cbn [columns]. apply in_map_iff.
        exists (c, d). split; auto. unfold read_column; simpl. now rewrite Hc. }
      assert (Hdi : date (row_at cells i) = parse_datetime d i).
      { unfold wf in Hwf. rewrite Forall_forall in Hwf. specialize (Hwf _ Hin). simpl in Hwf.
        rewrite (date_row_at cells _ i Hd).
        - unfold to_datetime. apply nth_map_seq. now rewrite Hwf.
        - unfold to_datetime. rewrite length_map, length_seq. now rewrite Hwf. }
      destruct (parse_datetime d i) as [t|] eqn:Hp.
      * split; auto. apply (Permutation_in _ (Permutation_sym Hperm)).
        apply filter_In. split; auto. unfold has_date. now rewrite Hdi.
      * intros Hin'. apply (Permutation_in _ Hperm) in Hin'.
        apply filter_In in Hin'. destruct Hin' as [_ Hhas].
        unfold has_date in Hhas. rewrite Hdi in Hhas. discriminate.
    + intros c s Hin Hc.
      assert (Hs : getitem cells (Str.strip c) = Ok (coerce s)).
      { apply getitem_NoDup; auto. unfold cells; cbn [columns]. apply in_map_iff.
        exists (c, s). split; auto. unfold read_column; simpl.
        destruct (String.eqb_spec (Str.strip c) "Date"); [contradiction|reflexivity]. }
      rewrite (cell_row_at cells _ _ i Hs). f_equal.
      unfold wf in Hwf. rewrite Forall_forall in Hwf. specialize (Hwf _ Hin). simpl in Hwf.
      unfold coerce_numbers. cbn [values]. rewrite !map_map.
      set (f := fun t => SFloat (to_numeric parse_float
                                   (Str.replace "," "." (Str.replace " " "" t)))).
      rewrite (nth_indep _ _ (f ""%string))
        by (rewrite length_map, length_astype_str, Hwf; exact Hi).
      rewrite (map_nth f). reflexivity.
Qed.

End Sorting.

(** C5: [tidy_df] raises the error of line 66 exactly when no header, once
    stripped, is [Date]; and then it returns no table. *)
Theorem tidy_df_SchemaError (df : DataFrame) :
  (tidy df = Err SchemaError <-> ~ In "Date"%string (map Str.strip (labels df)))
  /\ (~ In "Date"%string (map Str.strip (labels df)) -> forall out, tidy df <> Ok out).
Proof.
  assert (H : tidy df = Err SchemaError <-> ~ In "Date"%string (map Str.strip (labels df))).
  { rewrite tidy_df_Err. split.
    - intros He. apply tidy_cells_Err in He.
      destruct He as [[_ Hout]|(c & Hc & _)]; [exact Hout|discriminate].
    - intros Hout. destruct (cells_of df) as [cells|e] eqn:Hc.
      + apply tidy_cells_Ok in Hc. tauto.
      + apply tidy_cells_Err in Hc. destruct Hc as [[-> _]|(c & _ & Hin)]; tauto. }
  split; [exact H|].
  intros Hout out Hok. apply H in Hout. congruence.
Qed.

End Tidier.

(* ================================================================== *)
(** ** Numbers *)

Lemma replace_space (t : string) :
  Str.replace " " "" t =
  string_of_list_ascii
    (filter (fun ch => negb (Ascii.eqb ch " ")) (list_ascii_of_string t)).
Proof.
  induction t as [|ch t IH]; simpl; auto.
  destruct (Ascii.eqb ch " "); simpl; now rewrite IH.
Qed.

Lemma replace_comma (t : string) :
  Str.replace "," "." t =
  string_of_list_ascii
    (map (fun ch => if Ascii.eqb ch "," then "."%char else ch) (list_ascii_of_string t)).
Proof.
  induction t as [|ch t IH]; simpl; auto.
  destruct (Ascii.eqb ch ","); simpl; now rewrite IH.
Qed.

Lemma replace_cleaned (t : string) :
  Str.replace "," "." (Str.replace " " "" t) = cleaned t.
Proof.
  rewrite replace_comma, replace_space. unfold cleaned.
  now rewrite list_ascii_of_string_of_list_ascii.
Qed.

(** C7: [coerce_numbers] gives a float column with, for every cell, the
    number read from its text after the spaces are taken out and then the
    commas turned into points, and NaN where no number is read; the cleaned
    text holds no space and no comma.  For a reader of numbers that reads
    1234.56 from [1234.56], the text [1 234,56] is coerced to 1234.56. *)
Theorem coerce_numbers_cleans
        (parse_float : string -> option float)
        (str_float : float -> string) (str_time : option Z -> string) :
  parse_float "1234.56"%string = Some 1234.56%float ->
  (forall s,
      coerce_numbers parse_float str_float str_time s =
      Float64 (map (fun t => match parse_float (cleaned t) with
                             | Some x => x
                             | None => nan
                             end)
                   (astype_str str_float str_time s)))
  /\ (forall t, ~ In " "%char (list_ascii_of_string (cleaned t))
                /\ ~ In ","%char (list_ascii_of_string (cleaned t)))
  /\ coerce_numbers parse_float str_float str_time (Object [PyStr "1 234,56"])
     = Float64 [1234.56%float].
Proof.
  intros Hread. split; [|split].
  - intros s. unfold coerce_numbers. f_equal. rewrite !map_map.
    apply map_ext. intros t. unfold to_numeric. now rewrite replace_cleaned.
  - intros t. unfold cleaned. rewrite list_ascii_of_string_of_list_ascii.
    split; intros Hin; apply in_map_iff in Hin; destruct Hin as (ch & Hch & Hin);
      apply filter_In in Hin; destruct Hin as [_ Hsp].
    + destruct (Ascii.eqb_spec ch ","); [discriminate|]. subst ch.
      rewrite Ascii.eqb_refl in Hsp. discriminate.
    + destruct (Ascii.eqb_spec ch ","); [discriminate|]. congruence.
  - unfold coerce_numbers, to_numeric. simpl. now rewrite Hread.
Qed.

(* ================================================================== *)
(** ** The Period Filter *)

Lemma fold_max_spec (v : list Z) (t : Z) :
  is_max (fold_left Z.max v t) (t :: v).
Proof.
  revert t; induction v as [|x v IH]; intros t; simpl.
  - split; [simpl; auto|]. constructor; [lia|constructor].
  - destruct (IH (Z.max t x)) as [Hin Hall]. split.
    + simpl in Hin. destruct Hin as [He|Hin]; [|simpl; auto].
      rewrite <- He. destruct (Z.max_spec t x) as [[_ ->]|[_ ->]]; simpl; auto.
    + inversion Hall as [|? ? Hm Hv]; subst.
      constructor; [lia|]. constructor; [lia|exact Hv].
Qed.

Lemma fold_min_spec (v : list Z) (t : Z) :
  is_min (fold_left Z.min v t) (t :: v).
Proof.
  revert t; induction v as [|x v IH]; intros t; simpl.
  - split; [simpl; auto|]. constructor; [lia|constructor].
  - destruct (IH (Z.min t x)) as [Hin Hall]. split.
    + simpl in Hin. destruct Hin as [He|Hin]; [|simpl; auto].
      rewrite <- He. destruct (Z.min_spec t x) as [[_ ->]|[_ ->]]; simpl; auto.
    + inversion Hall as [|? ? Hm Hv]; subst.
      constructor; [lia|]. constructor; [lia|exact Hv].
Qed.

Lemma maximum_spec (v : list Z) :
  v <> [] -> exists m, maximum v = Some m /\ is_max m v.
Proof.
  destruct v as [|t v]; [congruence|]. intros _. eexists. split; [reflexivity|].
  apply fold_max_spec.
Qed.

Lemma minimum_spec (v : list Z) :
  v <> [] -> exists m, minimum v = Some m /\ is_min m v.
Proof.
  destruct v as [|t v]; [congruence|]. intros _. eexists. split; [reflexivity|].
  apply fold_min_spec.
Qed.

Lemma between_in_window (lo hi : Z) (l : list row) :
  between (Some lo) (Some hi) (map date l) = map (in_window lo hi) l.
Proof.
  unfold between. rewrite map_map. apply map_ext. intros r.
  unfold in_window. now destruct (date r).
Qed.

Lemma between_length (lo hi : option Z) (v : list (option Z)) :
  length (between lo hi v) = length v.
Proof. unfold between. apply length_map. Qed.

Lemma TidyTable_dates (df : DataFrame) :
  TidyTable df ->
  exists v, getitem df "Date" = Ok (Datetime64 (map Some v))
            /\ Sorted Z.le v /\ length v = len df.
Proof.
  intros [Hwf _ (v & Hd & Hs) _]. exists v. repeat split; auto.
  pose proof (getitem_size df _ _ Hwf Hd) as H. unfold size in H. simpl in H.
  now rewrite !length_map in H.
Qed.

(** What [filter_period] computes on a tidy table with rows. *)
Lemma filter_period_run (df : DataFrame) (period_key : string) (v : list Z) :
  wf df -> getitem df "Date" = Ok (Datetime64 (map Some v)) -> empty df = false ->
  exists lo hi,
    maximum v = Some hi
    /\ period_start period_key (Some hi) (map Some v) = Ok (Some lo)
    /\ filter_period df period_key = Ok (loc (between (Some lo) (Some hi) (map Some v)) df)
    /\ rows (loc (between (Some lo) (Some hi) (map Some v)) df)
       = filter (in_window lo hi) (rows df).
Proof.
  intros Hwf Hd Hne.
  assert (Hlen : length v = len df).
  { pose proof (getitem_size df _ _ Hwf Hd) as H. unfold size in H. simpl in H.
    now rewrite !length_map in H. }
  assert (Hv : v <> []).
  { intros ->. unfold empty in Hne. simpl in Hlen. rewrite <- Hlen in Hne. discriminate. }
  destruct (maximum_spec v Hv) as (hi & Hmax & _).
  destruct (minimum_spec v Hv) as (mn & Hmin & _).
  assert (Hstart : exists lo, period_start period_key (Some hi) (map Some v) = Ok (Some lo)).
  { unfold period_start. rewrite stamps_map_Some, Hmin.
    repeat match goal with |- context [String.eqb ?a ?b] => destruct (String.eqb a b) end;
      simpl; eauto. }
  destruct Hstart as (lo & Hstart). exists lo, hi. repeat split; auto.
  - unfold filter_period. rewrite Hne, Hd. simpl. rewrite stamps_map_Some, Hmax, Hstart.
    reflexivity.
  - rewrite rows_loc; auto.
    + rewrite <- (dates_of_rows df _ Hwf Hd), between_in_window. apply select_filter.
    + now rewrite between_length, length_map.
Qed.

Lemma select_map_Some (mask : list bool) (v : list Z) :
  select mask (map Some v) = map Some (select mask v).
Proof. apply select_map. Qed.

Lemma StronglySorted_select (mask : list bool) (v : list Z) :
  StronglySorted Z.le v -> StronglySorted Z.le (select mask v).
Proof.
  revert mask; induction v as [|x v IH]; intros [|b mask] Hs; simpl; try constructor.
  inversion Hs as [|? ? Hs' Hall]; subst.
  destruct b; [|now apply IH]. constructor; [now apply IH|].
  rewrite Forall_forall in *. intros y Hy. apply Hall. eapply select_In; eauto.
Qed.

Lemma Sorted_select (mask : list bool) (v : list Z) :
  Sorted Z.le v -> Sorted Z.le (select mask v).
Proof.
  intros H. apply StronglySorted_Sorted, StronglySorted_select.
  apply Sorted_StronglySorted; auto. intros x y z; lia.
Qed.

Lemma TidyTable_loc (mask : list bool) (df : DataFrame) :
  TidyTable df -> TidyTable (loc mask df).
Proof.
  intros [Hwf Hnd (v & Hd & Hs) Hser]. constructor.
  - now apply wf_loc.
  - now rewrite labels_loc.
  - exists (select mask v). split; [|now apply Sorted_select].
    rewrite (getitem_loc _ _ _ _ Hd). simpl. now rewrite select_map_Some.
  - intros c s Hin Hc. unfold loc in Hin; cbn [columns] in Hin.
    apply in_map_iff in Hin. destruct Hin as ([c0 s0] & Heq & Hin).
    simpl in Heq. injection Heq as -> <-.
    destruct (Hser _ _ Hin Hc) as (w & ->). simpl. eauto.
Qed.

(** The window of a tidy table is a tidy table. *)
Lemma filter_period_TidyTable (df out : DataFrame) (period_key : string) :
  TidyTable df -> filter_period df period_key = Ok out -> TidyTable out.
Proof.
  intros Ht H. destruct (empty df) eqn:He.
  - unfold filter_period in H. rewrite He in H. now injection H as <-.
  - destruct (TidyTable_dates df Ht) as (v & Hd & _ & _).
    destruct (filter_period_run df period_key v (tidy_wf df Ht) Hd He)
      as (lo & hi & _ & _ & Hrun & _).
    rewrite Hrun in H. injection H as <-. now apply TidyTable_loc.
Qed.

(** C4: on a tidy table [filter_period] always returns.  An empty table is
    returned as it is.  Otherwise the result holds, in their order, exactly
    the rows whose date lies between a start and the greatest date of the
    table, both included; the start is that date less one month for [1M],
    less three months for [3M], less one year for [1Y], the first of January
    of its year for [YTD], and the least date of the table for any other
    key. *)
Theorem filter_period_window (df : DataFrame) (period_key : string) :
  TidyTable df ->
  (empty df = true -> filter_period df period_key = Ok df)
  /\ (empty df = false ->
      exists v lo hi out,
        getitem df "Date" = Ok (Datetime64 (map Some v))
        /\ is_max hi v
        /\ (period_key = "1M"%string -> lo = Calendar.sub_months hi 1)
        /\ (period_key = "3M"%string -> lo = Calendar.sub_months hi 3)
        /\ (period_key = "YTD"%string -> lo = Calendar.Timestamp (Calendar.year hi) 1 1)
        /\ (period_key = "1Y"%string -> lo = Calendar.sub_years hi 1)
        /\ (~ In period_key ["1M"; "3M"; "YTD"; "1Y"]%string -> is_min lo v)
        /\ filter_period df period_key = Ok out
        /\ labels out = labels df
        /\ rows out = filter (in_window lo hi) (rows df)).
Proof.
  intros Ht. split.
  - intros He. unfold filter_period. now rewrite He.
  - intros He. destruct (TidyTable_dates df Ht) as (v & Hd & _ & Hlen).
    destruct (filter_period_run df period_key v (tidy_wf df Ht) Hd He)
      as (lo & hi & Hmax & Hstart & Hrun & Hrows).
    assert (Hv : v <> []) by (intros ->; discriminate).
    destruct (maximum_spec v Hv) as (hi' & Hmax' & His).
    assert (Heq : hi' = hi) by congruence. subst hi'.
    exists v, lo, hi, (loc (between (Some lo) (Some hi) (map Some v)) df).
    unfold period_start in Hstart. rewrite stamps_map_Some in Hstart.
    split; [exact Hd|]. split; [exact His|].
    split; [intros ->; simpl in Hstart; congruence|].
    split; [intros ->; simpl in Hstart; congruence|].
    split; [intros ->; simpl in Hstart; congruence|].
    split; [intros ->; simpl in Hstart; congruence|].
    split; [|split; [exact Hrun|split; [apply labels_loc|exact Hrows]]].
    intros Hkey. destruct (minimum_spec v Hv) as (mn & Hmin & Hismin).
    destruct (String.eqb_spec period_key "1M"); [exfalso; apply Hkey; simpl; auto|].
    destruct (String.eqb_spec period_key "3M"); [exfalso; apply Hkey; simpl; auto|].
    destruct (String.eqb_spec period_key "YTD"); [exfalso; apply Hkey; simpl; auto|].
    destruct (String.eqb_spec period_key "1Y"); [exfalso; apply Hkey; simpl; auto|].
    rewrite Hmin in Hstart. injection Hstart as <-. exact Hismin.
Qed.

(* ================================================================== *)
(** ** Floats *)

Lemma is_nan_Prim2SF (x : float) :
  PrimFloat.is_nan x = true <-> Prim2SF x = S754_nan.
Proof.
  split.
  - intros H. unfold Prim2SF. now rewrite H.
  - intros H. unfold PrimFloat.is_nan. rewrite FloatAxioms.eqb_spec, H. reflexivity.
Qed.

Lemma is_infinity_Prim2SF (x : float) (s : bool) :
  Prim2SF x = S754_infinity s -> PrimFloat.is_infinity x = true.
Proof.
  intros H. unfold PrimFloat.is_infinity.
  rewrite FloatAxioms.eqb_spec, abs_spec, H. reflexivity.
Qed.

Lemma eqb_zero_Prim2SF (b : float) :
  (b =? 0)%float = true -> exists s, Prim2SF b = S754_zero s.
Proof.
  rewrite FloatAxioms.eqb_spec.
  change (Prim2SF 0%float) with (S754_zero false).
  destruct (Prim2SF b) as [s| [|] | |[|] m e]; simpl; try discriminate; eauto.
Qed.

(** A null stays a null through [(x / b - 1.0) * 100.0]. *)
Lemma rebase_nan (x b : float) :
  PrimFloat.is_nan x = true -> PrimFloat.is_nan ((x / b - 1.0) * 100.0)%float = true.
Proof.
  intros H. apply is_nan_Prim2SF in H. apply is_nan_Prim2SF.
  rewrite mul_spec, sub_spec, div_spec, H. reflexivity.
Qed.

(** Divided by a zero, every cell ends as an infinity or NaN. *)
Lemma rebase_by_zero (x b : float) :
  (b =? 0)%float = true -> inf_or_nan ((x / b - 1.0) * 100.0)%float = true.
Proof.
  intros H. destruct (eqb_zero_Prim2SF b H) as (s & Hb).
  unfold inf_or_nan. apply orb_true_iff.
  assert (Hy : Prim2SF ((x / b - 1.0) * 100.0)%float = S754_nan
               \/ exists s', Prim2SF ((x / b - 1.0) * 100.0)%float = S754_infinity s').
  { rewrite mul_spec, sub_spec, div_spec, Hb.
    change (Prim2SF 1.0%float) with (S754_finite false 4503599627370496 (-52)).
    change (Prim2SF 100.0%float) with (S754_finite false 7036874417766400 (-46)).
    destruct (Prim2SF x) as [sx|sx| |sx m e]; simpl; eauto. }
  destruct Hy as [Hy|(s' & Hy)].
  - left. now apply is_nan_Prim2SF.
  - right. now apply (is_infinity_Prim2SF _ s').
Qed.

Lemma eqb_zero_not_nan (b : float) :
  (b =? 0)%float = true -> PrimFloat.is_nan b = false.
Proof.
  intros H. destruct (eqb_zero_Prim2SF b H) as (s & Hb).
  unfold PrimFloat.is_nan. rewrite FloatAxioms.eqb_spec, Hb. reflexivity.
Qed.

(* ================================================================== *)
(** ** The Rebaser *)

Lemma getitem_setitem_same (df : DataFrame) (c : string) (s : Series) :
  NoDup (labels df) -> getitem (setitem df c s) c = Ok s.
Proof.
  intros Hnd. destruct (in_dec string_dec c (labels df)) as [Hin|Hout].
  - unfold labels in Hin. apply in_map_iff in Hin. destruct Hin as ([c0 s0] & Hc & Hin).
    simpl in Hc; subst c0.
    pose proof (getitem_NoDup df c s0 Hnd Hin) as Hg. apply getitem_Ok in Hg.
    destruct Hg as (pre & post & Hcols & Hpre & Hpost).
    destruct df as [idx cols]; simpl in *. subst cols.
    rewrite setitem_replace by assumption. apply getitem_Ok.
    exists pre, post. cbn [columns]. auto.
  - rewrite setitem_append by exact Hout. apply getitem_Ok.
    exists (columns df), []. cbn [columns]. simpl. auto.
Qed.

Lemma filter_replace_other (c c' : string) (s : Series) (l : list (string * Series)) :
  c' <> c ->
  filter (fun p => String.eqb (fst p) c')
         (map (fun p => if String.eqb (fst p) c then (fst p, s) else p) l)
  = filter (fun p => String.eqb (fst p) c') l.
Proof.
  intros Hne. induction l as [|[c0 s0] l IH]; simpl; auto.
  destruct (String.eqb_spec c0 c) as [->|Hc0]; simpl.
  - destruct (String.eqb_spec c c'); [congruence|]. exact IH.
  - destruct (String.eqb c0 c'); now rewrite IH.
Qed.

Lemma getitem_setitem_other (df : DataFrame) (c c' : string) (s : Series) :
  c' <> c -> getitem (setitem df c s) c' = getitem df c'.
Proof.
  intros Hne. unfold setitem, getitem.
  destruct (existsb (String.eqb c) (labels df)); cbn [columns].
  - now rewrite filter_replace_other.
  - rewrite filter_app. simpl.
    destruct (String.eqb_spec c c'); [congruence|]. now rewrite app_nil_r.
Qed.

Lemma NoDup_setitem (df : DataFrame) (c : string) (s : Series) :
  NoDup (labels df) -> NoDup (labels (setitem df c s)).
Proof.
  intros Hnd. destruct (in_dec string_dec c (labels df)) as [Hin|Hout].
  - now rewrite labels_setitem.
  - rewrite setitem_append by exact Hout. unfold labels in *; cbn [columns].
    rewrite map_app. simpl. apply NoDup_app_remove_l with (l := []). simpl.
    apply Permutation_NoDup with (l := c :: map fst (columns df)).
    + apply Permutation_cons_append.
    + now constructor.
Qed.

Lemma values_dropna_float (v : list float) :
  values (dropna_series (Float64 v))
  = map SFloat (filter (fun x => negb (PrimFloat.is_nan x)) v).
Proof.
  unfold dropna_series, notna, isna. cbn [values select_series].
  rewrite !map_map. f_equal. apply select_filter.
Qed.

(** One turn of the loop on a float column. *)
Lemma normalize_step (df out : DataFrame) (c : string) (cols : list string)
      (v : list float) :
  getitem df c = Ok (Float64 v) -> len out = length v ->
  normalize_columns df (c :: cols) out
  = normalize_columns df cols (setitem out c (rebased v)).
Proof.
  intros Hg Hlen. cbn [normalize_columns]. rewrite Hg. cbn [bind].
  rewrite values_dropna_float. unfold rebased, first_valid.
  destruct (filter _ v) as [|b l]; simpl; [now rewrite Hlen|reflexivity].
Qed.

Lemma TidyTable_float (df : DataFrame) (c : string) :
  TidyTable df -> c <> "Date"%string -> In c (labels df) ->
  exists v, getitem df c = Ok (Float64 v) /\ length v = len df.
Proof.
  intros [Hwf Hnd _ Hser] Hc Hin. unfold labels in Hin.
  apply in_map_iff in Hin. destruct Hin as ([c0 s] & Heq & Hin). simpl in Heq; subst c0.
  destruct (Hser c s Hin Hc) as (v & ->). exists v.
  pose proof (getitem_NoDup df c _ Hnd Hin) as Hg. split; auto.
  pose proof (getitem_size df _ _ Hwf Hg) as Hs. unfold size in Hs. simpl in Hs.
  now rewrite length_map in Hs.
Qed.

(** The loop of lines 94-100 on a selection of float columns: it returns,
    and the result holds the rebased column under every selected header and
    what it held before under the others. *)
Lemma normalize_columns_spec (df : DataFrame) (cols : list string) :
  TidyTable df -> selectable df cols ->
  forall out, NoDup (labels out) -> len out = len df ->
  exists out',
    normalize_columns df cols out = Ok out'
    /\ index out' = index out
    /\ NoDup (labels out')
    /\ (forall c v, In c cols -> getitem df c = Ok (Float64 v) ->
                    getitem out' c = Ok (rebased v))
    /\ (forall c, ~ In c cols -> getitem out' c = getitem out c).
Proof.
  intros Ht. induction cols as [|c cols IH]; intros Hsel out Hnd Hlen.
  - exists out. simpl. repeat split; auto. intros c v [].
  - inversion Hsel as [|? ? [Hc Hin] Hsel']; subst.
    destruct (TidyTable_float df c Ht Hc Hin) as (v & Hg & Hv).
    rewrite (normalize_step df out c cols v Hg) by congruence.
    destruct (IH Hsel' (setitem out c (rebased v)))
      as (out' & Hrun & Hidx & Hnd' & Hsel_cols & Hother).
    + now apply NoDup_setitem.
    + unfold len. now rewrite index_setitem.
    + exists out'. split; [exact Hrun|]. split; [now rewrite Hidx, index_setitem|].
      split; [exact Hnd'|]. split.
      * intros c' v' Hin' Hg'. destruct (in_dec string_dec c' cols) as [Hcols|Hcols].
        -- now apply Hsel_cols.
        -- destruct Hin' as [->|Hin']; [|contradiction].
           rewrite Hother by exact Hcols. rewrite getitem_setitem_same by exact Hnd.
           congruence.
      * intros c' Hout. rewrite Hother by (intros Hx; apply Hout; simpl; auto).
        apply getitem_setitem_other. intros ->. apply Hout. simpl; auto.
Qed.

(** [normalize_from_first] on a tidy table and a selection of its series. *)
Lemma normalize_from_first_spec (df : DataFrame) (cols : list string) :
  TidyTable df -> selectable df cols ->
  exists out,
    normalize_from_first df cols = Ok out
    /\ index out = index df
    /\ getitem out "Date" = getitem df "Date"
    /\ (forall c v, In c cols -> getitem df c = Ok (Float64 v) ->
                    getitem out c = Ok (rebased v)).
Proof.
  intros Ht Hsel. destruct (TidyTable_dates df Ht) as (d & Hd & _ & _).
  unfold normalize_from_first. rewrite Hd. simpl.
  destruct (normalize_columns_spec df cols Ht Hsel
              (mkDataFrame (index df) [("Date"%string, Datetime64 (map Some d))]))
    as (out & Hrun & Hidx & _ & Hcols & Hother).
  - unfold labels; simpl. constructor; [simpl; tauto|constructor].
  - reflexivity.
  - exists out. repeat split; auto.
    rewrite Hother.
    + now apply getitem_Ok; exists [], [].
    + intros Hin. unfold selectable in Hsel. rewrite Forall_forall in Hsel.
      destruct (Hsel _ Hin) as [Hne _]. congruence.
Qed.

Lemma first_valid_none (v : list float) :
  Forall (fun x => PrimFloat.is_nan x = true) v -> first_valid v = None.
Proof.
  intros H. unfold first_valid. induction H as [|x v Hx _ IH]; simpl; auto.
  now rewrite Hx.
Qed.

Lemma first_valid_some (pre post : list float) (b : float) :
  Forall (fun x => PrimFloat.is_nan x = true) pre -> PrimFloat.is_nan b = false ->
  first_valid (pre ++ b :: post) = Some b.
Proof.
  intros H Hb. unfold first_valid. induction H as [|x v Hx _ IH]; simpl.
  - now rewrite Hb.
  - now rewrite Hx.
Qed.

(** C1, as the code has it: on a tidy table, or a window of one, and a
    selection of headers of the table other than [Date], [normalize_from_first]
    always returns, with one row per row of the input; a selected column whose
    cells are all null comes out as a column of nulls. *)
Theorem normalize_from_first_returns (df : DataFrame) (cols : list string) :
  TidyTable df -> selectable df cols ->
  exists out,
    normalize_from_first df cols = Ok out
    /\ index out = index df
    /\ (forall c v, In c cols -> getitem df c = Ok (Float64 v) ->
          Forall (fun x => PrimFloat.is_nan x = true) v ->
          exists s, getitem out c = Ok s
                    /\ size s = len df
                    /\ Forall (fun b => b = true) (isna s)).
Proof.
  intros Ht Hsel.
  destruct (normalize_from_first_spec df cols Ht Hsel) as (out & Hrun & Hidx & _ & Hcols).
  exists out. repeat split; auto.
  intros c v Hin Hg Hnull. exists (Object (repeat PyNA (length v))).
  rewrite (Hcols c v Hin Hg). unfold rebased. rewrite (first_valid_none v Hnull).
  pose proof (getitem_size df _ _ (tidy_wf df Ht) Hg) as Hs.
  unfold size in *. simpl in *. rewrite length_map in Hs.
  repeat split.
  - now rewrite length_map, repeat_length.
  - unfold isna. simpl. rewrite !Forall_map. apply Forall_forall.
    intros o Ho. apply repeat_spec in Ho. now subst o.
Qed.

(** C3, the rule: on a tidy table and a selection of its series, a selected
    column whose first cell that is not null is [b] comes out, row for row,
    as [(x / b - 1.0) * 100.0] in binary64 arithmetic; the rows stand in
    ascending order of date, so [b] is the first value of the window; a null
    comes out as a null; the result has the rows of the input. *)
Theorem normalize_from_first_rebases (df : DataFrame) (cols : list string)
        (c : string) (pre post : list float) (b : float) :
  TidyTable df -> selectable df cols -> In c cols ->
  getitem df c = Ok (Float64 (pre ++ b :: post)) ->
  Forall (fun x => PrimFloat.is_nan x = true) pre -> PrimFloat.is_nan b = false ->
  exists out,
    normalize_from_first df cols = Ok out
    /\ len out = len df
    /\ getitem out c
       = Ok (Float64 (map (fun x => (x / b - 1.0) * 100.0)%float (pre ++ b :: post)))
    /\ (forall x, PrimFloat.is_nan x = true ->
                  PrimFloat.is_nan ((x / b - 1.0) * 100.0)%float = true).
Proof.
  intros Ht Hsel Hin Hg Hpre Hb.
  destruct (normalize_from_first_spec df cols Ht Hsel) as (out & Hrun & Hidx & _ & Hcols).
  exists out. split; [exact Hrun|]. split; [unfold len; now rewrite Hidx|]. split.
  - rewrite (Hcols c _ Hin Hg). unfold rebased.
    now rewrite (first_valid_some pre post b Hpre Hb).
  - intros x Hx. now apply rebase_nan.
Qed.

(** C10: when the first cell that is not null of a selected column equals
    zero, [normalize_from_first] returns all the same, and every cell of the
    column it gives is an infinity or NaN. *)
Theorem normalize_from_first_zero_base (df : DataFrame) (cols : list string)
        (c : string) (pre post : list float) (b : float) :
  TidyTable df -> selectable df cols -> In c cols ->
  getitem df c = Ok (Float64 (pre ++ b :: post)) ->
  Forall (fun x => PrimFloat.is_nan x = true) pre -> (b =? 0)%float = true ->
  exists out w,
    normalize_from_first df cols = Ok out
    /\ getitem out c = Ok (Float64 w)
    /\ length w = len df
    /\ Forall (fun y => inf_or_nan y = true) w.
Proof.
  intros Ht Hsel Hin Hg Hpre Hb.
  destruct (normalize_from_first_spec df cols Ht Hsel) as (out & Hrun & Hidx & _ & Hcols).
  exists out, (map (fun x => (x / b - 1.0) * 100.0)%float (pre ++ b :: post)).
  split; [exact Hrun|]. split; [|split].
  - rewrite (Hcols c _ Hin Hg). unfold rebased.
    now rewrite (first_valid_some pre post b Hpre (eqb_zero_not_nan b Hb)).
  - pose proof (getitem_size df _ _ (tidy_wf df Ht) Hg) as Hs.
    unfold size in Hs. simpl in Hs. now rewrite length_map in *.
  - rewrite Forall_map. apply Forall_forall. intros x _. now apply rebase_by_zero.
Qed.

(* ================================================================== *)
(** ** The sort of the samples *)

Section Insertion.

Variable before : Z -> Z -> bool.
Hypothesis before_le : forall x y, before x y = true -> (x <= y)%Z.
Hypothesis before_ge : forall x y, before x y = false -> (y <= x)%Z.

Variable v : list Z.

Let key_le (i j : nat) : Prop := (nth i v 0 <= nth j v 0)%Z.

Lemma insert_pos_Permutation (i : nat) (l : list nat) :
  Permutation (Readers.insert_pos before v i l) (i :: l).
Proof.
  induction l as [|j l IH]; simpl; auto.
  destruct (before _ _); auto.
  rewrite IH. apply perm_swap.
Qed.

Lemma insert_pos_HdRel (i j : nat) (l : list nat) :
  HdRel key_le j l -> key_le j i -> HdRel key_le j (Readers.insert_pos before v i l).
Proof.
  intros Hl Hji. destruct l as [|k l]; simpl.
  - now constructor.
  - destruct (before _ _); constructor; auto. now inversion Hl.
Qed.

Lemma insert_pos_Sorted (i : nat) (l : list nat) :
  Sorted key_le l -> Sorted key_le (Readers.insert_pos before v i l).
Proof.
  induction l as [|j l IH]; simpl; intros Hs.
  - constructor; constructor.
  - destruct (before (nth i v 0%Z) (nth j v 0%Z)) eqn:Hb.
    + constructor; auto. constructor. now apply before_le.
    + inversion Hs as [|? ? Hs' Hhd]; subst. constructor; auto.
      apply insert_pos_HdRel; auto. now apply before_ge.
Qed.

Lemma insertion_argsort_sorts_list :
  Permutation (Readers.insertion_argsort before v) (seq 0 (length v))
  /\ Sorted Z.le (take_list 0%Z (Readers.insertion_argsort before v) v).
Proof.
  unfold Readers.insertion_argsort. split.
  - induction (seq 0 (length v)) as [|i l IH]; simpl; auto.
    rewrite insert_pos_Permutation. now constructor.
  - assert (H : Sorted key_le
                  (fold_right (Readers.insert_pos before v) [] (seq 0 (length v)))).
    { induction (seq 0 (length v)) as [|i l IH]; simpl; [constructor|].
      now apply insert_pos_Sorted. }
    revert H. generalize (fold_right (Readers.insert_pos before v) [] (seq 0 (length v))).
    intros l H. unfold take_list. induction H as [|i l Hs IH Hhd]; simpl; constructor; auto.
    destruct Hhd; simpl; constructor; auto.
Qed.

End Insertion.

Lemma stable_argsort_sorts : sorts Readers.stable_argsort.
Proof.
  intros v. apply insertion_argsort_sorts_list.
  - intros x y H. now apply Z.leb_le.
  - intros x y H. apply Z.leb_gt in H. lia.
Qed.

(** In the positions in their order, what stands in front is less. *)
Lemma precedes_seq (x y a n : nat) : precedes x y (seq a n) -> x < y.
Proof.
  intros (l1 & l2 & l3 & H). revert a n H.
  induction l1 as [|z l1 IH]; intros a [|n] H; simpl in H; try discriminate.
  - injection H as <- H.
    assert (Hy : In y (seq (S a) n)) by (rewrite H; apply in_or_app; simpl; auto).
    apply in_seq in Hy. lia.
  - injection H as _ H. now apply (IH (S a) n).
Qed.

(* ================================================================== *)
(** ** Frames as objects *)

Lemma deref_old (h extra : Obj.heap) (r : Obj.ref) :
  r < length h -> Obj.deref (h ++ extra) r = Obj.deref h r.
Proof. intros Hr. unfold Obj.deref. now apply app_nth1. Qed.

Lemma deref_last (h l : Obj.heap) (f : DataFrame) :
  Obj.deref (h ++ f :: l) (length h) = f.
Proof. unfold Obj.deref. rewrite app_nth2 by lia. now rewrite Nat.sub_diag. Qed.

Lemma update_last (h l : Obj.heap) (f f' : DataFrame) :
  Obj.update (length h) f' (h ++ f :: l) = h ++ f' :: l.
Proof. induction h as [|g h IH]; simpl; auto. now rewrite IH. Qed.

Ltac obj_unfold :=
  unfold Obj.tidy_df, Obj.filter_period, Obj.normalize_from_first,
    Obj.sort_values, Obj.dropna, Obj.date_frame, Obj.copy,
    Obj.getitem, Obj.setitem, Obj.get_columns, Obj.set_columns,
    Obj.new, Obj.read, Obj.write, Obj.lift, Obj.raise, Obj.ret, Obj.bind.

(** The end of a run that raises, with the objects it has made. *)
Ltac leaf extra :=
  let Hrun := fresh "Hrun" in
  intros Hrun; injection Hrun as <- <-;
  split;
  [ eexists; exists extra; split;
    [ rewrite <- ?app_assoc; reflexivity | simpl; auto ]
  | intros ? ?; discriminate ].

Section TidierObject.

Variable parse_float : string -> option float.
Variable parse_datetime : Series -> nat -> option Z.
Variable str_float : float -> string.
Variable str_time : option Z -> string.
Variable argsort : list Z -> list nat.

Local Abbreviation coerce := (coerce_numbers parse_float str_float str_time).
Local Abbreviation loop := (coerce_columns parse_float str_float str_time).

(** The loop of lines 69-71 on the copy, the last object of the heap. *)
Lemma for_each_coerce (h : Obj.heap) (cs : list string) (g : DataFrame) :
  exists g',
    Obj.for_each cs
      (fun c => if String.eqb c "Date" then Obj.ret tt
                else Obj.bind (Obj.getitem (length h) c)
                       (fun s => Obj.setitem (length h) c (coerce s)))
      (h ++ [g])
    = (match loop cs g with Ok _ => Ok tt | Err e => Err e end, h ++ [g'])
    /\ (forall out, loop cs g = Ok out -> g' = out).
Proof.
  revert g; induction cs as [|c cs IH]; intros g.
  - exists g. simpl. split; auto. intros out H; simpl in H; congruence.
  - cbn [Obj.for_each coerce_columns]. unfold Obj.bind at 1.
    destruct (String.eqb c "Date").
    + unfold Obj.ret at 1. apply IH.
    + obj_unfold. rewrite deref_last.
      destruct (getitem g c) as [s|e]; simpl.
      * rewrite update_last. apply IH.
      * exists g. split; auto. discriminate.
Qed.

(** [tidy_df] on a reference: no object of the heap is changed, and a new
    object holds what [tidy_df] makes of the frame referred to. *)
Lemma tidy_df_object (h : Obj.heap) (r : Obj.ref) :
  r < length h ->
  run_of (Obj.tidy_df parse_float parse_datetime str_float str_time argsort r) h
         (tidy_df parse_float parse_datetime str_float str_time argsort (Obj.deref h r))
  /\ fresh (Obj.tidy_df parse_float parse_datetime str_float str_time argsort r) h.
Proof.
  intros Hr. unfold run_of, fresh.
  destruct (Obj.tidy_df parse_float parse_datetime str_float str_time argsort r h)
    as [res h'] eqn:Hrun.
  cbn [fst]. revert Hrun. unfold tidy_df, tidy_cells.
  set (f := Obj.deref h r).
  unfold Obj.tidy_df. unfold Obj.copy, Obj.get_columns, Obj.set_columns.
  unfold Obj.bind at 1 2 3 4 5 6 7. unfold Obj.read at 1. unfold Obj.new at 1.
  fold f. unfold Obj.read at 1. unfold Obj.ret at 1.
  rewrite deref_last. unfold Obj.read at 1. unfold Obj.write at 1.
  rewrite deref_last, update_last.
  unfold Obj.bind at 1. unfold Obj.read at 1. unfold Obj.ret at 1. rewrite deref_last.
  set (f1 := set_columns f (map Str.strip (labels f))).
  destruct (existsb (String.eqb "Date") (labels f1)); cbn [negb].
  2:{ unfold Obj.raise. leaf [f1]. }
  unfold Obj.bind at 1. unfold Obj.getitem at 1. unfold Obj.bind at 1.
  unfold Obj.read at 1. unfold Obj.lift at 1. rewrite deref_last.
  destruct (getitem f1 "Date") as [d|e]; cbn [bind].
  2:{ leaf [f1]. }
  unfold Obj.bind at 1. unfold Obj.setitem at 1. unfold Obj.bind at 1.
  unfold Obj.read at 1. unfold Obj.write at 1. rewrite deref_last, update_last.
  set (f2 := setitem f1 "Date" (Datetime64 (to_datetime parse_datetime d))).
  unfold Obj.bind at 1. unfold Obj.bind at 1.
  unfold Obj.read at 1. unfold Obj.ret at 1. rewrite deref_last.
  unfold Obj.bind at 1.
  destruct (for_each_coerce h (labels f2) f2) as (g' & Hloop & Hg').
  rewrite Hloop.
  destruct (loop (labels f2) f2) as [cells|e]; cbn [bind].
  2:{ leaf [g']. }
  rewrite (Hg' cells eq_refl).
  unfold Obj.bind at 1. unfold Obj.dropna at 1. unfold Obj.bind at 1 2.
  unfold Obj.read at 1. unfold Obj.lift at 1. rewrite deref_last.
  destruct (dropna cells "Date") as [d2|e]; cbn [bind].
  2:{ leaf [cells]. }
  unfold Obj.new at 1. unfold Obj.sort_values. unfold Obj.bind at 1 2.
  unfold Obj.read at 1. unfold Obj.lift at 1. rewrite deref_last.
  destruct (sort_values argsort d2 "Date") as [out|e]; cbn [bind].
  2:{ leaf [cells; d2]. }
  unfold Obj.new. intros Hrun. injection Hrun as <- <-. split.
  - eexists. exists [cells; d2; out]. rewrite <- !app_assoc. split; [reflexivity|].
    cbn [app]. split; [rewrite !length_app; simpl; lia|].
    change (h ++ [cells; d2; out]) with (h ++ [cells; d2] ++ [out]).
    rewrite app_assoc. apply deref_last.
  - intros r' Hr'. injection Hr' as <-. rewrite !length_app. simpl. lia.
Qed.

End TidierObject.

(** [filter_period] on a reference: no object of the heap is changed; an
    empty frame is returned as the object it is, and otherwise a new object
    holds the window. *)
Lemma filter_period_object (h : Obj.heap) (r : Obj.ref) (period_key : string) :
  r < length h ->
  run_of (Obj.filter_period r period_key) h (filter_period (Obj.deref h r) period_key)
  /\ (empty (Obj.deref h r) = true -> Obj.filter_period r period_key h = (Ok r, h))
  /\ (empty (Obj.deref h r) = false -> fresh (Obj.filter_period r period_key) h).
Proof.
  intros Hr. unfold run_of, fresh.
  destruct (Obj.filter_period r period_key h) as [res h'] eqn:Hrun.
  cbn [fst]. revert Hrun. unfold filter_period, Obj.filter_period.
  unfold Obj.bind at 1. unfold Obj.read at 1.
  set (f := Obj.deref h r).
  destruct (empty f).
  - unfold Obj.ret. intros Hrun. injection Hrun as <- <-.
    split; [|split; [reflexivity|discriminate]].
    exists (Ok r), []. rewrite app_nil_r. auto.
  - unfold Obj.bind at 1. unfold Obj.getitem. unfold Obj.bind at 1.
    unfold Obj.read at 1. unfold Obj.lift at 1. fold f.
    destruct (getitem f "Date") as [d|e]; cbn [bind].
    2:{ intros Hrun. injection Hrun as <- <-.
        split; [|split; [discriminate|intros _ ? ?; discriminate]].
        eexists. exists []. rewrite app_nil_r. split; reflexivity. }
    unfold Obj.bind at 1. unfold Obj.lift at 1.
    destruct (datetimes d) as [v|e]; cbn [bind].
    2:{ intros Hrun. injection Hrun as <- <-.
        split; [|split; [discriminate|intros _ ? ?; discriminate]].
        eexists. exists []. rewrite app_nil_r. split; reflexivity. }
    unfold Obj.bind at 1. unfold Obj.lift at 1.
    destruct (period_start period_key (maximum (stamps v)) v) as [start|e]; cbn [bind].
    2:{ intros Hrun. injection Hrun as <- <-.
        split; [|split; [discriminate|intros _ ? ?; discriminate]].
        eexists. exists []. rewrite app_nil_r. split; reflexivity. }
    unfold Obj.bind at 1. unfold Obj.read at 1. unfold Obj.new. fold f.
    intros Hrun. injection Hrun as <- <-.
    split; [|split; [discriminate|]].
    + eexists. eexists. split; [reflexivity|]. cbv beta iota. rewrite deref_last.
      split; auto. rewrite length_app. simpl. lia.
    + intros _ r' Hr'. injection Hr' as <-. lia.
Qed.

(** The loop of lines 94-100 on [out], the last object of the heap. *)
Lemma for_each_normalize (h : Obj.heap) (r : Obj.ref) (cols : list string)
      (g : DataFrame) :
  r < length h ->
  exists g',
    Obj.for_each cols
      (fun c =>
         Obj.bind (Obj.getitem r c)
           (fun col =>
              match values (dropna_series col) with
              | [] => Obj.bind (Obj.read (length h))
                        (fun o => Obj.setitem (length h) c (Object (repeat PyNA (len o))))
              | base :: _ => Obj.bind (Obj.lift (pct_from col base))
                               (fun s => Obj.setitem (length h) c s)
              end))
      (h ++ [g])
    = (match normalize_columns (Obj.deref h r) cols g with
       | Ok _ => Ok tt
       | Err e => Err e
       end, h ++ [g'])
    /\ (forall out, normalize_columns (Obj.deref h r) cols g = Ok out -> g' = out).
Proof.
  intros Hr. revert g; induction cols as [|c cols IH]; intros g.
  - exists g. simpl. split; auto. intros out H; simpl in H; congruence.
  - cbn [Obj.for_each normalize_columns]. unfold Obj.bind at 1.
    unfold Obj.bind at 1. unfold Obj.getitem at 1. unfold Obj.bind at 1.
    unfold Obj.read at 1. unfold Obj.lift at 1.
    rewrite (deref_old h [g] r Hr).
    destruct (getitem (Obj.deref h r) c) as [col|e]; cbn [bind].
    2:{ exists g. split; auto. discriminate. }
    destruct (values (dropna_series col)) as [|base l].
    + unfold Obj.bind at 1. unfold Obj.read at 1. unfold Obj.setitem at 1.
      unfold Obj.bind at 1. unfold Obj.read at 1. unfold Obj.write at 1.
      rewrite !deref_last, update_last. apply IH.
    + unfold Obj.bind at 1. unfold Obj.lift at 1.
      destruct (pct_from col base) as [s|e]; cbn [bind].
      2:{ exists g. split; auto. discriminate. }
      unfold Obj.setitem at 1. unfold Obj.bind at 1. unfold Obj.read at 1.
      unfold Obj.write at 1. rewrite deref_last, update_last. apply IH.
Qed.

(** [normalize_from_first] on a reference: no object of the heap is changed,
    and a new object holds the rebased table. *)
Lemma normalize_from_first_object (h : Obj.heap) (r : Obj.ref) (cols : list string) :
  r < length h ->
  run_of (Obj.normalize_from_first r cols) h (normalize_from_first (Obj.deref h r) cols)
  /\ fresh (Obj.normalize_from_first r cols) h.
Proof.
  intros Hr. unfold run_of, fresh.
  destruct (Obj.normalize_from_first r cols h) as [res h'] eqn:Hrun.
  cbn [fst]. revert Hrun. unfold normalize_from_first, Obj.normalize_from_first.
  unfold Obj.bind at 1. unfold Obj.date_frame. unfold Obj.bind at 1.
  unfold Obj.read at 1. unfold Obj.bind at 1. unfold Obj.lift at 1.
  set (f := Obj.deref h r).
  destruct (getitem f "Date") as [d|e]; cbn [bind].
  2:{ intros Hrun. injection Hrun as <- <-. split; [|intros ? ?; discriminate].
      eexists. exists []. rewrite app_nil_r. split; reflexivity. }
  unfold Obj.new at 1. unfold Obj.bind at 1. unfold Obj.copy.
  unfold Obj.bind at 1. unfold Obj.read at 1. unfold Obj.new at 1.
  rewrite deref_last.
  set (o1 := mkDataFrame (index f) [("Date"%string, d)]).
  unfold Obj.bind at 1.
  assert (Hr1 : r < length (h ++ [o1])) by (rewrite length_app; simpl; lia).
  destruct (for_each_normalize (h ++ [o1]) r cols o1 Hr1) as (g' & Hloop & Hg').
  rewrite Hloop. rewrite (deref_old h [o1] r Hr) in *. fold f in Hg' |- *.
  destruct (normalize_columns f cols o1) as [out|e].
  - unfold Obj.ret. intros Hrun. injection Hrun as <- <-. split.
    + eexists. exists [o1; g']. rewrite <- app_assoc. split; [reflexivity|].
      cbn [app]. split; [rewrite !length_app; simpl; lia|].
      change (h ++ [o1; g']) with (h ++ [o1] ++ [g']). rewrite app_assoc.
      rewrite deref_last. now apply Hg'.
    + intros r' Hr'. injection Hr' as <-. rewrite length_app. simpl. lia.
  - intros Hrun. injection Hrun as <- <-. split; [|intros ? ?; discriminate].
    eexists. exists [o1; g']. rewrite <- app_assoc. split; reflexivity.
Qed.

Lemma run_of_frame (m : Obj.M Obj.ref) (h : Obj.heap) (p : result DataFrame) :
  run_of m h p ->
  forall r0, r0 < length h -> Obj.deref (snd (m h)) r0 = Obj.deref h r0.
Proof.
  intros (res & extra & Hrun & _) r0 Hr0. rewrite Hrun. simpl. now apply deref_old.
Qed.

Lemma run_of_outcome (m : Obj.M Obj.ref) (h : Obj.heap) (p : result DataFrame) :
  run_of m h p -> Obj.outcome m h = p.
Proof.
  intros (res & extra & Hrun & Hres). unfold Obj.outcome. rewrite Hrun.
  destruct res as [r'|e], p as [out|e']; try contradiction.
  - destruct Hres as [_ ->]. reflexivity.
  - now subst.
Qed.

(** Lines 171 and 175 on a reference. *)
Lemma filter_then_normalize_object (h : Obj.heap) (r : Obj.ref)
      (period_key : string) (cols : list string) :
  r < length h ->
  run_of (Obj.filter_then_normalize r period_key cols) h
         (dff <- filter_period (Obj.deref h r) period_key ;;
          normalize_from_first dff cols).
Proof.
  intros Hr. destruct (filter_period_object h r period_key Hr) as [Hf _].
  destruct Hf as (res1 & e1 & Hrun1 & Hres1).
  unfold run_of, Obj.filter_then_normalize, Obj.bind. rewrite Hrun1.
  destruct res1 as [r1|e], (filter_period (Obj.deref h r) period_key) as [dff|e'];
    try contradiction; cbn [bind].
  - destruct Hres1 as [Hr1 Hd1].
    destruct (normalize_from_first_object (h ++ e1) r1 cols Hr1) as [Hn _].
    destruct Hn as (res2 & e2 & Hrun2 & Hres2). rewrite Hd1 in Hres2.
    exists res2, (e1 ++ e2). rewrite app_assoc. split; [exact Hrun2|exact Hres2].
  - exists (Err e), e1. auto.
Qed.

(** C8, as the code has it: each of the three steps leaves every table that
    existed, the one it was given among them, as it was.  The Tidier and the
    Rebaser return a table made in the run, and so does the Period Filter on
    a table with rows; on an empty table the Period Filter returns the very
    table it was given, and makes none. *)
Theorem steps_keep_their_input
        (parse_float : string -> option float)
        (parse_datetime : Series -> nat -> option Z)
        (str_float : float -> string) (str_time : option Z -> string)
        (argsort : list Z -> list nat)
        (h : Obj.heap) (r : Obj.ref) (period_key : string) (cols : list string) :
  r < length h ->
  let tidy := Obj.tidy_df parse_float parse_datetime str_float str_time argsort r in
  let filter := Obj.filter_period r period_key in
  let normalize := Obj.normalize_from_first r cols in
  (forall m, In m [tidy; filter; normalize] ->
     forall r0, r0 < length h -> Obj.deref (snd (m h)) r0 = Obj.deref h r0)
  /\ fresh tidy h
  /\ fresh normalize h
  /\ (empty (Obj.deref h r) = false -> fresh filter h)
  /\ (empty (Obj.deref h r) = true -> filter h = (Ok r, h)).
Proof.
  intros Hr tidy filter normalize.
  destruct (tidy_df_object parse_float parse_datetime str_float str_time argsort h r Hr)
    as [Ht Htf].
  destruct (filter_period_object h r period_key Hr) as (Hf & Hfe & Hff).
  destruct (normalize_from_first_object h r cols Hr) as [Hn Hnf].
  repeat split; auto.
  intros m [<-|[<-|[<-|[]]]]; eapply run_of_frame; eauto.
Qed.

(** C9: the Period Filter followed by the Rebaser gives one result for one
    input: run from two heaps on references to equal tables, with the same
    period key and selection, the two runs return equal tables or raise the
    same error; and a second run after the first, on the same reference,
    returns what the first did. *)
Theorem filter_then_normalize_deterministic
        (h1 h2 : Obj.heap) (r1 r2 : Obj.ref) (period_key : string) (cols : list string) :
  r1 < length h1 -> r2 < length h2 -> Obj.deref h1 r1 = Obj.deref h2 r2 ->
  Obj.outcome (Obj.filter_then_normalize r1 period_key cols) h1
  = Obj.outcome (Obj.filter_then_normalize r2 period_key cols) h2
  /\ Obj.outcome (Obj.filter_then_normalize r1 period_key cols)
       (snd (Obj.filter_then_normalize r1 period_key cols h1))
     = Obj.outcome (Obj.filter_then_normalize r1 period_key cols) h1.
Proof.
  intros Hr1 Hr2 Heq.
  pose proof (filter_then_normalize_object h1 r1 period_key cols Hr1) as H1.
  pose proof (filter_then_normalize_object h2 r2 period_key cols Hr2) as H2.
  rewrite (run_of_outcome _ _ _ H1), (run_of_outcome _ _ _ H2). split.
  - now rewrite Heq.
  - destruct H1 as (res & extra & Hrun & _). rewrite Hrun. cbn [snd].
    assert (Hr : r1 < length (h1 ++ extra)) by (rewrite length_app; lia).
    rewrite (run_of_outcome _ _ _
               (filter_then_normalize_object (h1 ++ extra) r1 period_key cols Hr)).
    now rewrite (deref_old h1 extra r1 Hr1).
Qed.

(* ================================================================== *)
(** ** The functions run *)

Example strip_header : Str.strip "  Date  " = "Date"%string.
Proof. reflexivity. Qed.

Example replace_cell : Str.replace "," "." (Str.replace " " "" "1 234,56") = "1234.56"%string.
Proof. reflexivity. Qed.

Example parse_decimal_1234_56 : Readers.parse_decimal "1234.56" = Some 1234.56%float.
Proof. vm_compute. reflexivity. Qed.

(** One month before 31 March is the last day of February. *)
Example month_before_31_march :
  Calendar.sub_months (Calendar.Timestamp 2024 3 31) 1 = Calendar.Timestamp 2024 2 29
  /\ Calendar.sub_months (Calendar.Timestamp 2023 3 31) 1 = Calendar.Timestamp 2023 2 28
  /\ Calendar.sub_months (Calendar.Timestamp 2024 1 31) 1 = Calendar.Timestamp 2023 12 31
  /\ Calendar.sub_months (Calendar.Timestamp 2024 2 15) 3 = Calendar.Timestamp 2023 11 15.
Proof. vm_compute. auto. Qed.

Example year_before_29_february :
  Calendar.sub_years (Calendar.Timestamp 2024 2 29) 1 = Calendar.Timestamp 2023 2 28
  /\ Calendar.year (Calendar.Timestamp 2024 6 15) = 2024%Z
  /\ Calendar.date_of (Calendar.Timestamp 1969 12 31) = (1969, 12, 31)%Z.
Proof. vm_compute. auto. Qed.

Example tidy_sheet : Sample.tidy Readers.stable_argsort Sample.sheet = Ok Sample.sheet_tidy.
Proof. vm_compute. reflexivity. Qed.

Example tidy_sheet_undated :
  Sample.tidy Readers.stable_argsort Sample.sheet_undated = Err SchemaError.
Proof. vm_compute. reflexivity. Qed.

Example window_of_prices :
  filter_period Sample.prices "1M" = Ok Sample.prices
  /\ filter_period Sample.no_rows "1M" = Ok Sample.no_rows.
Proof. vm_compute. auto. Qed.

Lemma wf_sheet : wf Sample.sheet.
Proof. repeat constructor. Qed.

Lemma wf_ties : wf Sample.ties.
Proof. repeat constructor. Qed.

Lemma prices_tidy : TidyTable Sample.prices.
Proof.
  constructor.
  - repeat constructor.
  - unfold labels; simpl. repeat constructor; simpl; intuition discriminate.
  - exists [Sample.jan 1; Sample.jan 2; Sample.jan 3]. split; [reflexivity|].
    repeat constructor; vm_compute; discriminate.
  - intros c s Hin Hc. simpl in Hin.
    destruct Hin as [H|[H|[H|[H|[]]]]]; injection H as <- <-; eauto; congruence.
Qed.

Lemma no_rows_tidy : TidyTable Sample.no_rows.
Proof.
  constructor.
  - repeat constructor.
  - unfold labels; simpl. repeat constructor; simpl; intuition.
  - exists []. split; [reflexivity|constructor].
  - intros c s Hin Hc. simpl in Hin. destruct Hin as [H|[]]. injection H as <- <-.
    congruence.
Qed.

Lemma prices_selectable : selectable Sample.prices ["A"; "B"; "Z"]%string.
Proof.
  unfold selectable.
  repeat (apply Forall_cons; [split; [discriminate|simpl; auto 10]|]). constructor.
Qed.

(* ================================================================== *)
(** ** The properties at work on the sample tables *)

Lemma normalize_from_first_returns_witness :
  TidyTable Sample.prices
  /\ selectable Sample.prices ["A"; "B"; "Z"]%string
  /\ exists out,
       normalize_from_first Sample.prices ["A"; "B"; "Z"]%string = Ok out
       /\ index out = index Sample.prices
       /\ (forall c v, In c ["A"; "B"; "Z"]%string ->
             getitem Sample.prices c = Ok (Float64 v) ->
             Forall (fun x => PrimFloat.is_nan x = true) v ->
             exists s, getitem out c = Ok s
                       /\ size s = len Sample.prices
                       /\ Forall (fun b => b = true) (isna s)).
Proof.
  split; [exact prices_tidy|]. split; [exact prices_selectable|].
  exact (normalize_from_first_returns Sample.prices _ prices_tidy prices_selectable).
Defined.

(** C1 fails on a header the table does not have: [df[c]] raises. *)
Lemma normalize_from_first_absent_column :
  TidyTable Sample.prices
  /\ normalize_from_first Sample.prices ["X"]%string = Err (KeyError "X").
Proof. split; [exact prices_tidy|reflexivity]. Qed.

Lemma tidy_df_ascending_witness :
  sorts Readers.stable_argsort
  /\ wf Sample.sheet
  /\ Sample.tidy Readers.stable_argsort Sample.sheet = Ok Sample.sheet_tidy
  /\ Sorted date_le (rows Sample.sheet_tidy)
  /\ Permutation (rows Sample.sheet_tidy)
       (filter has_date
          (rows (mkDataFrame (index Sample.sheet)
                   (map (read_column Readers.parse_decimal Readers.dates_dmy
                           Sample.blank Sample.blank)
                        (columns Sample.sheet))))).
Proof.
  split; [exact stable_argsort_sorts|]. split; [exact wf_sheet|].
  split; [vm_compute; reflexivity|].
  apply (tidy_df_ascending Readers.parse_decimal Readers.dates_dmy Sample.blank Sample.blank
           Readers.stable_argsort stable_argsort_sorts Sample.sheet Sample.sheet_tidy
           wf_sheet).
  vm_compute. reflexivity.
Defined.

(** C2 fails on eighteen rows of one date.  numpy cuts the positions 0 to
    17 round their median: nothing is less than anything, so the pivot of
    place 8 is parked at 16, the two pointers swap the places 1 and 15, 2 and
    14, and so on until they meet at 8, and the pivot comes back.  The two
    parts are sorted by insertion, which moves nothing.  The row labelled 15
    stands in front of the row labelled 14, and both in front of row 1. *)
Lemma tidy_df_turns_ties_round :
  wf Sample.one_date
  /\ Numpy.partition (repeat (Sample.jan 1) 18) (seq 0 18) 0 17
     = Some ([0; 15; 14; 13; 12; 11; 10; 9; 8; 7; 6; 5; 4; 3; 2; 1; 16; 17], 8)
  /\ Numpy.aquicksort_ (repeat (Sample.jan 1) 18) (seq 0 18) 18
     = Some [0; 15; 14; 13; 12; 11; 10; 9; 8; 7; 6; 5; 4; 3; 2; 1; 16; 17]
  /\ Sample.tidy Numpy.argsort Sample.one_date = Ok Sample.one_date_tidy
  /\ ~ stable_by_date Sample.one_date Sample.one_date_tidy.
Proof.
  split; [repeat constructor|]. split; [vm_compute; reflexivity|].
  split; [vm_compute; reflexivity|]. split; [vm_compute; reflexivity|].
  intros H.
  assert (Hp : precedes 15 14 (index Sample.one_date)).
  { apply (H (row_at Sample.one_date_tidy 1) (row_at Sample.one_date_tidy 2)).
    - exists [row_at Sample.one_date_tidy 0], [],
        (map (row_at Sample.one_date_tidy) (seq 3 15)). reflexivity.
    - reflexivity. }
  apply (precedes_seq 15 14 0 18) in Hp. lia.
Qed.

Lemma normalize_from_first_rebases_witness :
  TidyTable Sample.prices
  /\ selectable Sample.prices ["A"; "B"; "Z"]%string
  /\ In "A"%string ["A"; "B"; "Z"]%string
  /\ getitem Sample.prices "A" = Ok (Float64 ([] ++ 100%float :: [110; 90]%float))
  /\ Forall (fun x => PrimFloat.is_nan x = true) []
  /\ PrimFloat.is_nan 100 = false
  /\ exists out,
       normalize_from_first Sample.prices ["A"; "B"; "Z"]%string = Ok out
       /\ len out = len Sample.prices
       /\ getitem out "A"
          = Ok (Float64 (map (fun x => (x / 100 - 1.0) * 100.0)%float
                             ([] ++ 100%float :: [110; 90]%float)))
       /\ (forall x, PrimFloat.is_nan x = true ->
                     PrimFloat.is_nan ((x / 100 - 1.0) * 100.0)%float = true).
Proof.
  split; [exact prices_tidy|]. split; [exact prices_selectable|].
  split; [simpl; auto|]. split; [reflexivity|]. split; [constructor|].
  split; [reflexivity|].
  apply (normalize_from_first_rebases Sample.prices ["A"; "B"; "Z"]%string "A"
           [] [110; 90]%float 100%float prices_tidy prices_selectable).
  - simpl; auto.
  - reflexivity.
  - constructor.
  - reflexivity.
Defined.

(** C3 fails on its example: in binary64, [110/100 - 1] and [90/100 - 1] are
    not a tenth and its opposite, and the column [100, 110, 90] comes out as
    [0, 10.000000000000009, -9.999999999999998]. *)
Lemma rebase_100_110_90 :
  (out <- normalize_from_first Sample.prices ["A"]%string ;; getitem out "A")
  = Ok (Float64 [0; 0x1.4000000000005p+3; -0x1.3ffffffffffffp+3]%float)
  /\ (0x1.4000000000005p+3 =? 10.0)%float = false
  /\ (-0x1.3ffffffffffffp+3 =? -10.0)%float = false.
Proof. vm_compute. auto. Qed.

Lemma filter_period_window_witness :
  TidyTable Sample.prices
  /\ (empty Sample.prices = true -> filter_period Sample.prices "YTD" = Ok Sample.prices)
  /\ (empty Sample.prices = false ->
      exists v lo hi out,
        getitem Sample.prices "Date" = Ok (Datetime64 (map Some v))
        /\ is_max hi v
        /\ ("YTD" = "1M" -> lo = Calendar.sub_months hi 1)%string
        /\ ("YTD" = "3M" -> lo = Calendar.sub_months hi 3)%string
        /\ ("YTD" = "YTD" -> lo = Calendar.Timestamp (Calendar.year hi) 1 1)%string
        /\ ("YTD" = "1Y" -> lo = Calendar.sub_years hi 1)%string
        /\ (~ In "YTD" ["1M"; "3M"; "YTD"; "1Y"] -> is_min lo v)%string
        /\ filter_period Sample.prices "YTD" = Ok out
        /\ labels out = labels Sample.prices
        /\ rows out = filter (in_window lo hi) (rows Sample.prices)).
Proof.
  split; [exact prices_tidy|].
  exact (filter_period_window Sample.prices "YTD" prices_tidy).
Defined.

Lemma coerce_numbers_cleans_witness :
  Readers.parse_decimal "1234.56" = Some 1234.56%float
  /\ (forall s,
        coerce_numbers Readers.parse_decimal Sample.blank Sample.blank s =
        Float64 (map (fun t => match Readers.parse_decimal (cleaned t) with
                               | Some x => x
                               | None => nan
                               end)
                     (astype_str Sample.blank Sample.blank s)))
  /\ (forall t, ~ In " "%char (list_ascii_of_string (cleaned t))
                /\ ~ In ","%char (list_ascii_of_string (cleaned t)))
  /\ coerce_numbers Readers.parse_decimal Sample.blank Sample.blank
       (Object [PyStr "1 234,56"])
     = Float64 [1234.56%float].
Proof.
  split; [vm_compute; reflexivity|].
  apply (coerce_numbers_cleans Readers.parse_decimal Sample.blank Sample.blank).
  vm_compute. reflexivity.
Defined.

Lemma normalize_from_first_zero_base_witness :
  TidyTable Sample.prices
  /\ selectable Sample.prices ["A"; "B"; "Z"]%string
  /\ In "Z"%string ["A"; "B"; "Z"]%string
  /\ getitem Sample.prices "Z" = Ok (Float64 ([nan] ++ 0%float :: [5%float]))
  /\ Forall (fun x => PrimFloat.is_nan x = true) [nan]
  /\ (0 =? 0)%float = true
  /\ exists out w,
       normalize_from_first Sample.prices ["A"; "B"; "Z"]%string = Ok out
       /\ getitem out "Z" = Ok (Float64 w)
       /\ length w = len Sample.prices
       /\ Forall (fun y => inf_or_nan y = true) w.
Proof.
  split; [exact prices_tidy|]. split; [exact prices_selectable|].
  split; [simpl; auto|]. split; [reflexivity|].
  split; [repeat constructor|]. split; [reflexivity|].
  apply (normalize_from_first_zero_base Sample.prices ["A"; "B"; "Z"]%string "Z"
           [nan] [5%float] 0%float prices_tidy prices_selectable).
  - simpl; auto.
  - reflexivity.
  - repeat constructor.
  - reflexivity.
Defined.

Example zero_base_column :
  (out <- normalize_from_first Sample.prices ["Z"]%string ;; getitem out "Z")
  = Ok (Float64 [nan; nan; infinity]).
Proof. vm_compute. reflexivity. Qed.

Lemma tidy_df_rows_witness :
  sorts Readers.stable_argsort
  /\ wf Sample.sheet
  /\ (let cells :=
        mkDataFrame (index Sample.sheet)
          (map (read_column Readers.parse_decimal Readers.dates_dmy Sample.blank Sample.blank)
               (columns Sample.sheet)) in
      (In "Date"%string (map Str.strip (labels Sample.sheet)) ->
       NoDup (map Str.strip (labels Sample.sheet)) ->
       exists out, Sample.tidy Readers.stable_argsort Sample.sheet = Ok out)
      /\ (forall e, Sample.tidy Readers.stable_argsort Sample.sheet = Err e ->
                    e = SchemaError \/ exists c, e = DuplicateLabel c)
      /\ (forall out, Sample.tidy Readers.stable_argsort Sample.sheet = Ok out ->
          forall i, i < len Sample.sheet ->
            (forall c d, In (c, d) (columns Sample.sheet) -> Str.strip c = "Date"%string ->
               match Readers.dates_dmy d i with
               | None => ~ In (row_at cells i) (rows out)
               | Some t => In (row_at cells i) (rows out) /\ date (row_at cells i) = Some t
               end)
            /\ (forall c s, In (c, s) (columns Sample.sheet) ->
                  Str.strip c <> "Date"%string ->
                  cell (row_at cells i) (Str.strip c) =
                  Some (SFloat
                          match Readers.parse_decimal
                                  (Str.replace "," "."
                                     (Str.replace " " ""
                                        (nth i (astype_str Sample.blank Sample.blank s)
                                             ""%string)))
                          with
                          | Some x => x
                          | None => nan
                          end)))).
Proof.
  split; [exact stable_argsort_sorts|]. split; [exact wf_sheet|].
  exact (tidy_df_rows Readers.parse_decimal Readers.dates_dmy Sample.blank Sample.blank
           Readers.stable_argsort stable_argsort_sorts Sample.sheet wf_sheet).
Defined.

(** The second row of the sheet has no date and is gone; the third has no
    number and is there, with NaN. *)
Example rows_of_tidy_sheet :
  (out <- Sample.tidy Readers.stable_argsort Sample.sheet ;; Ok (rows out))
  = Ok [(2, [("Date"%string, STime (Some (Sample.jan 1))); ("Fond A"%string, SFloat nan)]);
        (0, [("Date"%string, STime (Some (Sample.jan 2)));
             ("Fond A"%string, SFloat 1234.56%float)]);
        (3, [("Date"%string, STime (Some (Sample.jan 2))); ("Fond A"%string, SFloat nan)])].
Proof. vm_compute. reflexivity. Qed.

Lemma steps_keep_their_input_witness :
  0 < length [Sample.prices]
  /\ (let tidy := Obj.tidy_df Readers.parse_decimal Readers.dates_dmy Sample.blank
                    Sample.blank Readers.stable_argsort 0 in
      let filter := Obj.filter_period 0 "YTD" in
      let normalize := Obj.normalize_from_first 0 ["A"]%string in
      (forall m, In m [tidy; filter; normalize] ->
         forall r0, r0 < length [Sample.prices] ->
                    Obj.deref (snd (m [Sample.prices])) r0 = Obj.deref [Sample.prices] r0)
      /\ fresh tidy [Sample.prices]
      /\ fresh normalize [Sample.prices]
      /\ (empty (Obj.deref [Sample.prices] 0) = false -> fresh filter [Sample.prices])
      /\ (empty (Obj.deref [Sample.prices] 0) = true ->
          filter [Sample.prices] = (Ok 0, [Sample.prices]))).
Proof.
  split; [simpl; lia|].
  apply (steps_keep_their_input Readers.parse_decimal Readers.dates_dmy Sample.blank
           Sample.blank Readers.stable_argsort [Sample.prices] 0 "YTD" ["A"]%string).
  simpl; lia.
Defined.

(** C8 fails for the Period Filter on an empty table: what it returns is the
    table it was given, and the heap holds no other. *)
Lemma filter_period_returns_its_input :
  TidyTable Sample.no_rows
  /\ Obj.filter_period 0 "MAX" [Sample.no_rows] = (Ok 0, [Sample.no_rows])
  /\ ~ fresh (Obj.filter_period 0 "MAX") [Sample.no_rows].
Proof.
  split; [exact no_rows_tidy|]. split; [reflexivity|].
  intros H. specialize (H 0 eq_refl). simpl in H. lia.
Qed.

Lemma filter_then_normalize_deterministic_witness :
  0 < length [Sample.prices]
  /\ 1 < length [Sample.no_rows; Sample.prices]
  /\ Obj.deref [Sample.prices] 0 = Obj.deref [Sample.no_rows; Sample.prices] 1
  /\ Obj.outcome (Obj.filter_then_normalize 0 "YTD" ["A"]%string) [Sample.prices]
     = Obj.outcome (Obj.filter_then_normalize 1 "YTD" ["A"]%string)
         [Sample.no_rows; Sample.prices]
  /\ Obj.outcome (Obj.filter_then_normalize 0 "YTD" ["A"]%string)
       (snd (Obj.filter_then_normalize 0 "YTD" ["A"]%string [Sample.prices]))
     = Obj.outcome (Obj.filter_then_normalize 0 "YTD" ["A"]%string) [Sample.prices].
Proof.
  split; [simpl; lia|]. split; [simpl; lia|]. split; [reflexivity|].
  apply (filter_then_normalize_deterministic [Sample.prices] [Sample.no_rows; Sample.prices]
           0 1 "YTD" ["A"]%string).
  - simpl; lia.
  - simpl; lia.
  - reflexivity.
Defined.

(** Every day from 1677 to 2262, the years a Timestamp of pandas can hold, is
    the day of its own year, month and day. *)
Example calendar_round_trips :
  Calendar.round_trips (Calendar.days_from_civil 1677 1 1) 214000 = true
  /\ Calendar.date_of (Calendar.Timestamp 1677 1 1) = (1677, 1, 1)%Z
  /\ Calendar.year (Calendar.days_from_civil 1677 1 1 * Calendar.ns_per_day
                    + 214000 * Calendar.ns_per_day) = 2262%Z.
Proof. vm_compute. auto. Qed.

(** The windows of [history], by the labels of their rows: both ends count. *)
Example windows_of_history :
  (out <- filter_period Sample.history "1M" ;; Ok (index out)) = Ok [4; 5]
  /\ (out <- filter_period Sample.history "3M" ;; Ok (index out)) = Ok [3; 4; 5]
  /\ (out <- filter_period Sample.history "YTD" ;; Ok (index out)) = Ok [2; 3; 4; 5]
  /\ (out <- filter_period Sample.history "1Y" ;; Ok (index out)) = Ok [0; 1; 2; 3; 4; 5]
  /\ (out <- filter_period Sample.history "MAX" ;; Ok (index out)) = Ok [0; 1; 2; 3; 4; 5]
  /\ (out <- filter_period Sample.history "5Y" ;; Ok (index out)) = Ok [0; 1; 2; 3; 4; 5].
Proof. vm_compute. repeat split. Qed.

(** [Date] itself cannot be rebased: a Timestamp is no divisor. *)
Example normalize_date_selected :
  normalize_from_first Sample.prices ["Date"]%string = Err TypeError.
Proof. reflexivity. Qed.

(** On the short samples the sort of numpy is an insertion sort, and gives
    what the stable sort gives. *)
Example tidy_short_samples :
  Sample.tidy Numpy.argsort Sample.sheet = Ok Sample.sheet_tidy
  /\ Sample.tidy Numpy.argsort Sample.ties = Ok Sample.ties_tidy
  /\ Sample.tidy Readers.stable_argsort Sample.ties = Ok Sample.ties_tidy.
Proof. repeat split; vm_compute; reflexivity. Qed.

(** The sort of numpy on forty keys in descending order, and on a hundred
    keys with ties, some of which it turns round. *)
Example argsort_of_forty :
  Numpy.argsort (map Z.of_nat (rev (seq 0 40))) = rev (seq 0 40).
Proof. vm_compute. reflexivity. Qed.

Example argsort_of_hundred :
  let v := map (fun k => Z.of_nat ((k * 29) mod 37)) (seq 0 100) in
  take_list 0%Z (Numpy.argsort v) v
  = take_list 0%Z (Readers.stable_argsort v) v
  /\ Numpy.argsort v <> Readers.stable_argsort v.
Proof. split; [vm_compute; reflexivity|vm_compute; discriminate]. Qed.

(** A part that has no depth left is sorted as a heap. *)
Example aheapsort_of_seven :
  option_map (fun tosort => take_list 0%Z tosort [5; 3; 9; 1; 7; 3; 8]%Z)
             (Numpy.parts [5; 3; 9; 1; 7; 3; 8]%Z 8 (seq 0 7) 0 6 (-1) [])
  = Some [1; 3; 3; 5; 7; 8; 9]%Z.
Proof. vm_compute. reflexivity. Qed.

(** A sort that keeps equal keys in order keeps the rows of one date in
    order: the rows 0 and 3 of the sheet. *)
Example tidy_sheet_keeps_order : stable_by_date Sample.sheet Sample.sheet_tidy.
Proof.
  intros r1 r2 (l1 & l2 & l3 & Heq) Hdate.
  change (rows Sample.sheet_tidy)
    with [row_at Sample.sheet_tidy 0; row_at Sample.sheet_tidy 1; row_at Sample.sheet_tidy 2]
    in Heq.
  destruct l1 as [|a1 [|a2 [|a3 l1]]]; simpl in Heq.
  - injection Heq as <- Heq.
    destruct l2 as [|b1 [|b2 l2]]; simpl in Heq.
    + injection Heq as <- _. discriminate.
    + injection Heq as _ <- _. discriminate.
    + injection Heq as _ _ Heq. destruct l2; discriminate.
  - injection Heq as _ <- Heq.
    destruct l2 as [|b1 l2]; simpl in Heq.
    + injection Heq as <- _. exists [], [1; 2], []. reflexivity.
    + injection Heq as _ Heq. destruct l2; discriminate.
  - injection Heq as _ _ _ Heq. destruct l2; discriminate.
  - injection Heq as _ _ _ Heq. destruct l1; discriminate.
Qed.

(* ================================================================== *)
(** * More of the code *)

(** ** The calendar *)

Section CalendarFacts.

Local Open Scope Z_scope.

(** Every day is the day of its own year, month and day, and these are a
    month and a day of the calendar. *)
Lemma civil_round_trip (z : Z) :
  let '(y, m, d) := Calendar.civil_from_days z in
  Calendar.days_from_civil y m d = z /\ 1 <= m <= 12 /\ 1 <= d <= 31.
Proof.
  unfold Calendar.civil_from_days, Calendar.days_from_civil.
  set (z' := z + 719468).
  set (era := z' / 146097).
  set (doe := z' - era * 146097).
  set (yoe := (doe - doe / 1460 + doe / 36524 - doe / 146096) / 365).
  set (doy := doe - (365 * yoe + yoe / 4 - yoe / 100)).
  set (mp := (5 * doy + 2) / 153).
  assert (Hdoe : 0 <= doe < 146097) by (unfold doe, era; Z.div_mod_to_equations; lia).
  assert (Hyoe : 0 <= yoe <= 399) by (unfold yoe; Z.div_mod_to_equations; lia).
  assert (Hdoy : 0 <= doy <= 365) by (unfold doy, yoe; Z.div_mod_to_equations; lia).
  assert (Hmp : 0 <= mp <= 11) by (unfold mp; Z.div_mod_to_equations; lia).
  assert (He : (yoe + era * 400) / 400 = era) by (Z.div_mod_to_equations; lia).
  destruct (mp <? 10) eqn:Hm10.
  - apply Z.ltb_lt in Hm10.
    replace (mp + 3 <=? 2) with false by (symmetry; apply Z.leb_gt; lia).
    replace (2 <? mp + 3) with true by (symmetry; apply Z.ltb_lt; lia).
    repeat split; try lia.
    + replace (mp + 3 - 3) with mp by lia.
      rewrite He. replace (yoe + era * 400 - era * 400) with yoe by lia.
      unfold doy, doe, z'. lia.
    + unfold mp. Z.div_mod_to_equations; lia.
    + unfold mp. Z.div_mod_to_equations; lia.
  - apply Z.ltb_ge in Hm10.
    replace (mp - 9 <=? 2) with true by (symmetry; apply Z.leb_le; lia).
    replace (2 <? mp - 9) with false by (symmetry; apply Z.ltb_ge; lia).
    repeat split; try lia.
    + replace (mp - 9 + 9) with mp by lia.
      replace (yoe + era * 400 + 1 - 1) with (yoe + era * 400) by lia.
      rewrite He. replace (yoe + era * 400 - era * 400) with yoe by lia.
      unfold doy, doe, z'. lia.
    + unfold mp. Z.div_mod_to_equations; lia.
    + unfold mp. Z.div_mod_to_equations; lia.
Qed.

(** The day of the month is one the month has. *)
Lemma civil_valid (z : Z) :
  let '(y, m, d) := Calendar.civil_from_days z in d <= Calendar.days_in_month y m.
Proof.
  unfold Calendar.civil_from_days.
  set (z' := z + 719468).
  set (era := z' / 146097).
  set (doe := z' - era * 146097).
  set (yoe := (doe - doe / 1460 + doe / 36524 - doe / 146096) / 365).
  set (doy := doe - (365 * yoe + yoe / 4 - yoe / 100)).
  set (mp := (5 * doy + 2) / 153).
  assert (Hdoe : 0 <= doe < 146097) by (unfold doe, era; Z.div_mod_to_equations; lia).
  assert (Hyoe : 0 <= yoe <= 399) by (unfold yoe; Z.div_mod_to_equations; lia).
  assert (Hdoy : 0 <= doy <= 365) by (unfold doy, yoe; Z.div_mod_to_equations; lia).
  assert (Hmp : 0 <= mp <= 11) by (unfold mp; Z.div_mod_to_equations; lia).
  assert (Hleap : doy = 365 -> (yoe + 1) mod 4 = 0 /\ ((yoe + 1) mod 100 <> 0 \/ yoe = 399)).
  { unfold doy, yoe. Z.div_mod_to_equations. lia. }
  assert (Hcase : mp = 0 \/ mp = 1 \/ mp = 2 \/ mp = 3 \/ mp = 4 \/ mp = 5 \/ mp = 6
                  \/ mp = 7 \/ mp = 8 \/ mp = 9 \/ mp = 10 \/ mp = 11) by lia.
  assert (Hd : doy - (153 * mp + 2) / 5 + 1 <= 31 /\
               (mp = 11 -> doy - (153 * mp + 2) / 5 + 1 <= 29
                           /\ (doy - (153 * mp + 2) / 5 + 1 = 29 -> doy = 365)) /\
               (mp = 1 \/ mp = 3 \/ mp = 6 \/ mp = 8 -> doy - (153 * mp + 2) / 5 + 1 <= 30)).
  { unfold mp. Z.div_mod_to_equations. lia. }
  unfold Calendar.days_in_month, Calendar.is_leap.
  destruct Hcase as [E|[E|[E|[E|[E|[E|[E|[E|[E|[E|[E|E]]]]]]]]]]]; rewrite E in *; simpl;
    try (Z.div_mod_to_equations; lia).
  destruct Hd as (_ & Hfeb & _). destruct (Hfeb eq_refl) as [H29 H365].
  set (y := yoe + era * 400 + 1).
  destruct (Z.eq_dec doy 365) as [He|Hne].
  - destruct (Hleap He) as [H4 H100].
    assert (Hy4 : y mod 4 = 0).
    { unfold y. replace (yoe + era * 400 + 1) with (yoe + 1 + (100 * era) * 4) by lia.
      now rewrite Z_mod_plus_full. }
    rewrite Hy4. simpl.
    destruct H100 as [H100|H399].
    + assert (Hy100 : y mod 100 <> 0).
      { unfold y. replace (yoe + era * 400 + 1) with (yoe + 1 + (4 * era) * 100) by lia.
        now rewrite Z_mod_plus_full. }
      apply Z.eqb_neq in Hy100. rewrite Hy100. simpl. Z.div_mod_to_equations; lia.
    + assert (Hy400 : y mod 400 = 0).
      { unfold y. rewrite H399.
        replace (399 + era * 400 + 1) with (0 + (era + 1) * 400) by lia.
        now rewrite Z_mod_plus_full. }
      rewrite Hy400. simpl. rewrite orb_true_r. Z.div_mod_to_equations; lia.
  - destruct (_ && _); Z.div_mod_to_equations; lia.
Qed.

Lemma days_from_civil_day (y m d : Z) :
  Calendar.days_from_civil y m d = Calendar.days_from_civil y m 1 + (d - 1).
Proof. unfold Calendar.days_from_civil. lia. Qed.

Lemma month_length_bounds (k : Z) : 28 <= month_length k <= 31.
Proof.
  unfold month_length, Calendar.days_in_month.
  repeat match goal with |- context [if ?b then _ else _] => destruct b end; lia.
Qed.

(** A month starts when the month before has run its days. *)
Lemma month_start_succ (k : Z) : month_start (k + 1) = month_start k + month_length k.
Proof.
  unfold month_start, month_length.
  assert (Hm : 0 <= k mod 12 < 12) by (apply Z.mod_pos_bound; lia).
  set (y := k / 12) in *. set (m0 := k mod 12) in *.
  assert (Hk : k = 12 * y + m0) by (unfold y, m0; apply Z.div_mod; lia).
  assert (Hcase : (m0 = 11 /\ (k + 1) / 12 = y + 1 /\ (k + 1) mod 12 = 0)
                  \/ (m0 < 11 /\ (k + 1) / 12 = y /\ (k + 1) mod 12 = m0 + 1)).
  { destruct (Z.eq_dec m0 11) as [H11|H11]; [left|right]; repeat split; try lia;
      Z.div_mod_to_equations; lia. }
  destruct Hcase as [(H11 & -> & ->)|(Hlt & -> & ->)].
  - rewrite H11. unfold Calendar.days_in_month, Calendar.days_from_civil. simpl.
    Z.div_mod_to_equations; lia.
  - assert (Hm0 : m0 = 0 \/ m0 = 1 \/ m0 = 2 \/ m0 = 3 \/ m0 = 4 \/ m0 = 5 \/ m0 = 6
                  \/ m0 = 7 \/ m0 = 8 \/ m0 = 9 \/ m0 = 10) by lia.
    unfold Calendar.days_in_month, Calendar.is_leap, Calendar.days_from_civil.
    destruct Hm0 as [->|[->|[->|[->|[->|[->|[->|[->|[->|[->| ->]]]]]]]]]]; simpl;
      repeat match goal with
             | |- context [(?a =? ?b)] => destruct (Z.eqb_spec a b)
             end; simpl; Z.div_mod_to_equations; lia.
Qed.

Lemma month_start_mono (a b : Z) : a <= b -> month_start a <= month_start b.
Proof.
  intros H. revert b H. apply Z.le_ind.
  - intros x y ->. reflexivity.
  - lia.
  - intros m _ IH. change (Z.succ m) with (m + 1). rewrite month_start_succ.
    pose proof (month_length_bounds m). lia.
Qed.

(** A day is its day of the month after the start of its month. *)
Lemma day_in_month (z : Z) :
  let '(y, m, d) := Calendar.civil_from_days z in
  z = month_start (month_of z) + (d - 1)
  /\ month_of z / 12 = y /\ month_of z mod 12 + 1 = m
  /\ 1 <= d <= month_length (month_of z).
Proof.
  pose proof (civil_round_trip z) as Hr. pose proof (civil_valid z) as Hv.
  unfold month_of, month_start, month_length.
  destruct (Calendar.civil_from_days z) as [[y m] d].
  destruct Hr as (Hz & Hm & Hd).
  assert (Hq : (y * 12 + (m - 1)) / 12 = y) by (Z.div_mod_to_equations; lia).
  assert (Hr : (y * 12 + (m - 1)) mod 12 + 1 = m) by (Z.div_mod_to_equations; lia).
  rewrite Hq, Hr. repeat split; try lia.
  rewrite <- days_from_civil_day. now symmetry.
Qed.

Lemma months_back_month (z n : Z) :
  let '(_, _, d) := Calendar.civil_from_days z in
  months_back z n
  = month_start (month_of z - n) + (Z.min d (month_length (month_of z - n)) - 1).
Proof.
  unfold months_back, month_of, month_start, month_length.
  destruct (Calendar.civil_from_days z) as [[y m] d].
  now rewrite days_from_civil_day.
Qed.

Lemma years_back_month (z : Z) :
  let '(_, _, d) := Calendar.civil_from_days z in
  years_back z 1
  = month_start (month_of z - 12) + (Z.min d (month_length (month_of z - 12)) - 1).
Proof.
  pose proof (civil_round_trip z) as Hr.
  unfold years_back, month_of, month_start, month_length.
  destruct (Calendar.civil_from_days z) as [[y m] d].
  destruct Hr as (_ & Hm & _).
  assert (Hq : (y * 12 + (m - 1) - 12) / 12 = y - 1) by (Z.div_mod_to_equations; lia).
  assert (Hr : (y * 12 + (m - 1) - 12) mod 12 + 1 = m) by (Z.div_mod_to_equations; lia).
  rewrite Hq, Hr. now rewrite days_from_civil_day.
Qed.

Lemma new_year_month (z : Z) :
  exists j, 0 <= j <= 11 /\ new_year z = month_start (month_of z - j).
Proof.
  pose proof (civil_round_trip z) as Hr.
  unfold new_year, month_of, month_start.
  destruct (Calendar.civil_from_days z) as [[y m] d]. simpl.
  destruct Hr as (_ & Hm & _). exists (m - 1). split; [lia|].
  replace (y * 12 + (m - 1) - (m - 1)) with (y * 12) by lia.
  assert (Hq : y * 12 / 12 = y) by (Z.div_mod_to_equations; lia).
  assert (Hr : (y * 12) mod 12 + 1 = 1) by (Z.div_mod_to_equations; lia).
  now rewrite Hq, Hr.
Qed.

(** Going back keeps the order of the days: a year back comes before three
    months back, that before one month back, that before the day; and a year
    back comes before the first of January, which is not after the day. *)
Lemma days_back_in_order (z : Z) :
  years_back z 1 < months_back z 3
  /\ months_back z 3 < months_back z 1
  /\ months_back z 1 < z
  /\ years_back z 1 < new_year z
  /\ new_year z <= z.
Proof.
  pose proof (day_in_month z) as Hz.
  pose proof (months_back_month z 1) as H1.
  pose proof (months_back_month z 3) as H3.
  pose proof (years_back_month z) as HY.
  destruct (new_year_month z) as (j & Hj & HN).
  destruct (Calendar.civil_from_days z) as [[y m] d].
  destruct Hz as (Hz & _ & _ & Hd).
  set (K := month_of z) in *.
  pose proof (month_start_succ (K - 1)) as S1. replace (K - 1 + 1) with K in S1 by lia.
  pose proof (month_start_succ (K - 3)) as S3. replace (K - 3 + 1) with (K - 2) in S3 by lia.
  pose proof (month_start_succ (K - 12)) as SY.
  replace (K - 12 + 1) with (K - 11) in SY by lia.
  pose proof (month_start_mono (K - 2) (K - 1) ltac:(lia)) as M21.
  pose proof (month_start_mono (K - 11) (K - 3) ltac:(lia)) as M113.
  pose proof (month_start_mono (K - 11) (K - j) ltac:(lia)) as M11j.
  pose proof (month_start_mono (K - j) K ltac:(lia)) as MjK.
  pose proof (month_length_bounds (K - 1)). pose proof (month_length_bounds (K - 3)).
  pose proof (month_length_bounds (K - 12)).
  rewrite H1, H3, HY, HN. lia.
Qed.

End CalendarFacts.

(** ** Offsets of a Timestamp *)

Lemma timestamp_split (t : Z) :
  (t = day_of t * Calendar.ns_per_day + t mod Calendar.ns_per_day
   /\ 0 <= t mod Calendar.ns_per_day < Calendar.ns_per_day)%Z.
Proof.
  unfold day_of, Calendar.ns_per_day. split.
  - rewrite Z.mul_comm. apply Z.div_mod. lia.
  - apply Z.mod_pos_bound. lia.
Qed.

Lemma sub_months_day (t n : Z) :
  Calendar.sub_months t n
  = (months_back (day_of t) n * Calendar.ns_per_day + t mod Calendar.ns_per_day)%Z.
Proof.
  unfold Calendar.sub_months, months_back, Calendar.date_of, day_of.
  destruct (Calendar.civil_from_days _) as [[y m] d]. reflexivity.
Qed.

Lemma sub_years_day (t n : Z) :
  Calendar.sub_years t n
  = (years_back (day_of t) n * Calendar.ns_per_day + t mod Calendar.ns_per_day)%Z.
Proof.
  unfold Calendar.sub_years, years_back, Calendar.date_of, day_of.
  destruct (Calendar.civil_from_days _) as [[y m] d]. reflexivity.
Qed.

Lemma new_year_day (t : Z) :
  Calendar.Timestamp (Calendar.year t) 1 1 = (new_year (day_of t) * Calendar.ns_per_day)%Z.
Proof.
  unfold Calendar.Timestamp, Calendar.year, new_year, Calendar.date_of, day_of.
  reflexivity.
Qed.

(** The starts of the windows, from the widest to the narrowest. *)
Lemma offsets_in_order (t : Z) :
  (Calendar.sub_years t 1 < Calendar.sub_months t 3
   /\ Calendar.sub_months t 3 < Calendar.sub_months t 1
   /\ Calendar.sub_months t 1 < t
   /\ Calendar.sub_years t 1 < Calendar.Timestamp (Calendar.year t) 1 1
   /\ Calendar.Timestamp (Calendar.year t) 1 1 <= t)%Z.
Proof.
  rewrite !sub_months_day, sub_years_day, new_year_day.
  destruct (timestamp_split t) as [Ht Hr].
  destruct (days_back_in_order (day_of t)) as (H1 & H2 & H3 & H4 & H5).
  set (r := (t mod Calendar.ns_per_day)%Z) in *.
  set (z := day_of t) in *.
  assert (Hns : (0 < Calendar.ns_per_day)%Z) by (unfold Calendar.ns_per_day; lia).
  repeat split; try nia.
Qed.

(** ** More on the Period Filter *)

Lemma is_max_unique (v : list Z) (a b : Z) : is_max a v -> is_max b v -> a = b.
Proof.
  intros [Ha Fa] [Hb Fb]. rewrite Forall_forall in Fa, Fb.
  apply Fa in Hb. apply Fb in Ha. lia.
Qed.

Lemma maximum_is_max (v : list Z) (hi : Z) : maximum v = Some hi -> is_max hi v.
Proof.
  destruct v as [|t v]; [discriminate|]. intros H.
  destruct (maximum_spec (t :: v)) as (m & Hm & Hmax); [discriminate|]. congruence.
Qed.

Lemma minimum_is_min (v : list Z) (lo : Z) : minimum v = Some lo -> is_min lo v.
Proof.
  destruct v as [|t v]; [discriminate|]. intros H.
  destruct (minimum_spec (t :: v)) as (m & Hm & Hmin); [discriminate|]. congruence.
Qed.

(** The start of the window, key by key. *)
Lemma period_start_cases (period_key : string) (hi lo : Z) (v : list Z) :
  period_start period_key (Some hi) (map Some v) = Ok (Some lo) ->
  (period_key = "1M"%string /\ lo = Calendar.sub_months hi 1)
  \/ (period_key = "3M"%string /\ lo = Calendar.sub_months hi 3)
  \/ (period_key = "YTD"%string /\ lo = Calendar.Timestamp (Calendar.year hi) 1 1)
  \/ (period_key = "1Y"%string /\ lo = Calendar.sub_years hi 1)
  \/ (~ In period_key ["1M"; "3M"; "YTD"; "1Y"]%string /\ is_min lo v).
Proof.
  unfold period_start. rewrite stamps_map_Some.
  destruct (String.eqb_spec period_key "1M") as [->|N1];
    [cbn [option_map]; intros H; left; split; congruence|].
  destruct (String.eqb_spec period_key "3M") as [->|N3];
    [cbn [option_map]; intros H; right; left; split; congruence|].
  destruct (String.eqb_spec period_key "YTD") as [->|NY];
    [intros H; do 2 right; left; split; congruence|].
  destruct (String.eqb_spec period_key "1Y") as [->|N1Y];
    [cbn [option_map]; intros H; do 3 right; left; split; congruence|].
  intros H. assert (H' : minimum v = Some lo) by congruence. apply minimum_is_min in H'.
  rename H' into Hmin. clear H. pose proof Hmin as H.
  do 4 right. split; [|exact H]. simpl. intuition congruence.
Qed.

(** The window never starts after the greatest date. *)
Lemma period_start_le (period_key : string) (hi lo : Z) (v : list Z) :
  is_max hi v ->
  period_start period_key (Some hi) (map Some v) = Ok (Some lo) -> (lo <= hi)%Z.
Proof.
  intros Hmax H. destruct (offsets_in_order hi) as (H1 & H2 & H3 & H4 & H5).
  apply period_start_cases in H.
  destruct H as [[_ ->]|[[_ ->]|[[_ ->]|[[_ ->]|[_ [Hin Hall]]]]]]; try lia.
  destruct Hmax as [_ Hle]. rewrite Forall_forall in Hle. now apply Hle.
Qed.

Lemma loc_all (mask : list bool) (df : DataFrame) :
  wf df -> length mask = len df -> Forall (fun b => b = true) mask -> loc mask df = df.
Proof.
  intros Hwf Hlen Hall. destruct df as [idx cols]. unfold loc. cbn [index columns].
  unfold len in Hlen; cbn [index] in Hlen.
  f_equal; [now apply select_true|].
  unfold wf in Hwf. cbn [columns] in Hwf.
  induction Hwf as [|[c s] cs Hc _ IH]; simpl; [reflexivity|].
  rewrite IH. f_equal. f_equal. unfold size, len in Hc. cbn [snd index] in Hc.
  destruct s; simpl in *; rewrite length_map in Hc; f_equal; apply select_true;
    auto; congruence.
Qed.

Lemma empty_rows (df : DataFrame) (r : row) :
  empty df = false -> forall mask, In r (rows (loc mask df)) -> empty (loc mask df) = false.
Proof.
  intros He mask Hin. unfold empty in *.
  apply orb_false_iff in He. destruct He as [_ Hc].
  apply orb_false_iff. split.
  - rewrite <- rows_length. destruct (rows (loc mask df)); [contradiction|reflexivity].
  - unfold loc. cbn [columns]. now rewrite length_map.
Qed.

(** What [filter_period] does on a tidy table that has rows. *)
Lemma filter_period_cut (df : DataFrame) (period_key : string) :
  TidyTable df -> empty df = false ->
  exists v lo hi,
    getitem df "Date" = Ok (Datetime64 (map Some v))
    /\ map date (rows df) = map Some v
    /\ is_max hi v
    /\ period_start period_key (Some hi) (map Some v) = Ok (Some lo)
    /\ (lo <= hi)%Z
    /\ filter_period df period_key = Ok (loc (between (Some lo) (Some hi) (map Some v)) df)
    /\ rows (loc (between (Some lo) (Some hi) (map Some v)) df)
       = filter (in_window lo hi) (rows df)
    /\ empty (loc (between (Some lo) (Some hi) (map Some v)) df) = false.
Proof.
  intros Ht He. destruct (TidyTable_dates df Ht) as (v & Hd & _ & Hlen).
  pose proof (tidy_wf df Ht) as Hwf.
  destruct (filter_period_run df period_key v Hwf Hd He) as (lo & hi & Hmax & Hst & Hrun & Hrows).
  apply maximum_is_max in Hmax.
  pose proof (period_start_le _ _ _ _ Hmax Hst) as Hle.
  pose proof (dates_of_rows df _ Hwf Hd) as Hdates.
  exists v, lo, hi. repeat split; auto; try apply Hmax.
  destruct Hmax as [Hin _].
  assert (Hr : exists r, In r (rows df) /\ date r = Some hi).
  { apply (in_map Some) in Hin. rewrite <- Hdates in Hin.
    apply in_map_iff in Hin. destruct Hin as (r & Hr & Hin). eauto. }
  destruct Hr as (r & Hr & Hdr).
  apply (empty_rows df r He). rewrite Hrows. apply filter_In. split; [exact Hr|].
  unfold in_window. rewrite Hdr. apply andb_true_iff. split; apply Z.leb_le; lia.
Qed.

Lemma dates_of_tidy_rows (df : DataFrame) (v : list Z) (r : row) :
  map date (rows df) = map Some v -> In r (rows df) -> exists t, date r = Some t /\ In t v.
Proof.
  intros Hd Hr. apply (in_map date) in Hr. rewrite Hd in Hr.
  apply in_map_iff in Hr. destruct Hr as (t & Ht & Hin). eauto.
Qed.

(** The whole table is its own window when the window starts at or before
    its least date. *)
Lemma between_all (lo hi : Z) (v : list Z) :
  Forall (fun t => (lo <= t <= hi)%Z) v ->
  Forall (fun b => b = true) (between (Some lo) (Some hi) (map Some v)).
Proof.
  intros H. unfold between. rewrite map_map. apply Forall_map.
  eapply Forall_impl; [|exact H]. simpl. intros t Ht.
  apply andb_true_iff. split; apply Z.leb_le; lia.
Qed.

(** X4: on a tidy table a key that is none of 1M, 3M, YTD and 1Y, such as
    MAX, gives the table back as it is: no row is dropped, none moved. *)
Theorem filter_period_other_key (df : DataFrame) (period_key : string) :
  TidyTable df -> ~ In period_key ["1M"; "3M"; "YTD"; "1Y"]%string ->
  filter_period df period_key = Ok df.
Proof.
  intros Ht Hkey. destruct (empty df) eqn:He.
  - unfold filter_period. now rewrite He.
  - destruct (filter_period_cut df period_key Ht He)
      as (v & lo & hi & Hd & Hdates & Hmax & Hst & Hle & Hrun & _).
    rewrite Hrun. f_equal. apply loc_all.
    + apply Ht.
    + rewrite between_length, length_map.
      rewrite <- (length_map Some), <- Hdates, length_map. apply rows_length.
    + apply between_all. apply period_start_cases in Hst.
      destruct Hst as [[-> _]|[[-> _]|[[-> _]|[[-> _]|[_ [_ Hmin]]]]]];
        try (exfalso; apply Hkey; simpl; tauto).
      destruct Hmax as [_ Hmax]. rewrite Forall_forall in *.
      intros t Hin. split; auto.
Qed.

(** X6: the windows of a tidy table nest: the rows of the last month are
    rows of the last three months, those are rows of the last year, and so
    are the rows of the year to date; all are rows of the table. *)
Theorem filter_period_windows_nest (df : DataFrame) :
  TidyTable df ->
  exists m1 m3 ytd y1,
    filter_period df "1M" = Ok m1
    /\ filter_period df "3M" = Ok m3
    /\ filter_period df "YTD" = Ok ytd
    /\ filter_period df "1Y" = Ok y1
    /\ incl (rows m1) (rows m3)
    /\ incl (rows m3) (rows y1)
    /\ incl (rows ytd) (rows y1)
    /\ incl (rows y1) (rows df).
Proof.
  intros df_tidy. destruct (empty df) eqn:He.
  - exists df, df, df, df. unfold filter_period. rewrite He.
    repeat split; auto using incl_refl.
  - destruct (filter_period_cut df "1M" df_tidy He)
      as (v & l1 & hi & Hd & _ & Hmax & S1 & _ & R1 & W1 & _).
    destruct (filter_period_cut df "3M" df_tidy He)
      as (v3 & l3 & hi3 & Hd3 & _ & Hmax3 & S3 & _ & R3 & W3 & _).
    destruct (filter_period_cut df "YTD" df_tidy He)
      as (vy & ly & hiy & Hdy & _ & Hmaxy & Sy & _ & Ry & Wy & _).
    destruct (filter_period_cut df "1Y" df_tidy He)
      as (v1 & l1y & hi1 & Hd1 & _ & Hmax1 & S1y & _ & R1y & W1y & _).
    rewrite Hd in Hd3, Hdy, Hd1.
    assert (v3 = v) by (injection Hd3 as E; apply (f_equal stamps) in E;
                        now rewrite !stamps_map_Some in E).
    assert (vy = v) by (injection Hdy as E; apply (f_equal stamps) in E;
                        now rewrite !stamps_map_Some in E).
    assert (v1 = v) by (injection Hd1 as E; apply (f_equal stamps) in E;
                        now rewrite !stamps_map_Some in E).
    subst v3 vy v1.
    rewrite (is_max_unique _ _ _ Hmax3 Hmax) in *.
    rewrite (is_max_unique _ _ _ Hmaxy Hmax) in *.
    rewrite (is_max_unique _ _ _ Hmax1 Hmax) in *.
    apply period_start_cases in S1, S3, Sy, S1y.
    destruct S1 as [[_ ->]|[[E _]|[[E _]|[[E _]|[E _]]]]];
      try discriminate E; try (exfalso; apply E; simpl; tauto).
    destruct S3 as [[E _]|[[_ ->]|[[E _]|[[E _]|[E _]]]]];
      try discriminate E; try (exfalso; apply E; simpl; tauto).
    destruct Sy as [[E _]|[[E _]|[[_ ->]|[[E _]|[E _]]]]];
      try discriminate E; try (exfalso; apply E; simpl; tauto).
    destruct S1y as [[E _]|[[E _]|[[E _]|[[_ ->]|[E _]]]]];
      try discriminate E; try (exfalso; apply E; simpl; tauto).
    destruct (offsets_in_order hi) as (H1 & H2 & H3 & H4 & H5).
    eexists _, _, _, _.
    split; [exact R1|]. split; [exact R3|]. split; [exact Ry|]. split; [exact R1y|].
    split; [|split; [|split]].
    + rewrite W1, W3. intros r Hr. apply filter_In in Hr. apply filter_In.
      split; [tauto|]. destruct Hr as [_ Hr]. unfold in_window in *.
      destruct (date r); [|discriminate].
      apply andb_true_iff in Hr. destruct Hr as [Ha Hb]. apply Z.leb_le in Ha.
      apply andb_true_iff. split; [apply Z.leb_le; lia|exact Hb].
    + rewrite W3, W1y. intros r Hr. apply filter_In in Hr. apply filter_In.
      split; [tauto|]. destruct Hr as [_ Hr]. unfold in_window in *.
      destruct (date r); [|discriminate].
      apply andb_true_iff in Hr. destruct Hr as [Ha Hb]. apply Z.leb_le in Ha.
      apply andb_true_iff. split; [apply Z.leb_le; lia|exact Hb].
    + rewrite Wy, W1y. intros r Hr. apply filter_In in Hr. apply filter_In.
      split; [tauto|]. destruct Hr as [_ Hr]. unfold in_window in *.
      destruct (date r); [|discriminate].
      apply andb_true_iff in Hr. destruct Hr as [Ha Hb]. apply Z.leb_le in Ha.
      apply andb_true_iff. split; [apply Z.leb_le; lia|exact Hb].
    + rewrite W1y. intros r Hr. apply filter_In in Hr. tauto.
Qed.

Lemma history_tidy : TidyTable Sample.history.
Proof.
  constructor.
  - repeat constructor.
  - unfold labels; simpl. repeat constructor; simpl; intuition discriminate.
  - eexists [_; _; _; _; _; _]. split; [reflexivity|].
    repeat constructor; vm_compute; discriminate.
  - intros c s Hin Hc. simpl in Hin.
    destruct Hin as [H|[H|[]]]; injection H as <- <-; eauto; congruence.
Qed.

Lemma filter_period_windows_nest_witness :
  TidyTable Sample.history
  /\ exists m1 m3 ytd y1,
      filter_period Sample.history "1M" = Ok m1
      /\ filter_period Sample.history "3M" = Ok m3
      /\ filter_period Sample.history "YTD" = Ok ytd
      /\ filter_period Sample.history "1Y" = Ok y1
      /\ incl (rows m1) (rows m3)
      /\ incl (rows m3) (rows y1)
      /\ incl (rows ytd) (rows y1)
      /\ incl (rows y1) (rows Sample.history).
Proof.
  split; [exact history_tidy|].
  exact (filter_period_windows_nest Sample.history history_tidy).
Defined.

Lemma filter_period_other_key_witness :
  TidyTable Sample.history
  /\ ~ In "MAX"%string ["1M"; "3M"; "YTD"; "1Y"]%string
  /\ filter_period Sample.history "MAX" = Ok Sample.history.
Proof.
  assert (H : ~ In "MAX"%string ["1M"; "3M"; "YTD"; "1Y"]%string)
    by (simpl; intuition discriminate).
  split; [exact history_tidy|]. split; [exact H|].
  exact (filter_period_other_key Sample.history "MAX" history_tidy H).
Defined.

(** X5: the window of a tidy table that has rows is never empty, whatever
    the key: the table has a greatest date, and every row of that date is in
    the window. *)
Theorem filter_period_keeps_newest (df : DataFrame) (period_key : string) :
  TidyTable df -> empty df = false ->
  exists out hi,
    filter_period df period_key = Ok out
    /\ (forall r, In r (rows df) -> exists t, date r = Some t /\ (t <= hi)%Z)
    /\ (exists r, In r (rows df) /\ date r = Some hi)
    /\ (forall r, In r (rows df) -> date r = Some hi -> In r (rows out))
    /\ empty out = false.
Proof.
  intros Ht He.
  destruct (filter_period_cut df period_key Ht He)
    as (v & lo & hi & Hd & Hdates & Hmax & Hst & Hle & Hrun & Hrows & Hne).
  exists (loc (between (Some lo) (Some hi) (map Some v)) df), hi.
  split; [exact Hrun|]. split; [|split; [|split; [|exact Hne]]].
  - intros r Hr. destruct (dates_of_tidy_rows df v r Hdates Hr) as (t & Hdt & Hin).
    exists t. split; [exact Hdt|]. destruct Hmax as [_ Hall].
    rewrite Forall_forall in Hall. now apply Hall.
  - destruct Hmax as [Hin _]. apply (in_map Some) in Hin. rewrite <- Hdates in Hin.
    apply in_map_iff in Hin. destruct Hin as (r & Hr & Hin). eauto.
  - intros r Hr Hdr. rewrite Hrows. apply filter_In. split; [exact Hr|].
    unfold in_window. rewrite Hdr. apply andb_true_iff. split; apply Z.leb_le; lia.
Qed.

Lemma filter_period_keeps_newest_witness :
  TidyTable Sample.history
  /\ empty Sample.history = false
  /\ exists out hi,
      filter_period Sample.history "1M" = Ok out
      /\ (forall r, In r (rows Sample.history) -> exists t, date r = Some t /\ (t <= hi)%Z)
      /\ (exists r, In r (rows Sample.history) /\ date r = Some hi)
      /\ (forall r, In r (rows Sample.history) -> date r = Some hi -> In r (rows out))
      /\ empty out = false.
Proof.
  split; [exact history_tidy|]. split; [reflexivity|].
  exact (filter_period_keeps_newest Sample.history "1M" history_tidy eq_refl).
Defined.

(** X7: filtering a window again with the key that made it changes
    nothing. *)
Theorem filter_period_idempotent (df out : DataFrame) (period_key : string) :
  TidyTable df -> filter_period df period_key = Ok out ->
  filter_period out period_key = Ok out.
Proof.
  intros Ht H. destruct (empty df) eqn:He.
  - unfold filter_period in H. rewrite He in H. injection H as <-.
    unfold filter_period. now rewrite He.
  - destruct (filter_period_cut df period_key Ht He)
      as (v & lo & hi & Hd & Hdates & Hmax & Hst & Hle & Hrun & Hrows & Hne).
    rewrite Hrun in H. injection H as <-.
    set (out := loc (between (Some lo) (Some hi) (map Some v)) df) in *.
    assert (Hto : TidyTable out) by now apply TidyTable_loc.
    destruct (filter_period_cut out period_key Hto Hne)
      as (v' & lo' & hi' & Hd' & Hdates' & Hmax' & Hst' & Hle' & Hrun' & _ & _).
    rewrite Hrun'. f_equal.
    assert (Hv' : forall t, In t v' -> In t v /\ (lo <= t <= hi)%Z).
    { intros t Hin. apply (in_map Some) in Hin. rewrite <- Hdates' in Hin.
      apply in_map_iff in Hin. destruct Hin as (r & Hdr & Hr).
      rewrite Hrows in Hr. apply filter_In in Hr. destruct Hr as [Hr Hw].
      destruct (dates_of_tidy_rows df v r Hdates Hr) as (t' & Hdt & Hin).
      assert (t' = t) by congruence. subst t'. split; [exact Hin|].
      unfold in_window in Hw. rewrite Hdr in Hw.
      apply andb_true_iff in Hw. destruct Hw as [Ha Hb].
      apply Z.leb_le in Ha. apply Z.leb_le in Hb. lia. }
    assert (Hhi : hi' = hi).
    { apply (is_max_unique v'); [exact Hmax'|]. split.
      - destruct Hmax as [Hin _]. apply (in_map Some) in Hin. rewrite <- Hdates in Hin.
        apply in_map_iff in Hin. destruct Hin as (r & Hdr & Hr).
        assert (Hro : In r (rows out)).
        { rewrite Hrows. apply filter_In. split; [exact Hr|].
          unfold in_window. rewrite Hdr. apply andb_true_iff.
          split; apply Z.leb_le; lia. }
        apply (in_map date) in Hro. rewrite Hdates', Hdr in Hro.
        apply in_map_iff in Hro. destruct Hro as (t & Ht' & Hin). congruence.
      - apply Forall_forall. intros t Hin. apply Hv' in Hin. lia. }
    subst hi'.
    apply loc_all.
    + apply Hto.
    + rewrite between_length, length_map.
      rewrite <- (length_map Some), <- Hdates', length_map. apply rows_length.
    + apply between_all. apply Forall_forall. intros t Hin.
      destruct (Hv' t Hin) as [_ Hlt]. split; [|lia].
      apply period_start_cases in Hst, Hst'.
      destruct Hst' as [[K' ->]|[[K' ->]|[[K' ->]|[[K' ->]|[K' [_ Hmin']]]]]].
      * destruct Hst as [[K ->]|[[K _]|[[K _]|[[K _]|[K _]]]]]; subst; try lia;
          try discriminate; exfalso; apply K; simpl; tauto.
      * destruct Hst as [[K _]|[[K ->]|[[K _]|[[K _]|[K _]]]]]; subst; try lia;
          try discriminate; exfalso; apply K; simpl; tauto.
      * destruct Hst as [[K _]|[[K _]|[[K ->]|[[K _]|[K _]]]]]; subst; try lia;
          try discriminate; exfalso; apply K; simpl; tauto.
      * destruct Hst as [[K _]|[[K _]|[[K _]|[[K ->]|[K _]]]]]; subst; try lia;
          try discriminate; exfalso; apply K; simpl; tauto.
      * rewrite Forall_forall in Hmin'. now apply Hmin'.
Qed.

Lemma filter_period_idempotent_witness :
  TidyTable Sample.history
  /\ filter_period Sample.history "3M"
     = Ok (loc [false; false; false; true; true; true] Sample.history)
  /\ filter_period (loc [false; false; false; true; true; true] Sample.history) "3M"
     = Ok (loc [false; false; false; true; true; true] Sample.history).
Proof.
  assert (H : filter_period Sample.history "3M"
              = Ok (loc [false; false; false; true; true; true] Sample.history))
    by (vm_compute; reflexivity).
  split; [exact history_tidy|]. split; [exact H|].
  exact (filter_period_idempotent Sample.history _ "3M" history_tidy H).
Defined.

(** ** More on strings *)

Lemma lstrip_head (s : string) :
  Str.lstrip s = EmptyString
  \/ exists c t, Str.lstrip s = String c t /\ Str.isspace c = false.
Proof.
  induction s as [|c s IH]; simpl; [now left|].
  destruct (Str.isspace c) eqn:Hc; [exact IH|]. right. eauto.
Qed.

Lemma rstrip_head (c : ascii) (t : string) :
  Str.isspace c = false -> Str.rstrip (String c t) = String c (Str.rstrip t).
Proof. intros Hc. simpl. rewrite Hc. now destruct (Str.rstrip t). Qed.

Lemma rstrip_rstrip (s : string) : Str.rstrip (Str.rstrip s) = Str.rstrip s.
Proof.
  induction s as [|c s IH]; [reflexivity|]. simpl.
  destruct (Str.rstrip s) as [|c' r] eqn:Hr.
  - destruct (Str.isspace c) eqn:Hc; [reflexivity|]. simpl. now rewrite Hc.
  - change (Str.rstrip (String c (String c' r))) with
      (match Str.rstrip (String c' r) with
       | EmptyString => if Str.isspace c then EmptyString else String c EmptyString
       | String _ _ as t => String c t
       end).
    now rewrite IH.
Qed.

(** Stripping a stripped string changes nothing. *)
Lemma strip_strip (s : string) : Str.strip (Str.strip s) = Str.strip s.
Proof.
  unfold Str.strip. destruct (lstrip_head s) as [->|(c & t & -> & Hc)]; [reflexivity|].
  rewrite (rstrip_head c t Hc).
  replace (Str.lstrip (String c (Str.rstrip t))) with (String c (Str.rstrip t))
    by (simpl; now rewrite Hc).
  rewrite <- (rstrip_head c t Hc). apply rstrip_rstrip.
Qed.

(** ** More on lists *)

Lemma NoDup_labels_filter (keep : row -> bool) (rs : list row) :
  NoDup (map fst rs) -> NoDup (map fst (filter keep rs)).
Proof.
  induction rs as [|r rs IH]; simpl; intros H; [constructor|].
  inversion H as [|? ? Hr Hrs]; subst. destruct (keep r); simpl; auto.
  constructor; auto. intros Hin. apply Hr.
  apply in_map_iff in Hin. destruct Hin as (r' & Heq & Hin).
  apply filter_In in Hin. apply in_map_iff. exists r'. tauto.
Qed.

Lemma filter_no_longer {A : Type} (p : A -> bool) (l : list A) :
  length (filter p l) <= length l.
Proof. induction l as [|x l IH]; simpl; [lia|]. destruct (p x); simpl; lia. Qed.

(** ** More on the Tidier *)

Section TidierMore.

Variable parse_float : string -> option float.
Variable parse_datetime : Series -> nat -> option Z.
Variable str_float : float -> string.
Variable str_time : option Z -> string.
Variable argsort : list Z -> list nat.

Local Abbreviation cells_of := (tidy_cells parse_float parse_datetime str_float str_time).
Local Abbreviation tidy := (tidy_df parse_float parse_datetime str_float str_time argsort).
Local Abbreviation read_column :=
  (read_column parse_float parse_datetime str_float str_time).

(** X2: [tidy_df] returns a table exactly when the headers, once stripped,
    are all different and one of them is [Date]; it raises the error of line
    66 when none is [Date], and fails on a repeated header otherwise. *)
Theorem tidy_df_accepts (df : DataFrame) :
  ((exists out, tidy df = Ok out) <->
   In "Date"%string (map Str.strip (labels df)) /\ NoDup (map Str.strip (labels df)))
  /\ (forall e, tidy df = Err e ->
        (e = SchemaError /\ ~ In "Date"%string (map Str.strip (labels df)))
        \/ (exists c, e = DuplicateLabel c
                      /\ In "Date"%string (map Str.strip (labels df))
                      /\ ~ NoDup (map Str.strip (labels df)))).
Proof.
  split; [split|].
  - intros (out & H). apply tidy_df_Ok in H. destruct H as (cells & v & Hc & _).
    apply tidy_cells_Ok in Hc. tauto.
  - intros [Hin Hnd].
    assert (Hc : cells_of df = Ok (mkDataFrame (index df) (map read_column (columns df))))
      by (apply tidy_cells_Ok; auto).
    destruct (tidy_cells_Date _ _ _ _ _ _ Hc) as (v & Hd).
    eexists. apply tidy_df_Ok. eauto.
  - intros e He. apply tidy_df_Err in He. pose proof He as He'.
    apply tidy_cells_Err in He. destruct He as [?|(c & -> & Hin)]; [now left|].
    right. exists c. repeat split; auto. intros Hnd.
    assert (Hc : cells_of df = Ok (mkDataFrame (index df) (map read_column (columns df))))
      by (apply tidy_cells_Ok; auto).
    congruence.
Qed.

Hypothesis argsort_sorts : sorts argsort.

(** The headers [tidy_df] returns are the stripped headers of the sheet. *)
Lemma tidy_df_labels (df out : DataFrame) :
  wf df -> tidy df = Ok out -> labels out = map Str.strip (labels df).
Proof.
  intros Hwf H.
  destruct (tidy_df_sorted _ _ _ _ _ argsort_sorts df out Hwf H)
    as (v & idx & _ & _ & _ & _ & Hout & _).
  rewrite Hout, labels_take, labels_loc. unfold labels; cbn [columns].
  apply read_column_strip.
Qed.

(** X3: what [tidy_df] returns is a tidy table: every column has a cell
    for every row, the headers are the headers of the sheet without the white
    space around them, in their order and all different, [Date] holds
    Timestamps in ascending order and every other column holds floats.  Its
    rows carry labels of rows of the sheet, no label twice where the sheet
    has none twice, and there are no more rows than in the sheet. *)
Theorem tidy_df_table (df out : DataFrame) :
  wf df -> tidy df = Ok out ->
  TidyTable out
  /\ labels out = map Str.strip (labels df)
  /\ Forall (fun c => Str.strip c = c) (labels out)
  /\ incl (index out) (index df)
  /\ (NoDup (index df) -> NoDup (index out))
  /\ len out <= len df.
Proof.
  intros Hwf H.
  pose proof (tidy_df_TidyTable _ _ _ _ _ argsort_sorts df out Hwf H) as Ht.
  pose proof (tidy_df_Permutation _ _ _ _ _ argsort_sorts df out Hwf H) as Hp.
  pose proof (tidy_df_labels df out Hwf H) as Hl.
  set (cells := mkDataFrame (index df) (map read_column (columns df))) in *.
  assert (Hi : Permutation (index out) (map fst (filter has_date (rows cells)))).
  { rewrite <- index_rows. now apply Permutation_map. }
  assert (Hc : map fst (rows cells) = index df) by apply (index_rows cells).
  split; [exact Ht|]. split; [exact Hl|]. split; [|split; [|split]].
  - rewrite Hl. apply Forall_map, Forall_forall. intros c _. apply strip_strip.
  - intros i Hin. apply (Permutation_in _ Hi) in Hin.
    apply in_map_iff in Hin. destruct Hin as (r & <- & Hr).
    apply filter_In in Hr. rewrite <- Hc. apply in_map. tauto.
  - intros Hnd. apply (Permutation_NoDup (Permutation_sym Hi)).
    apply NoDup_labels_filter. now rewrite Hc.
  - rewrite <- (rows_length out), (Permutation_length Hp).
    etransitivity; [apply filter_no_longer|]. now rewrite rows_length.
Qed.

End TidierMore.

Lemma tidy_df_table_witness :
  sorts Readers.stable_argsort
  /\ wf Sample.sheet
  /\ Sample.tidy Readers.stable_argsort Sample.sheet = Ok Sample.sheet_tidy
  /\ TidyTable Sample.sheet_tidy
  /\ labels Sample.sheet_tidy = map Str.strip (labels Sample.sheet)
  /\ Forall (fun c => Str.strip c = c) (labels Sample.sheet_tidy)
  /\ incl (index Sample.sheet_tidy) (index Sample.sheet)
  /\ (NoDup (index Sample.sheet) -> NoDup (index Sample.sheet_tidy))
  /\ len Sample.sheet_tidy <= len Sample.sheet.
Proof.
  assert (H : Sample.tidy Readers.stable_argsort Sample.sheet = Ok Sample.sheet_tidy)
    by (vm_compute; reflexivity).
  split; [exact stable_argsort_sorts|]. split; [exact wf_sheet|]. split; [exact H|].
  exact (tidy_df_table _ _ _ _ _ stable_argsort_sorts Sample.sheet Sample.sheet_tidy
           wf_sheet H).
Defined.

(** ** More on the Rebaser *)

Lemma wf_setitem (df : DataFrame) (c : string) (s : Series) :
  wf df -> size s = len df -> wf (setitem df c s).
Proof.
  intros Hwf Hs. unfold setitem, wf in *.
  destruct (existsb _ _); cbn [columns len index]; fold (len df).
  - apply Forall_map. eapply Forall_impl; [|exact Hwf]. intros [c' s'] H. simpl in *.
    now destruct (String.eqb c' c).
  - apply Forall_app. split; [exact Hwf|]. now constructor.
Qed.

Lemma size_rebased (v : list float) : size (rebased v) = length v.
Proof.
  unfold rebased, size. destruct (first_valid v); simpl; rewrite !length_map; auto.
  apply repeat_length.
Qed.

Lemma labels_setitem_cases (df : DataFrame) (c : string) (s : Series) :
  (In c (labels df) /\ labels (setitem df c s) = labels df)
  \/ (~ In c (labels df) /\ labels (setitem df c s) = labels df ++ [c]).
Proof.
  destruct (in_dec string_dec c (labels df)) as [Hin|Hout].
  - left. split; [exact Hin|]. now apply labels_setitem.
  - right. split; [exact Hout|]. rewrite setitem_append by exact Hout.
    unfold labels; cbn [columns]. now rewrite map_app.
Qed.

(** The frame the loop of lines 94-100 builds. *)
Lemma normalize_columns_frame (df : DataFrame) (cols : list string) :
  TidyTable df -> selectable df cols ->
  forall out out', wf out -> len out = len df ->
    normalize_columns df cols out = Ok out' ->
    wf out'
    /\ incl (labels out') (labels out ++ cols)
    /\ (NoDup (labels out ++ cols) -> labels out' = labels out ++ cols).
Proof.
  intros Ht. induction cols as [|c cols IH]; intros Hsel out out' Hwf Hlen Hrun.
  - simpl in Hrun. injection Hrun as <-. rewrite app_nil_r.
    repeat split; auto using incl_refl.
  - inversion Hsel as [|? ? [Hc Hin] Hsel']; subst.
    destruct (TidyTable_float df c Ht Hc Hin) as (v & Hg & Hv).
    rewrite (normalize_step df out c cols v Hg) in Hrun by congruence.
    apply IH in Hrun; auto.
    + destruct Hrun as (Hwf' & Hincl & Hnd). split; [exact Hwf'|].
      destruct (labels_setitem_cases out c (rebased v)) as [[Hi Hl]|[Hi Hl]];
        rewrite Hl in *.
      * split.
        -- intros x Hx. apply Hincl in Hx. apply in_app_iff in Hx.
           apply in_app_iff. simpl. tauto.
        -- intros Hn. exfalso. apply NoDup_remove_2 in Hn. apply Hn.
           apply in_app_iff. tauto.
      * rewrite <- app_assoc in *. simpl in *. split; [exact Hincl|exact Hnd].
    + apply wf_setitem; [exact Hwf|]. rewrite size_rebased. congruence.
    + unfold len. rewrite index_setitem. exact Hlen.
Qed.

(** X8: the table [normalize_from_first] makes of a tidy table and a
    selection of its series without repetition has the column [Date] and
    then the selected series, in the order of the selection, and nothing
    else; every column has a cell for every row; the dates and the row labels
    are those of the table. *)
Theorem normalize_from_first_frame (df : DataFrame) (cols : list string) :
  TidyTable df -> selectable df cols -> NoDup cols ->
  exists out,
    normalize_from_first df cols = Ok out
    /\ labels out = "Date"%string :: cols
    /\ wf out
    /\ index out = index df
    /\ getitem out "Date" = getitem df "Date"
    /\ (forall c, ~ In c ("Date"%string :: cols) -> getitem out c = Err (KeyError c)).
Proof.
  intros Ht Hsel Hnd.
  destruct (normalize_from_first_spec df cols Ht Hsel) as (out & Hrun & Hidx & Hd & _).
  destruct (TidyTable_dates df Ht) as (d & Hdate & _ & Hlen).
  pose proof Hrun as Hrun'. unfold normalize_from_first in Hrun'.
  rewrite Hdate in Hrun'. cbn [bind] in Hrun'.
  apply (normalize_columns_frame df cols Ht Hsel) in Hrun'.
  - destruct Hrun' as (Hwf & _ & Hl).
    assert (Hlabels : labels out = "Date"%string :: cols).
    { apply Hl. unfold labels; simpl. constructor; [|exact Hnd].
      intros Hin. unfold selectable in Hsel. rewrite Forall_forall in Hsel.
      destruct (Hsel _ Hin) as [Hne _]. congruence. }
    exists out. repeat split; auto.
    intros c Hc. rewrite <- Hlabels in Hc. unfold getitem.
    replace (filter _ (columns out)) with (@nil (string * Series)); [reflexivity|].
    symmetry. now apply filter_label_nil.
  - constructor; [|constructor]. unfold size, len. simpl. now rewrite !length_map.
  - reflexivity.
Qed.

Lemma normalize_from_first_frame_witness :
  TidyTable Sample.prices
  /\ selectable Sample.prices ["A"; "B"; "Z"]%string
  /\ NoDup ["A"; "B"; "Z"]%string
  /\ exists out,
      normalize_from_first Sample.prices ["A"; "B"; "Z"]%string = Ok out
      /\ labels out = ["Date"; "A"; "B"; "Z"]%string
      /\ wf out
      /\ index out = index Sample.prices
      /\ getitem out "Date" = getitem Sample.prices "Date"
      /\ (forall c, ~ In c ["Date"; "A"; "B"; "Z"]%string -> getitem out c = Err (KeyError c)).
Proof.
  assert (H : NoDup ["A"; "B"; "Z"]%string)
    by (repeat constructor; simpl; intuition discriminate).
  split; [exact prices_tidy|]. split; [exact prices_selectable|]. split; [exact H|].
  exact (normalize_from_first_frame Sample.prices _ prices_tidy prices_selectable H).
Defined.

(** What the loop raises on a table that has rows. *)
Lemma normalize_columns_raises (df : DataFrame) (cols : list string) :
  TidyTable df -> len df <> 0 ->
  forall out, len out = len df ->
    (~ selectable df cols -> exists e, normalize_columns df cols out = Err e)
    /\ (forall e, normalize_columns df cols out = Err e ->
          (e = TypeError /\ In "Date"%string cols)
          \/ (exists c, e = KeyError c /\ In c cols /\ ~ In c (labels df))).
Proof.
  intros Ht Hrows. destruct (TidyTable_dates df Ht) as (d & Hdate & _ & Hlen).
  induction cols as [|c cols IH]; intros out Hout.
  - split; [intros H; exfalso; apply H; constructor|discriminate].
  - destruct (String.eqb_spec c "Date") as [->|Hc].
    + assert (Hrun : normalize_columns df ("Date"%string :: cols) out = Err TypeError).
      { cbn [normalize_columns]. rewrite Hdate. cbn [bind].
        destruct d as [|t d]; [simpl in Hlen; congruence|]. reflexivity. }
      rewrite Hrun. split; [eauto|]. intros e [= <-]. left. simpl. auto.
    + destruct (in_dec string_dec c (labels df)) as [Hin|Hnin].
      * destruct (TidyTable_float df c Ht Hc Hin) as (v & Hg & Hv).
        rewrite (normalize_step df out c cols v Hg) by congruence.
        destruct (IH (setitem out c (rebased v))) as [IH1 IH2].
        { unfold len. rewrite index_setitem. exact Hout. }
        split.
        -- intros Hns. apply IH1. intros Hs. apply Hns. constructor; auto.
        -- intros e He. destruct (IH2 e He) as [[-> Hd]|(c' & -> & Hc' & Hn)].
           ++ left. simpl. auto.
           ++ right. exists c'. simpl. auto.
      * assert (Hrun : normalize_columns df (c :: cols) out = Err (KeyError c)).
        { cbn [normalize_columns]. unfold getitem.
          replace (filter _ (columns df)) with (@nil (string * Series)); [reflexivity|].
          symmetry. now apply filter_label_nil. }
        rewrite Hrun. split; [eauto|]. intros e [= <-]. right. exists c. simpl. auto.
Qed.

(** X9: on a tidy table that has rows [normalize_from_first] returns
    exactly for the selections of series of the table; what it raises
    otherwise is KeyError on a selected name that is no header, or TypeError
    when [Date] is selected. *)
Theorem normalize_from_first_accepts (df : DataFrame) (cols : list string) :
  TidyTable df -> len df <> 0 ->
  ((exists out, normalize_from_first df cols = Ok out) <-> selectable df cols)
  /\ (forall e, normalize_from_first df cols = Err e ->
        (e = TypeError /\ In "Date"%string cols)
        \/ (exists c, e = KeyError c /\ In c cols /\ ~ In c (labels df))).
Proof.
  intros Ht Hrows. destruct (TidyTable_dates df Ht) as (d & Hdate & _ & Hlen).
  assert (Hrun : normalize_from_first df cols
                 = normalize_columns df cols
                     (mkDataFrame (index df) [("Date"%string, Datetime64 (map Some d))])).
  { unfold normalize_from_first. now rewrite Hdate. }
  destruct (normalize_columns_raises df cols Ht Hrows
              (mkDataFrame (index df) [("Date"%string, Datetime64 (map Some d))]) eq_refl)
    as [H1 H2].
  rewrite Hrun. split; [split|exact H2].
  - intros (out & Hok). destruct (Forall_dec (fun c => c <> "Date"%string /\ In c (labels df)))
      with (l := cols) as [Hs|Hs].
    + intros c. destruct (string_dec c "Date") as [->|Hc]; [right; tauto|].
      destruct (in_dec string_dec c (labels df)); [left|right]; tauto.
    + exact Hs.
    + destruct (H1 Hs) as (e & He). congruence.
  - intros Hs. destruct (normalize_from_first_spec df cols Ht Hs) as (out & Hok & _).
    exists out. congruence.
Qed.

Lemma normalize_from_first_accepts_witness :
  TidyTable Sample.prices
  /\ len Sample.prices <> 0
  /\ ((exists out, normalize_from_first Sample.prices ["A"; "X"]%string = Ok out)
      <-> selectable Sample.prices ["A"; "X"]%string)
  /\ (forall e, normalize_from_first Sample.prices ["A"; "X"]%string = Err e ->
        (e = TypeError /\ In "Date"%string ["A"; "X"]%string)
        \/ (exists c, e = KeyError c /\ In c ["A"; "X"]%string
                      /\ ~ In c (labels Sample.prices))).
Proof.
  assert (H : len Sample.prices <> 0) by (vm_compute; discriminate).
  split; [exact prices_tidy|]. split; [exact H|].
  exact (normalize_from_first_accepts Sample.prices ["A"; "X"]%string prices_tidy H).
Defined.

(** The rebased table, for any selection of series of the table. *)
Lemma normalize_from_first_table (df : DataFrame) (cols : list string) :
  TidyTable df -> selectable df cols ->
  exists out,
    normalize_from_first df cols = Ok out
    /\ wf out
    /\ incl (labels out) ("Date"%string :: cols)
    /\ index out = index df
    /\ getitem out "Date" = getitem df "Date"
    /\ (forall c, In c cols -> exists s, getitem out c = Ok s).
Proof.
  intros Ht Hsel.
  destruct (normalize_from_first_spec df cols Ht Hsel) as (out & Hrun & Hidx & Hd & Hc).
  destruct (TidyTable_dates df Ht) as (d & Hdate & _ & Hlen).
  pose proof Hrun as Hrun'. unfold normalize_from_first in Hrun'.
  rewrite Hdate in Hrun'. cbn [bind] in Hrun'.
  apply (normalize_columns_frame df cols Ht Hsel) in Hrun'.
  - destruct Hrun' as (Hwf & Hincl & _). exists out. repeat split; auto.
    intros c Hin. unfold selectable in Hsel. rewrite Forall_forall in Hsel.
    destruct (Hsel c Hin) as [Hne Hl].
    destruct (TidyTable_float df c Ht Hne Hl) as (v & Hg & _). eauto.
  - constructor; [|constructor]. unfold size, len. simpl. now rewrite !length_map.
  - reflexivity.
Qed.

(** ** The text of the sheet *)

Lemma remove_notin (c : N) (t : Page.text) : ~ In c (Page.remove c t).
Proof.
  unfold Page.remove. intros H. apply filter_In in H. destruct H as [_ H].
  now rewrite N.eqb_refl in H.
Qed.

Lemma remove_fixed (c : N) (t : Page.text) : ~ In c t -> Page.remove c t = t.
Proof.
  unfold Page.remove. induction t as [|x t IH]; simpl; intros H; [reflexivity|].
  destruct (N.eqb_spec x c) as [->|Hx]; [tauto|]. simpl. f_equal. tauto.
Qed.

(** X1: [fetch_csv] passes on what [requests.get] raises; on a status from
    400 to 599 it raises HTTPError; otherwise its result is that of the CSV
    reader on the text of the answer with every U+00A0 taken out and nothing
    else changed, so on the text itself when it holds none. *)
Theorem fetch_csv_clean (get : string -> Page.failure + Page.response)
        (read_csv : Page.text -> Page.failure + DataFrame) (url : string) :
  (forall e, get url = inl e -> Page.fetch_csv get read_csv url = inl e)
  /\ (forall r, get url = inr r ->
        (400 <= Page.status_code r < 600)%Z ->
        Page.fetch_csv get read_csv url = inl (Page.HTTPError (Page.status_code r)))
  /\ (forall r, get url = inr r ->
        ~ (400 <= Page.status_code r < 600)%Z ->
        exists clean,
          Page.fetch_csv get read_csv url = read_csv clean
          /\ ~ In Page.nbsp clean
          /\ clean = filter (fun c => negb (N.eqb c Page.nbsp)) (Page.body r)
          /\ (~ In Page.nbsp (Page.body r) -> clean = Page.body r)).
Proof.
  unfold Page.fetch_csv, Page.raise_for_status. split; [|split].
  - intros e ->. reflexivity.
  - intros r -> H.
    replace ((400 <=? Page.status_code r)%Z && (Page.status_code r <? 600)%Z) with true;
      [reflexivity|].
    symmetry. apply andb_true_iff. split; [apply Z.leb_le|apply Z.ltb_lt]; lia.
  - intros r -> H.
    replace ((400 <=? Page.status_code r)%Z && (Page.status_code r <? 600)%Z) with false.
    + exists (Page.remove Page.nbsp (Page.body r)).
      rewrite (remove_fixed Page.nbsp (Page.remove _ _)) by apply remove_notin.
      repeat split; auto using remove_notin. intros Hn. now apply remove_fixed.
    + symmetry. apply andb_false_iff.
      destruct (Z.leb_spec 400 (Page.status_code r)); [|now left].
      right. apply Z.ltb_ge. lia.
Qed.

(** ** The series picked *)

Lemma prefix_spec (sub s : string) :
  String.prefix sub s = true <-> exists post, s = (sub ++ post)%string.
Proof.
  revert s; induction sub as [|a sub IH]; intros s; simpl.
  - split; [intros _; exists s; reflexivity|intros _; now destruct s].
  - destruct s as [|b s]; [split; [discriminate|intros (post & H); discriminate]|].
    simpl. destruct (Ascii.ascii_dec a b) as [->|Hab].
    + rewrite IH. split; intros (post & H); exists post; congruence.
    + split; [discriminate|]. intros (post & H). congruence.
Qed.

(** [sub in s] holds when [sub] stands somewhere in [s]. *)
Lemma contains_spec (sub s : string) :
  Page.contains sub s = true <-> exists pre post, s = (pre ++ sub ++ post)%string.
Proof.
  induction s as [|a s IH].
  - cbn [Page.contains]. rewrite orb_false_r, prefix_spec. split.
    + intros (post & H). exists EmptyString, post. exact H.
    + intros ([|c pre] & post & H); [eauto|discriminate].
  - cbn [Page.contains]. rewrite orb_true_iff, prefix_spec, IH. split.
    + intros [(post & H)|(pre & post & H)].
      * exists EmptyString, post. exact H.
      * exists (String a pre), post. simpl. now rewrite H.
    + intros ([|c pre] & post & H).
      * left. eauto.
      * right. simpl in H. injection H as _ H. eauto.
Qed.

Lemma In_of_firstn {A : Type} (n : nat) (l : list A) (x : A) : In x (firstn n l) -> In x l.
Proof.
  revert l; induction n as [|n IH]; intros [|y l]; simpl; try tauto.
  intros [H|H]; auto.
Qed.

Lemma NoDup_of_firstn {A : Type} (n : nat) (l : list A) : NoDup l -> NoDup (firstn n l).
Proof.
  revert l; induction n as [|n IH]; intros [|y l] H; simpl; try constructor.
  - inversion H; subst. intros Hin. apply In_of_firstn in Hin. contradiction.
  - inversion H; subst. auto.
Qed.

Lemma default_pick_cases (l : list string) :
  (filter (Page.contains "Pensum") l = [] /\ Page.default_pick l = firstn 3 l)
  \/ (filter (Page.contains "Pensum") l <> []
      /\ Page.default_pick l = firstn 3 (filter (Page.contains "Pensum") l)).
Proof.
  unfold Page.default_pick. destruct (filter _ l) as [|x f]; [now left|].
  right. split; [discriminate|reflexivity].
Qed.

Lemma default_pick_incl (l : list string) : incl (Page.default_pick l) l.
Proof.
  intros x Hx. destruct (default_pick_cases l) as [[_ E]|[_ E]]; rewrite E in Hx;
    apply In_of_firstn in Hx; auto. apply filter_In in Hx. tauto.
Qed.

(** X10: the series picked by default are series of the table, at most
    three, without repetition when the headers have none, and some whenever
    there is a series; they all have Pensum in their name when some series
    has, and are the first three series when none has. *)
Theorem default_pick_offered (l : list string) :
  incl (Page.default_pick l) l
  /\ length (Page.default_pick l) <= 3
  /\ (NoDup l -> NoDup (Page.default_pick l))
  /\ (l <> [] -> Page.default_pick l <> [])
  /\ ((exists s, In s l /\ Page.contains "Pensum" s = true) ->
      Forall (fun s => exists pre post, s = (pre ++ "Pensum" ++ post)%string)
             (Page.default_pick l))
  /\ ((forall s, In s l -> Page.contains "Pensum" s = false) ->
      Page.default_pick l = firstn 3 l).
Proof.
  split; [apply default_pick_incl|].
  destruct (default_pick_cases l) as [[F E]|[F E]]; rewrite E.
  - split; [apply firstn_le_length|]. split; [apply NoDup_of_firstn|].
    split; [destruct l; simpl; congruence|]. split; [|reflexivity].
    intros (s & Hs & Hc). exfalso.
    assert (Hin : In s (filter (Page.contains "Pensum") l)) by (apply filter_In; auto).
    now rewrite F in Hin.
  - split; [apply firstn_le_length|].
    split; [intros H; apply NoDup_of_firstn, NoDup_filter, H|].
    split; [intros _; destruct (filter _ l); simpl; congruence|]. split.
    + intros _. apply Forall_forall. intros s Hs. apply In_of_firstn in Hs.
      apply filter_In in Hs. now apply contains_spec.
    + intros Hnone. exfalso. apply F.
      destruct (filter _ l) as [|x f] eqn:Hf; [reflexivity|].
      assert (Hx : In x (filter (Page.contains "Pensum") l)) by (rewrite Hf; simpl; auto).
      apply filter_In in Hx. destruct Hx as [Hx Hc]. rewrite (Hnone x Hx) in Hc.
      discriminate.
Qed.

(** ** The long table *)

Lemma In_combine_nth {A B : Type} (l : list A) (l' : list B) (a d : A) (b d' : B) :
  length l = length l' ->
  (In (a, b) (combine l l') <->
   exists i, i < length l /\ nth i l d = a /\ nth i l' d' = b).
Proof.
  intros Hlen. split.
  - intros Hin. apply (In_nth _ _ (d, d')) in Hin. destruct Hin as (i & Hi & Hn).
    rewrite length_combine, <- Hlen, Nat.min_id in Hi.
    rewrite combine_nth in Hn by exact Hlen. injection Hn as <- <-. eauto.
  - intros (i & Hi & <- & <-). rewrite <- combine_nth by exact Hlen.
    apply nth_In. now rewrite length_combine, <- Hlen, Nat.min_id.
Qed.

Lemma In_rows (df : DataFrame) (r : row) :
  In r (rows df) <-> exists i, i < len df /\ r = row_at df i.
Proof.
  unfold rows. rewrite in_map_iff. split.
  - intros (i & <- & Hi). apply in_seq in Hi. exists i. split; [lia|reflexivity].
  - intros (i & Hi & ->). exists i. split; [reflexivity|]. apply in_seq. lia.
Qed.

(** The blocks of the long table, series by series. *)
Lemma melt_columns_points (df : DataFrame) (dates : Series) (value_vars : list string) :
  wf df -> getitem df "Date" = Ok dates ->
  forall points, Page.melt_columns df dates value_vars = Ok points ->
    length points = len df * length value_vars
    /\ (forall d c x,
          In (d, c, x) points <->
          In c value_vars
          /\ exists r, In r (rows df) /\ cell r "Date" = Some d /\ cell r c = Some x).
Proof.
  intros Hwf Hd. pose proof (getitem_size df _ _ Hwf Hd) as Hsd. unfold size in Hsd.
  induction value_vars as [|c0 cols IH]; intros points H.
  - simpl in H. injection H as <-. split; [simpl; lia|].
    intros d c x. simpl. tauto.
  - cbn [Page.melt_columns] in H.
    destruct (getitem df c0) as [s|e] eqn:Hs; [|discriminate]. cbn [bind] in H.
    destruct (Page.melt_columns df dates cols) as [rest|e]; [|discriminate].
    cbn [bind] in H. injection H as <-.
    destruct (IH rest eq_refl) as [IHl IHp].
    pose proof (getitem_size df _ _ Hwf Hs) as Hss. unfold size in Hss.
    split.
    + rewrite length_app, length_map, length_combine, Hsd, Hss, Nat.min_id.
      unfold Page.point in *. rewrite IHl. simpl. lia.
    + intros d c x. rewrite in_app_iff, IHp, in_map_iff. split.
      * intros [([d' x'] & Heq & Hin)|[Hc Hr]]; [|simpl; tauto].
        simpl in Heq. injection Heq as -> -> ->.
        apply (In_combine_nth _ _ d (SObj PyNaN) x (SObj PyNaN)) in Hin; [|congruence].
        destruct Hin as (i & Hi & Hdi & Hxi). split; [simpl; auto|].
        exists (row_at df i). split; [apply In_row_at; congruence|].
        rewrite (cell_row_at df _ _ i Hd), (cell_row_at df _ _ i Hs). now subst.
      * intros [[->|Hc] (r & Hr & Hcd & Hcx)].
        -- left. exists (d, x). split; [reflexivity|].
           apply In_rows in Hr. destruct Hr as (i & Hi & ->).
           rewrite (cell_row_at df _ _ i Hd) in Hcd.
           rewrite (cell_row_at df _ _ i Hs) in Hcx.
           injection Hcd as <-. injection Hcx as <-.
           apply (In_combine_nth _ _ _ (SObj PyNaN) _ (SObj PyNaN)); [congruence|].
           exists i. split; [congruence|auto].
        -- right. split; [exact Hc|]. eauto.
Qed.

Lemma melt_columns_Ok (df : DataFrame) (dates : Series) (value_vars : list string) :
  (forall c, In c value_vars -> exists s, getitem df c = Ok s) ->
  exists points, Page.melt_columns df dates value_vars = Ok points.
Proof.
  induction value_vars as [|c cols IH]; intros H; simpl; [eauto|].
  destruct (H c (or_introl eq_refl)) as (s & ->).
  destruct IH as (rest & ->); [intros c' Hc'; apply H; simpl; auto|].
  simpl. eauto.
Qed.

Lemma pensum_chart_inr (df : DataFrame) (cols : list string) (points : list Page.point) :
  Page.pensum_chart df cols = inr points ->
  exists dates, getitem df "Date" = Ok dates
                /\ Page.melt_columns df dates cols = Ok points.
Proof.
  unfold Page.pensum_chart, Page.melt. destruct (existsb _ _); [discriminate|].
  destruct (getitem df "Date") as [dates|e]; [|discriminate]. cbn [bind].
  destruct (Page.melt_columns df dates cols) as [pts|e] eqn:Hm; [|discriminate].
  intros [= <-]. eauto.
Qed.

(** X11: the long table [pensum_chart] draws has one point for every row
    and picked series, and no other: a date, a series and a value make a
    point exactly when the series is picked and some row of the table holds
    that date under [Date] and that value under the series. *)
Theorem pensum_chart_points (df_pct : DataFrame) (cols : list string)
        (points : list Page.point) :
  wf df_pct -> Page.pensum_chart df_pct cols = inr points ->
  length points = len df_pct * length cols
  /\ (forall d c x,
        In (d, c, x) points <->
        In c cols
        /\ exists r, In r (rows df_pct) /\ cell r "Date" = Some d /\ cell r c = Some x).
Proof.
  intros Hwf H. apply pensum_chart_inr in H. destruct H as (dates & Hd & Hm).
  now apply (melt_columns_points df_pct dates cols Hwf Hd).
Qed.

Lemma pensum_chart_points_witness :
  wf Sample.prices
  /\ Page.pensum_chart Sample.prices ["A"; "Z"]%string
     = inr [(STime (Some (Sample.jan 1)), "A"%string, SFloat 100%float);
            (STime (Some (Sample.jan 2)), "A"%string, SFloat 110%float);
            (STime (Some (Sample.jan 3)), "A"%string, SFloat 90%float);
            (STime (Some (Sample.jan 1)), "Z"%string, SFloat nan);
            (STime (Some (Sample.jan 2)), "Z"%string, SFloat 0%float);
            (STime (Some (Sample.jan 3)), "Z"%string, SFloat 5%float)]
  /\ length [(STime (Some (Sample.jan 1)), "A"%string, SFloat 100%float);
            (STime (Some (Sample.jan 2)), "A"%string, SFloat 110%float);
            (STime (Some (Sample.jan 3)), "A"%string, SFloat 90%float);
            (STime (Some (Sample.jan 1)), "Z"%string, SFloat nan);
            (STime (Some (Sample.jan 2)), "Z"%string, SFloat 0%float);
            (STime (Some (Sample.jan 3)), "Z"%string, SFloat 5%float)]
     = len Sample.prices * length ["A"; "Z"]%string
  /\ (forall d c x,
        In (d, c, x)
           [(STime (Some (Sample.jan 1)), "A"%string, SFloat 100%float);
            (STime (Some (Sample.jan 2)), "A"%string, SFloat 110%float);
            (STime (Some (Sample.jan 3)), "A"%string, SFloat 90%float);
            (STime (Some (Sample.jan 1)), "Z"%string, SFloat nan);
            (STime (Some (Sample.jan 2)), "Z"%string, SFloat 0%float);
            (STime (Some (Sample.jan 3)), "Z"%string, SFloat 5%float)] <->
        In c ["A"; "Z"]%string
        /\ exists r, In r (rows Sample.prices) /\ cell r "Date" = Some d /\ cell r c = Some x).
Proof.
  assert (Hwf : wf Sample.prices) by apply prices_tidy.
  assert (H : Page.pensum_chart Sample.prices ["A"; "Z"]%string
     = inr [(STime (Some (Sample.jan 1)), "A"%string, SFloat 100%float);
            (STime (Some (Sample.jan 2)), "A"%string, SFloat 110%float);
            (STime (Some (Sample.jan 3)), "A"%string, SFloat 90%float);
            (STime (Some (Sample.jan 1)), "Z"%string, SFloat nan);
            (STime (Some (Sample.jan 2)), "Z"%string, SFloat 0%float);
            (STime (Some (Sample.jan 3)), "Z"%string, SFloat 5%float)])
    by (vm_compute; reflexivity).
  split; [exact Hwf|]. split; [exact H|].
  exact (pensum_chart_points Sample.prices _ _ Hwf H).
Defined.

(** ** The dates shown *)

Lemma digit_char_of_nat (k : nat) :
  k < 10 ->
  Readers.digit (Page.digit_char (Z.of_nat k)) = Some (Z.of_nat k)
  /\ Ascii.eqb (Page.digit_char (Z.of_nat k)) "." = false.
Proof.
  intros H. do 10 (destruct k as [|k]; [split; reflexivity|]). lia.
Qed.

Lemma digit_char_digit (n : Z) :
  (0 <= n <= 9)%Z ->
  Readers.digit (Page.digit_char n) = Some n
  /\ Ascii.eqb (Page.digit_char n) "." = false.
Proof.
  intros H. rewrite <- (Z2Nat.id n) by lia. apply digit_char_of_nat. lia.
Qed.

Lemma pad2_digits (n : Z) :
  (0 <= n <= 99)%Z ->
  exists a b, Page.pad2 n = String a (String b EmptyString)
              /\ Readers.two_digits a b = Some n
              /\ Ascii.eqb a "." = false /\ Ascii.eqb b "." = false.
Proof.
  intros H. unfold Page.pad2.
  assert (Hq : (0 <= n / 10 <= 9)%Z) by (Z.div_mod_to_equations; lia).
  assert (Hr : (0 <= n mod 10 <= 9)%Z) by (Z.div_mod_to_equations; lia).
  destruct (digit_char_digit _ Hq) as [Dq Eq].
  destruct (digit_char_digit _ Hr) as [Dr Er].
  do 2 eexists. split; [reflexivity|]. split; [|auto].
  unfold Readers.two_digits. rewrite Dq, Dr. f_equal. Z.div_mod_to_equations; lia.
Qed.

(** A date of a year of four digits, as the table shows it, read back day
    first. *)
Lemma strftime_reads_back (t : Z) :
  (1000 <= Calendar.year t <= 9999)%Z ->
  Readers.parse_dmy (Str.replace "." "/" (Page.strftime t))
  = Some (day_of t * Calendar.ns_per_day)%Z.
Proof.
  unfold Calendar.year, Page.strftime, Calendar.date_of. fold (day_of t).
  pose proof (civil_round_trip (day_of t)) as Hr.
  pose proof (civil_valid (day_of t)) as Hv.
  destruct (Calendar.civil_from_days (day_of t)) as [[y m] d]. simpl fst.
  destruct Hr as (Hz & Hm & Hd). intros Hy.
  destruct (pad2_digits d ltac:(lia)) as (d1 & d2 & -> & Dd & Ed1 & Ed2).
  destruct (pad2_digits m ltac:(lia)) as (m1 & m2 & -> & Dm & Em1 & Em2).
  assert (Hyh : (0 <= y / 100 <= 99)%Z) by (Z.div_mod_to_equations; lia).
  assert (Hyl : (0 <= y mod 100 <= 99)%Z) by (Z.div_mod_to_equations; lia).
  destruct (pad2_digits _ Hyh) as (y1 & y2 & -> & Dyh & Ey1 & Ey2).
  destruct (pad2_digits _ Hyl) as (y3 & y4 & -> & Dyl & Ey3 & Ey4).
  cbn [String.append Str.replace].
  rewrite Ed1, Ed2, Em1, Em2, Ey1, Ey2, Ey3, Ey4.
  change (Ascii.eqb "." ".") with true. cbn iota. cbn [String.append].
  unfold Readers.parse_dmy. cbn [list_ascii_of_string].
  rewrite Dd, Dm, Dyh, Dyl.
  replace (100 * (y / 100) + y mod 100)%Z with y by (Z.div_mod_to_equations; lia).
  replace ((1 <=? m)%Z && (m <=? 12)%Z && (1 <=? d)%Z && (d <=? Calendar.days_in_month y m)%Z)
    with true.
  - unfold Calendar.Timestamp. now rewrite Hz.
  - symmetry. rewrite !andb_true_iff. repeat split; apply Z.leb_le; lia.
Qed.

Lemma getitem_setitem_present (df : DataFrame) (c : string) (s0 s : Series) :
  getitem df c = Ok s0 -> getitem (setitem df c s) c = Ok s.
Proof.
  intros H. apply getitem_Ok in H. destruct H as (pre & post & Hc & Hpre & Hpost).
  destruct df as [idx cols]. cbn [columns] in Hc. subst cols.
  rewrite (setitem_replace idx pre post c s0 s Hpre Hpost).
  apply getitem_Ok. exists pre, post. auto.
Qed.

Lemma table_view_spec (dfn : DataFrame) (v : list Z) :
  getitem dfn "Date" = Ok (Datetime64 (map Some v)) ->
  exists df_show,
    Page.table_view dfn = inr df_show
    /\ labels df_show = labels dfn
    /\ index df_show = index dfn
    /\ (forall c, c <> "Date"%string -> getitem df_show c = getitem dfn c)
    /\ getitem df_show "Date" = Ok (Object (map (fun t => PyStr (Page.strftime t)) v)).
Proof.
  intros Hd. unfold Page.table_view. rewrite Hd. cbn [Page.pandas Page.dt_strftime].
  eexists. split; [reflexivity|].
  split; [apply labels_setitem; eapply getitem_labels; eauto|].
  split; [apply index_setitem|].
  split; [intros c Hc; now apply getitem_setitem_other|].
  rewrite map_map. eapply getitem_setitem_present; eauto.
Qed.

(** X12: the table view differs from the rebased table in the column
    [Date] only, which holds the dates as text; the text of a date of a year
    of four digits is day, month and year with points between, so that it
    reads back, day first, as the day of that date. *)
Theorem table_view_dates (dfn : DataFrame) (v : list Z) :
  getitem dfn "Date" = Ok (Datetime64 (map Some v)) ->
  exists df_show,
    Page.table_view dfn = inr df_show
    /\ labels df_show = labels dfn
    /\ index df_show = index dfn
    /\ (forall c, c <> "Date"%string -> getitem df_show c = getitem dfn c)
    /\ getitem df_show "Date" = Ok (Object (map (fun t => PyStr (Page.strftime t)) v))
    /\ (forall t, In t v -> (1000 <= Calendar.year t <= 9999)%Z ->
          Readers.parse_dmy (Str.replace "." "/" (Page.strftime t))
          = Some (day_of t * Calendar.ns_per_day)%Z).
Proof.
  intros Hd. destruct (table_view_spec dfn v Hd) as (df_show & H1 & H2 & H3 & H4 & H5).
  exists df_show. repeat split; auto.
  intros t _ Hy. now apply strftime_reads_back.
Qed.

Lemma table_view_dates_witness :
  getitem Sample.prices "Date"
  = Ok (Datetime64 (map Some [Sample.jan 1; Sample.jan 2; Sample.jan 3]))
  /\ exists df_show,
      Page.table_view Sample.prices = inr df_show
      /\ labels df_show = labels Sample.prices
      /\ index df_show = index Sample.prices
      /\ (forall c, c <> "Date"%string -> getitem df_show c = getitem Sample.prices c)
      /\ getitem df_show "Date"
         = Ok (Object (map (fun t => PyStr (Page.strftime t))
                           [Sample.jan 1; Sample.jan 2; Sample.jan 3]))
      /\ (forall t, In t [Sample.jan 1; Sample.jan 2; Sample.jan 3] ->
            (1000 <= Calendar.year t <= 9999)%Z ->
            Readers.parse_dmy (Str.replace "." "/" (Page.strftime t))
            = Some (day_of t * Calendar.ns_per_day)%Z).
Proof.
  split; [reflexivity|].
  exact (table_view_dates Sample.prices [Sample.jan 1; Sample.jan 2; Sample.jan 3] eq_refl).
Defined.

(** ** The page *)

Lemma pandas_inl {A : Type} (r : result A) (x : Page.exception) :
  Page.pandas r = inl x -> exists e, x = Page.Pandas e.
Proof. destruct r; simpl; [discriminate|]. intros [= <-]. eauto. Qed.

Lemma pensum_chart_inl (df : DataFrame) (cols : list string) (x : Page.exception) :
  Page.pensum_chart df cols = inl x -> x <> Page.NameError.
Proof.
  unfold Page.pensum_chart, Page.melt. destruct (existsb _ _).
  - intros [= <-]. discriminate.
  - intros H. apply pandas_inl in H. destruct H as (e & ->). discriminate.
Qed.

Lemma table_view_inl (df : DataFrame) (x : Page.exception) :
  Page.table_view df = inl x -> x <> Page.NameError.
Proof.
  unfold Page.table_view. destruct (Page.pandas (getitem df "Date")) as [y|d] eqn:E.
  - intros [= <-]. apply pandas_inl in E. destruct E as (e & ->). discriminate.
  - destruct d; simpl; intros [= <-]; discriminate.
Qed.

Lemma tidy_has_rows (df : DataFrame) : TidyTable df -> empty df = (len df =? 0).
Proof.
  intros Ht. destruct (TidyTable_dates df Ht) as (v & Hd & _).
  apply getitem_In in Hd. unfold empty.
  destruct (columns df); [contradiction|]. simpl. apply orb_false_r.
Qed.

Lemma all_series_selectable (df dff : DataFrame) (picked : list string) :
  labels dff = labels df -> incl picked (Page.all_series df) -> selectable dff picked.
Proof.
  intros Hl Hincl. apply Forall_forall. intros c Hc. apply Hincl in Hc.
  unfold Page.all_series in Hc. apply filter_In in Hc. destruct Hc as [Hin Hne].
  rewrite Hl. split; [|exact Hin]. intros ->. discriminate.
Qed.

Lemma filter_period_labels (df out : DataFrame) (period_key : string) :
  TidyTable df -> filter_period df period_key = Ok out ->
  labels out = labels df /\ (empty out = true <-> len df = 0).
Proof.
  intros Ht H. pose proof (tidy_has_rows df Ht) as He.
  destruct (empty df) eqn:Hemp.
  - unfold filter_period in H. rewrite Hemp in H. injection H as <-.
    split; [reflexivity|]. rewrite Hemp. symmetry in He. apply Nat.eqb_eq in He. tauto.
  - destruct (filter_period_cut df period_key Ht Hemp)
      as (v & lo & hi & _ & _ & _ & _ & _ & Hrun & _ & Hne).
    rewrite Hrun in H. injection H as <-. split; [apply labels_loc|].
    rewrite Hne. symmetry in He. apply Nat.eqb_neq in He. split; [discriminate|tauto].
Qed.

Lemma filter_period_returns (df : DataFrame) (period_key : string) :
  TidyTable df -> exists out, filter_period df period_key = Ok out.
Proof.
  intros Ht. destruct (empty df) eqn:Hemp.
  - exists df. unfold filter_period. now rewrite Hemp.
  - destruct (filter_period_cut df period_key Ht Hemp)
      as (v & lo & hi & _ & _ & _ & _ & _ & Hrun & _). eauto.
Qed.

Section Script.

Variable parse_float : string -> option float.
Variable parse_datetime : Series -> nat -> option Z.
Variable str_float : float -> string.
Variable str_time : option Z -> string.
Variable argsort : list Z -> list nat.
Variable pandas_message : error -> string.
Variable multiselect : list string -> list string -> list string.
Variable show_tbl : bool.

Local Abbreviation tidy := (tidy_df parse_float parse_datetime str_float str_time argsort).
Local Abbreviation render := (Page.render multiselect show_tbl).
Local Abbreviation page :=
  (Page.page parse_float parse_datetime str_float str_time argsort pandas_message
             multiselect show_tbl).
Local Abbreviation picked_of df :=
  (multiselect (Page.all_series df) (Page.default_pick (Page.all_series df))).

Lemma render_not_NameError (df : DataFrame) (period : string) :
  render df period <> inl Page.NameError.
Proof.
  unfold Page.render.
  destruct (negb _); [discriminate|].
  destruct (Page.pandas (filter_period df period)) as [x|dff] eqn:E1.
  { apply pandas_inl in E1. destruct E1 as (e & ->). discriminate. }
  destruct (_ || _); [discriminate|].
  destruct (Page.pandas (normalize_from_first dff _)) as [x|dfn] eqn:E2.
  { apply pandas_inl in E2. destruct E2 as (e & ->). discriminate. }
  destruct (Page.pensum_chart dfn _) as [x|points] eqn:E3.
  { apply pensum_chart_inl in E3. congruence. }
  destruct show_tbl; [|discriminate].
  destruct (Page.table_view dfn) as [x|tbl] eqn:E4; [|discriminate].
  apply table_view_inl in E4. congruence.
Qed.

(** X14: the page raises NameError exactly when loading the sheet raised
    an exception whose message is empty: line 158 then takes [error] for
    unset, and line 162 reads [df], which was never assigned. *)
Theorem page_NameError (fetched : string + DataFrame) (period : string) :
  page fetched period = inl Page.NameError <->
  fetched = inl ""%string
  \/ exists df_raw e, fetched = inr df_raw /\ tidy df_raw = Err e
                      /\ Page.str_exception pandas_message e = ""%string.
Proof.
  unfold Page.page, Page.load. destruct fetched as [msg|df_raw].
  - destruct msg as [|c msg].
    + split; [auto|reflexivity].
    + split; [discriminate|]. intros [H|(d & e & H & _)]; discriminate.
  - destruct (tidy df_raw) as [df|e] eqn:Ht.
    + split.
      * intros H. now apply render_not_NameError in H.
      * intros [H|(d & e & H & He & _)]; [discriminate|]. injection H as <-. congruence.
    + destruct (Page.str_exception pandas_message e) as [|c msg] eqn:Hm.
      * split; [|reflexivity]. intros _. right. exists df_raw, e. auto.
      * split; [discriminate|]. intros [H|(d & e' & H & He & Hs)]; [discriminate|].
        injection H as <-. rewrite Ht in He. injection He as <-. congruence.
Qed.

(** X13: a sheet without a [Date] header ends in the error box, with the
    message of line 66 behind the prefix of line 159. *)
Theorem page_without_Date (df_raw : DataFrame) (period : string) :
  ~ In "Date"%string (map Str.strip (labels df_raw)) ->
  page (inr df_raw) period
  = inr (Page.ErrorBox "Kunne ikke laste data: Fant ikke kolonnen 'Date' i CSV.").
Proof.
  intros H. unfold Page.page, Page.load.
  destruct (tidy df_raw) as [df|e] eqn:Ht.
  - apply tidy_df_Ok in Ht. destruct Ht as (cells & v & Hc & _).
    apply tidy_cells_Ok in Hc. tauto.
  - apply tidy_df_Err in Ht. apply tidy_cells_Err in Ht.
    destruct Ht as [[-> _]|(c & _ & Hin)]; [reflexivity|contradiction].
Qed.

Hypothesis multiselect_options :
  forall options default, incl default options -> incl (multiselect options default) options.

(** What the page shows of a tidy table. *)
Lemma render_tidy (df : DataFrame) (period : string) :
  TidyTable df -> ~ In "Endring (%)"%string (labels df) ->
  (len df = 0 \/ picked_of df = [] -> render df period = inr Page.InfoBox)
  /\ (len df <> 0 -> picked_of df <> [] ->
      exists dff dfn points table,
        filter_period df period = Ok dff
        /\ normalize_from_first dff (picked_of df) = Ok dfn
        /\ Page.pensum_chart dfn (picked_of df) = inr points
        /\ len dff <> 0
        /\ length points = len dff * length (picked_of df)
        /\ (if show_tbl then exists df_show, Page.table_view dfn = inr df_show
                                            /\ table = Some df_show
            else table = None)
        /\ render df period = inr (Page.Chart points table)).
Proof.
  intros Ht Hname.
  assert (Hdef : forallb (fun d => existsb (String.eqb d) (Page.all_series df))
                         (Page.default_pick (Page.all_series df)) = true).
  { apply forallb_forall. intros d Hd. apply existsb_label.
    now apply default_pick_incl. }
  assert (Hpick : incl (picked_of df) (Page.all_series df)).
  { apply multiselect_options, default_pick_incl. }
  destruct (filter_period_returns df period Ht) as (dff & Hf).
  destruct (filter_period_labels df dff period Ht Hf) as [Hl He].
  pose proof (filter_period_TidyTable df dff period Ht Hf) as Htf.
  unfold Page.render. rewrite Hdef, Hf. cbn [negb Page.pandas].
  split.
  - intros [H0|Hnil].
    + apply He in H0. now rewrite H0.
    + rewrite Hnil. simpl. now rewrite orb_true_r.
  - intros Hrows Hsome.
    assert (Hne : empty dff = false).
    { destruct (empty dff); [|reflexivity]. exfalso. apply Hrows. now apply He. }
    rewrite Hne. cbn [orb].
    replace (length (picked_of df) =? 0) with false
      by (destruct (picked_of df); [congruence|reflexivity]).
    pose proof (all_series_selectable df dff _ Hl Hpick) as Hsel.
    destruct (normalize_from_first_table dff _ Htf Hsel)
      as (dfn & Hn & Hwf & Hincl & Hidx & Hd & Hcols).
    rewrite Hn. cbn [Page.pandas].
    destruct (TidyTable_dates dff Htf) as (v & Hdate & _ & Hlen).
    rewrite Hdate in Hd.
    assert (Hfree : existsb (String.eqb "Endring (%)") (labels dfn) = false).
    { destruct (existsb _ _) eqn:Hx; [|reflexivity]. exfalso.
      apply existsb_label in Hx. apply Hincl in Hx. destruct Hx as [Hx|Hx].
      - discriminate.
      - apply Hpick in Hx. apply filter_In in Hx. tauto. }
    destruct (melt_columns_Ok dfn (Datetime64 (map Some v)) (picked_of df) Hcols)
      as (points & Hm).
    assert (Hchart : Page.pensum_chart dfn (picked_of df) = inr points).
    { unfold Page.pensum_chart, Page.melt. rewrite Hfree, Hd. cbn [bind].
      now rewrite Hm. }
    rewrite Hchart.
    destruct (melt_columns_points dfn _ _ Hwf Hd points Hm) as [Hcount _].
    assert (Hlen' : len dfn = len dff) by (unfold len; now rewrite Hidx).
    assert (Hrows' : len dff <> 0).
    { intros H0. unfold empty in Hne. rewrite H0 in Hne. discriminate. }
    destruct (table_view_spec dfn v Hd) as (df_show & Hview & _).
    exists dff, dfn, points, (if show_tbl then Some df_show else None).
    repeat split; auto; try congruence.
    + destruct show_tbl; eauto.
    + destruct show_tbl; [now rewrite Hview|reflexivity].
Qed.

Hypothesis argsort_sorts : sorts argsort.

(** X15: what the page shows of a sheet [tidy_df] accepts: the note of line
    173 exactly when the tidy table has no row or no series is picked; and
    else the chart, drawn from one point for every row of the window and
    picked series, the window having rows, with the table view exactly when
    the box of line 180 is ticked. *)
Theorem page_info_or_chart (df_raw df : DataFrame) (period : string) :
  wf df_raw -> ~ In "Endring (%)"%string (map Str.strip (labels df_raw)) ->
  tidy df_raw = Ok df ->
  (page (inr df_raw) period = inr Page.InfoBox <-> len df = 0 \/ picked_of df = [])
  /\ (len df <> 0 -> picked_of df <> [] ->
      exists dff dfn points table,
        filter_period df period = Ok dff
        /\ normalize_from_first dff (picked_of df) = Ok dfn
        /\ Page.pensum_chart dfn (picked_of df) = inr points
        /\ len dff <> 0
        /\ length points = len dff * length (picked_of df)
        /\ (table = None <-> show_tbl = false)
        /\ page (inr df_raw) period = inr (Page.Chart points table)).
Proof.
  intros Hwf Hname Htidy.
  pose proof (tidy_df_TidyTable _ _ _ _ _ argsort_sorts df_raw df Hwf Htidy) as Ht.
  rewrite <- (tidy_df_labels _ _ _ _ _ argsort_sorts df_raw df Hwf Htidy) in Hname.
  destruct (render_tidy df period Ht Hname) as [Hinfo Hchart].
  assert (Hpage : page (inr df_raw) period = render df period).
  { unfold Page.page, Page.load. now rewrite Htidy. }
  rewrite Hpage. split; [split; [|exact Hinfo]|].
  - intros Hbox. destruct (Nat.eq_dec (len df) 0) as [H0|H0]; [now left|].
    destruct (picked_of df) as [|c l] eqn:Hp; [now right|]. exfalso.
    destruct (Hchart H0) as (dff & dfn & points & table & _ & _ & _ & _ & _ & _ & Hr);
      [discriminate|]. congruence.
  - intros H0 Hp.
    destruct (Hchart H0 Hp) as (dff & dfn & points & table & H1 & H2 & H3 & H4 & H5 & H6 & H7).
    exists dff, dfn, points, table. repeat split; auto.
    + intros ->. destruct show_tbl; [|reflexivity].
      destruct H6 as (s & _ & H6). discriminate.
    + intros Hs. rewrite Hs in H6. exact H6.
Qed.

(** X17: when the table has rows and a series called [Endring (%)] is
    among the picked ones, the page raises the error of [melt], which
    refuses to call the values as a column of the frame is called. *)
Theorem page_series_called_as_the_values (df_raw df : DataFrame) (period : string) :
  wf df_raw -> tidy df_raw = Ok df -> len df <> 0 ->
  In "Endring (%)"%string (picked_of df) ->
  page (inr df_raw) period = inl Page.ValueNameTaken.
Proof.
  intros Hwf Htidy Hrows Hin.
  pose proof (tidy_df_TidyTable _ _ _ _ _ argsort_sorts df_raw df Hwf Htidy) as Ht.
  assert (Hpage : page (inr df_raw) period = render df period).
  { unfold Page.page, Page.load. now rewrite Htidy. }
  rewrite Hpage.
  assert (Hdef : forallb (fun d => existsb (String.eqb d) (Page.all_series df))
                         (Page.default_pick (Page.all_series df)) = true).
  { apply forallb_forall. intros d Hd. apply existsb_label.
    now apply default_pick_incl. }
  assert (Hpick : incl (picked_of df) (Page.all_series df)).
  { apply multiselect_options, default_pick_incl. }
  destruct (filter_period_returns df period Ht) as (dff & Hf).
  destruct (filter_period_labels df dff period Ht Hf) as [Hl He].
  pose proof (filter_period_TidyTable df dff period Ht Hf) as Htf.
  unfold Page.render. rewrite Hdef, Hf. cbn [negb Page.pandas].
  assert (Hne : empty dff = false).
  { destruct (empty dff); [|reflexivity]. exfalso. apply Hrows. now apply He. }
  rewrite Hne. cbn [orb].
  replace (length (picked_of df) =? 0) with false
    by (destruct (picked_of df); [contradiction|reflexivity]).
  pose proof (all_series_selectable df dff _ Hl Hpick) as Hsel.
  destruct (normalize_from_first_table dff _ Htf Hsel)
    as (dfn & Hn & _ & _ & _ & _ & Hcols).
  rewrite Hn. cbn [Page.pandas].
  destruct (Hcols _ Hin) as (s & Hs). apply getitem_labels in Hs.
  unfold Page.pensum_chart, Page.melt.
  replace (existsb (String.eqb "Endring (%)") (labels dfn)) with true; [reflexivity|].
  symmetry. now apply existsb_label.
Qed.

Hypothesis messages : forall e, pandas_message e <> ""%string.

(** X16: from the loading of the sheet to the data of the chart and of the
    table view, no step of the page raises: whatever the sheet holds, the
    period and the choice of the user, the page ends in the error box, the
    note or the chart.  This is for exceptions with a message, a choice among
    the options offered, and no series called [Endring (%)]. *)
Theorem page_never_raises (fetched : string + DataFrame) (period : string) :
  match fetched with
  | inl msg => msg <> ""%string
  | inr df_raw => wf df_raw /\ ~ In "Endring (%)"%string (map Str.strip (labels df_raw))
  end ->
  exists view, page fetched period = inr view.
Proof.
  intros H. destruct fetched as [msg|df_raw].
  - unfold Page.page, Page.load. destruct msg as [|c msg]; [congruence|eauto].
  - destruct H as [Hwf Hname]. destruct (tidy df_raw) as [df|e] eqn:Htidy.
    + pose proof (tidy_df_TidyTable _ _ _ _ _ argsort_sorts df_raw df Hwf Htidy) as Ht.
      rewrite <- (tidy_df_labels _ _ _ _ _ argsort_sorts df_raw df Hwf Htidy) in Hname.
      destruct (render_tidy df period Ht Hname) as [Hinfo Hchart].
      assert (Hpage : page (inr df_raw) period = render df period).
      { unfold Page.page, Page.load. now rewrite Htidy. }
      rewrite Hpage.
      destruct (Nat.eq_dec (len df) 0) as [H0|H0]; [rewrite Hinfo; eauto|].
      destruct (picked_of df) as [|c l] eqn:Hp; [rewrite Hinfo; eauto|].
      destruct (Hchart H0) as (dff & dfn & points & table & _ & _ & _ & _ & _ & _ & Hr);
        [discriminate|]. eauto.
    + unfold Page.page, Page.load. rewrite Htidy.
      destruct (Page.str_exception pandas_message e) as [|c msg] eqn:Hm; [|eauto].
      exfalso. destruct e; simpl in Hm; try discriminate; now apply messages in Hm.
Qed.

End Script.

Lemma page_without_Date_witness :
  ~ In "Date"%string (map Str.strip (labels Sample.sheet_undated))
  /\ sample_page (inr Sample.sheet_undated) "YTD"
     = inr (Page.ErrorBox "Kunne ikke laste data: Fant ikke kolonnen 'Date' i CSV.").
Proof.
  assert (H : ~ In "Date"%string (map Str.strip (labels Sample.sheet_undated)))
    by (vm_compute; intuition discriminate).
  split; [exact H|].
  exact (page_without_Date _ _ _ _ _ _ _ _ Sample.sheet_undated "YTD" H).
Defined.

Lemma keep_default_options (options default : list string) :
  incl default options -> incl (keep_default options default) options.
Proof. intros H. exact H. Qed.

Lemma sheet_free : ~ In "Endring (%)"%string (map Str.strip (labels Sample.sheet)).
Proof. vm_compute. intuition discriminate. Qed.

Lemma sheet_tidied : Sample.tidy Readers.stable_argsort Sample.sheet = Ok Sample.sheet_tidy.
Proof. vm_compute. reflexivity. Qed.

Lemma page_info_or_chart_witness :
  (forall options default, incl default options -> incl (keep_default options default) options)
  /\ sorts Readers.stable_argsort
  /\ wf Sample.sheet
  /\ ~ In "Endring (%)"%string (map Str.strip (labels Sample.sheet))
  /\ Sample.tidy Readers.stable_argsort Sample.sheet = Ok Sample.sheet_tidy
  /\ (sample_page (inr Sample.sheet) "YTD" = inr Page.InfoBox <->
      len Sample.sheet_tidy = 0 \/ ["Fond A"%string] = [])
  /\ (len Sample.sheet_tidy <> 0 -> ["Fond A"%string] <> [] ->
      exists dff dfn points table,
        filter_period Sample.sheet_tidy "YTD" = Ok dff
        /\ normalize_from_first dff ["Fond A"%string] = Ok dfn
        /\ Page.pensum_chart dfn ["Fond A"%string] = inr points
        /\ len dff <> 0
        /\ length points = len dff * length ["Fond A"%string]
        /\ (table = None <-> true = false)
        /\ sample_page (inr Sample.sheet) "YTD" = inr (Page.Chart points table)).
Proof.
  split; [exact keep_default_options|]. split; [exact stable_argsort_sorts|].
  split; [exact wf_sheet|]. split; [exact sheet_free|]. split; [exact sheet_tidied|].
  exact (page_info_or_chart _ _ _ _ _ (fun _ => "error"%string) keep_default true
           keep_default_options stable_argsort_sorts Sample.sheet Sample.sheet_tidy "YTD"
           wf_sheet sheet_free sheet_tidied).
Defined.

Lemma page_never_raises_witness :
  (forall options default, incl default options -> incl (keep_default options default) options)
  /\ sorts Readers.stable_argsort
  /\ (forall e : error, "error"%string <> ""%string)
  /\ (wf Sample.sheet /\ ~ In "Endring (%)"%string (map Str.strip (labels Sample.sheet)))
  /\ exists view, sample_page (inr Sample.sheet) "YTD" = inr view.
Proof.
  assert (Hm : forall e : error, "error"%string <> ""%string) by (intros _; discriminate).
  split; [exact keep_default_options|]. split; [exact stable_argsort_sorts|].
  split; [exact Hm|]. split; [exact (conj wf_sheet sheet_free)|].
  exact (page_never_raises _ _ _ _ _ (fun _ => "error"%string) keep_default true
           keep_default_options stable_argsort_sorts Hm (inr Sample.sheet) "YTD"
           (conj wf_sheet sheet_free)).
Defined.

Lemma sheet_endring_tidied :
  Sample.tidy Readers.stable_argsort sheet_endring = Ok sheet_endring_tidy.
Proof. vm_compute. reflexivity. Qed.

Lemma page_series_called_as_the_values_witness :
  (forall options default, incl default options -> incl (keep_default options default) options)
  /\ sorts Readers.stable_argsort
  /\ wf sheet_endring
  /\ Sample.tidy Readers.stable_argsort sheet_endring = Ok sheet_endring_tidy
  /\ len sheet_endring_tidy <> 0
  /\ In "Endring (%)"%string ["Endring (%)"%string]
  /\ sample_page (inr sheet_endring) "MAX" = inl Page.ValueNameTaken.
Proof.
  assert (Hwf : wf sheet_endring) by (repeat constructor).
  assert (Hrows : len sheet_endring_tidy <> 0) by (vm_compute; discriminate).
  assert (Hin : In "Endring (%)"%string ["Endring (%)"%string]) by (simpl; auto).
  split; [exact keep_default_options|]. split; [exact stable_argsort_sorts|].
  split; [exact Hwf|]. split; [exact sheet_endring_tidied|]. split; [exact Hrows|].
  split; [exact Hin|].
  exact (page_series_called_as_the_values _ _ _ _ _ (fun _ => "error"%string) keep_default
           true keep_default_options stable_argsort_sorts sheet_endring sheet_endring_tidy
           "MAX" Hwf sheet_endring_tidied Hrows Hin).
Defined.

(* ================================================================== *)
(** ** The page at work on the sample sheets *)

(** The sheet of [Sample]: three rows with a date, the series rebased on its
    first number, the dates of the table view as text. *)
Example page_of_sheet :
  sample_page (inr Sample.sheet) "YTD"
  = inr (Page.Chart
           [(STime (Some (Sample.jan 1)), "Fond A"%string, SFloat nan);
            (STime (Some (Sample.jan 2)), "Fond A"%string, SFloat 0%float);
            (STime (Some (Sample.jan 2)), "Fond A"%string, SFloat nan)]
           (Some (mkDataFrame [2; 0; 3]
                    [("Date"%string,
                      Object [PyStr "01.01.2024"; PyStr "02.01.2024"; PyStr "02.01.2024"]);
                     ("Fond A"%string, Float64 [nan; 0; nan]%float)]))).
Proof. vm_compute. reflexivity. Qed.

(** A sheet without rows, a request that failed, a failure without a
    message. *)
Example page_of_other_sheets :
  sample_page (inr Sample.no_rows) "YTD" = inr Page.InfoBox
  /\ sample_page (inl "404 Client Error"%string) "YTD"
     = inr (Page.ErrorBox "Kunne ikke laste data: 404 Client Error")
  /\ sample_page (inl ""%string) "YTD" = inl Page.NameError.
Proof. repeat split; vm_compute; reflexivity. Qed.

Example default_pick_of_series :
  Page.default_pick ["Pensum A"; "Index"; "Pensum B"; "Pensum C"; "Pensum D"]%string
  = ["Pensum A"; "Pensum B"; "Pensum C"]%string
  /\ Page.default_pick ["Index"; "Fond A"; "Fond B"; "Fond C"]%string
     = ["Index"; "Fond A"; "Fond B"]%string
  /\ Page.default_pick ["Index"; "Pensum A"]%string = ["Pensum A"%string].
Proof. repeat split; reflexivity. Qed.

(** The 29th of February 2024, five nanoseconds after midnight. *)
Example strftime_leap_day :
  Page.strftime (Calendar.Timestamp 2024 2 29 + 5) = "29.02.2024"%string.
Proof. vm_compute. reflexivity. Qed.

(** The text [1], U+00A0, [2] reaches the CSV reader as [12]. *)
Example fetch_csv_of_nbsp :
  Page.fetch_csv (fun _ => inr (Page.mkResponse 200 [49; 160; 50]%N))
                 (fun t => inl (Page.ParserError
                                  (if (length t =? 2) then "two" else "other")))
                 "https://docs.google.com/"
  = inl (Page.ParserError "two").
Proof. reflexivity. Qed.
